(** * gst-variable-rtsp-server: adaptive quality controller and command/status IPC

    A shallow embedding of [src/gst-variable-rtsp-server.c].  The source file
    holds two variants of the program: version 1.4 (snake_case names, module
    [V14]) and version 1.5 (camelCase names, module [V15]).  Both are embedded,
    function by function, as computations in a small state-and-trap monad over
    the [struct stream_info] / [struct StreamInfo] singleton, the trace of
    externally visible actions, and an oracle for the results of [open(2)]. *)

From Stdlib Require Import ZArith List String Ascii Bool Lia QArith Qabs.
Import ListNotations.
Open Scope string_scope.
Open Scope Z_scope.

Set Implicit Arguments.

(** ** 32-bit [gint] arithmetic *)

Module CInt.

Definition INT_MIN : Z := -2147483648.
Definition INT_MAX : Z := 2147483647.

Definition in_range (z : Z) : Prop := INT_MIN <= z <= INT_MAX.

(** Two's-complement wrap-around of a mathematical integer into [gint]. *)
Definition wrap (z : Z) : Z := (z + 2147483648) mod 4294967296 - 2147483648.

Definition add (a b : Z) : Z := wrap (a + b).
Definition sub (a b : Z) : Z := wrap (a - b).
Definition mul (a b : Z) : Z := wrap (a * b).

(** [a / b] of C: truncation toward zero; the division traps when the
    divisor is zero or the quotient is not representable. *)
Definition div (a b : Z) : option Z :=
  if (b =? 0) || ((a =? INT_MIN) && (b =? -1)) then None
  else Some (Z.quot a b).

End CInt.

(** ** The external collaborator: GStreamer objects *)

(** An element of the media pipeline, as far as the core looks at it: its
    name in the bin, its class name, and the names of its static pads. *)
Record GstElement : Type := mkElement {
  el_name : string;
  el_class : string;
  el_pads : list string
}.

(** A bin is the collection of the elements it holds. *)
Definition GstBin : Type := list GstElement.

Record GstPad : Type := mkPad {
  pad_owner : string;
  pad_name : string
}.

Inductive gobject : Type :=
| ObjBin (b : GstBin)
| ObjElement (e : GstElement)
| ObjPad (p : GstPad).

Inductive gvalue : Type :=
| VInt (z : Z)
| VString (s : string)
| VDouble (d : Q).

(** [enum {pipeline=0, source, encoder, protocol, sink}]: the slots of the
    [si->stream] array.  A slot is [None] when the pointer is [NULL].  The
    record stands for the array while [si->stream] points to one, from the
    connection of the first client to the leaving of the last.  Outside of
    that (the pointer is [NULL] at the start, and dangles once the array is
    freed) the state carries [no_elements], and a read of a slot, at which
    the C program has a memory fault, is no fault of the model. *)
Record elements : Type := mkElements {
  pipeline : option GstBin;
  source : option GstElement;
  encoder : option GstElement;
  protocol : option GstElement
}.

Definition no_elements : elements := mkElements None None None None.

Definition gst_bin_get_by_name (bin : GstBin) (name : string) : option GstElement :=
  find (fun e => String.eqb (el_name e) name) bin.

(** ** Observable actions *)

(** Arguments of a printf-style call, kept unformatted. *)
Inductive arg : Type :=
| AStr (s : string)
| AInt (z : Z).

(** The text handed to the status channel: the pieces of the [sprintf] calls
    that build it, or the property dump of one element. *)
Inductive payload : Type :=
| Pieces (ps : list (string * list arg))
| ElementProps (e : GstElement).

Inductive event : Type :=
| Dbg (lvl : Z) (func : string) (fmt : string) (args : list arg)
| Print (fmt : string) (args : list arg)
| PrintErr (fmt : string) (args : list arg)
| PipeMsg (stream : Z) (msg_type : string) (body : payload)
| StdoutMsg (envelope : option string) (body : payload)
| SysOpen (path : string) (fd : Z)
| SetProperty (obj : gobject) (name : string) (v : gvalue)
| GCritical (api : string)
| SetStateNull (b : GstBin)
| Unref (obj : gobject)
| TimeoutAdd (ms : Z) (callback : string)
| SignalConnect (signal : string) (callback : string).

Definition is_set_property (e : event) : bool :=
  match e with SetProperty _ _ _ => true | _ => false end.

Definition is_open (e : event) : bool :=
  match e with SysOpen _ _ => true | _ => false end.

Definition is_pipe_msg (e : event) : bool :=
  match e with PipeMsg _ _ _ => true | _ => false end.

Definition is_stdout_msg (e : event) : bool :=
  match e with StdoutMsg _ _ => true | _ => false end.



(** ** The monad: state, trace, [open] oracle, and traps *)

Inductive fault : Type :=
| DivideError
| BufferOverrun.

Inductive result (A : Type) : Type :=
| Ok (a : A)
| Trap (f : fault).
Arguments Trap {A} f.

Record world (S : Type) : Type := World {
  w_si : S;
  w_out : list event;
  w_open : list Z
}.

Definition M (S A : Type) : Type := world S -> result (A * world S).

Definition ret {S A} (a : A) : M S A := fun w => Ok (a, w).

Definition bind {S A B} (c : M S A) (k : A -> M S B) : M S B :=
  fun w => match c w with
           | Ok (a, w') => k a w'
           | Trap f => Trap f
           end.

Notation "x <- c ;; k" := (bind c (fun x => k))
  (at level 61, c at next level, right associativity).
Notation "c ;; k" := (bind c (fun _ => k))
  (at level 61, right associativity).

Definition trap {S A} (f : fault) : M S A := fun _ => Trap f.

Definition get_si {S} : M S S := fun w => Ok (w_si w, w).

Definition put_si {S} (s : S) : M S unit :=
  fun w => Ok (tt, World s (w_out w) (w_open w)).

Definition emit {S} (e : event) : M S unit :=
  fun w => Ok (tt, World (w_si w) (w_out w ++ [e]) (w_open w)).

Definition lift_div {S} (o : option Z) : M S Z :=
  match o with Some z => ret z | None => trap DivideError end.

(** The next answer of the operating system to [open], [-1] when the
    oracle has run dry. *)
Definition next_open (opens : list Z) : Z :=
  match opens with
  | [] => -1
  | fd :: _ => fd
  end.

(** [open(path, flags)] *)
Definition sys_open {S} (path : string) : M S Z :=
  fun w =>
    let fd := next_open (w_open w) in
    Ok (fd, World (w_si w) (w_out w ++ [SysOpen path fd]) (tl (w_open w))).

(** [fdopen(fd, "w")]: a stream over a valid descriptor, [NULL] otherwise. *)
Definition fdopen (fd : Z) : option Z :=
  if 0 <=? fd then Some fd else None.

Definition when {S} (b : bool) (c : M S unit) : M S unit :=
  if b then c else ret tt.

(** Running a computation from a state, a fresh trace and an oracle. *)
Definition run {S A} (c : M S A) (si : S) (opens : list Z) : result (A * world S) :=
  c (World si [] opens).

Definition modify {S} (f : S -> S) : M S unit :=
  si <- get_si ;; put_si (f si).

(** The [dbg] macro: a call is recorded with its level, the calling function
    ([__func__]) and the format as written in the source (escape sequences
    left unexpanded); it is printed when the global debug level reaches
    [lvl]. *)
Definition dbg {S} (lvl : Z) (func fmt : string) (args : list arg) : M S unit :=
  emit (Dbg lvl func fmt args).

Fixpoint for_each {S A} (f : A -> M S unit) (l : list A) : M S unit :=
  match l with
  | [] => ret tt
  | a :: l' => f a ;; for_each f l'
  end.

(** GLib and GStreamer entry points.  They check their object argument
    ([g_return_if_fail]): on [NULL] they log a critical warning and do
    nothing. *)
Definition g_object_set_property {S} (obj : option gobject) (name : string)
    (v : gvalue) : M S unit :=
  match obj with
  | Some o => emit (SetProperty o name v)
  | None => emit (GCritical "g_object_set_property")
  end.

Definition gst_object_unref {S} (obj : option gobject) : M S unit :=
  match obj with
  | Some o => emit (Unref o)
  | None => emit (GCritical "gst_object_unref")
  end.

(** The static pad of an element by name. *)
Definition static_pad (el : GstElement) (name : string) : option GstPad :=
  if existsb (String.eqb name) (el_pads el)
  then Some (mkPad (el_name el) name) else None.

Definition gst_element_get_static_pad {S} (e : option GstElement)
    (name : string) : M S (option GstPad) :=
  match e with
  | Some el => ret (static_pad el name)
  | None => emit (GCritical "gst_element_get_static_pad") ;; ret None
  end.

(** Characters the protocol looks at. *)
Definition newline : ascii := ascii_of_nat 10.
Definition colon : ascii := ascii_of_nat 58.
Definition NUL : ascii := ascii_of_nat 0.
Definition dquote : string := String (ascii_of_nat 34) EmptyString.

(** [catme]: the one-character C string holding [c]; it is the empty string
    when [c] is the NUL byte. *)
Definition catme (c : ascii) : string :=
  if Ascii.eqb c NUL then EmptyString else String c EmptyString.

(** [strcat(params[i], s)] on the array of fields. *)
Fixpoint strcat_at (i : nat) (s : string) (ps : list string) : list string :=
  match ps, i with
  | [], _ => []
  | p :: ps', O => (p ++ s) :: ps'
  | p :: ps', S i' => p :: strcat_at i' s ps'
  end.

Definition bool_text (b : bool) : string := if b then "true" else "false".

(** ** The C library's [strtod] / [atof]

    The numeric conversion is the C library's, not this program's.  It is
    modelled after C11 7.22.1.3 for decimal floating constants: optional white
    space, optional sign, a nonempty digit sequence with an optional radix
    point, and an optional exponent.  When no conversion can be performed the
    value is zero and [errno] is left alone.  The value is kept as the exact
    rational before rounding to binary64 (also on a range error, where the C
    library answers HUGE_VAL or a denormal); hexadecimal constants, INF and
    NAN are not recognised. *)

Module Libc.

Definition ERANGE : Z := 34.

Record strtod_result : Type := mk_strtod {
  sd_value : Q;        (* the converted value *)
  sd_consumed : nat;   (* characters up to [*endptr] *)
  sd_errno : Z         (* [errno] after the call, having been 0 before *)
}.

Definition isspace (c : ascii) : bool :=
  let n := Z.of_nat (nat_of_ascii c) in
  (n =? 32) || ((9 <=? n) && (n <=? 13)).

Definition digit_of (c : ascii) : option Z :=
  let n := Z.of_nat (nat_of_ascii c) in
  if (48 <=? n) && (n <=? 57) then Some (n - 48) else None.

Fixpoint skip_space (s : list ascii) (n : nat) : list ascii * nat :=
  match s with
  | c :: s' => if isspace c then skip_space s' (S n) else (s, n)
  | [] => ([], n)
  end.

Fixpoint take_digits (s : list ascii) (acc : Z) (n : nat)
  : Z * nat * list ascii :=
  match s with
  | c :: s' =>
      match digit_of c with
      | Some d => take_digits s' (10 * acc + d) (S n)
      | None => (acc, n, s)
      end
  | [] => (acc, n, [])
  end.

(** Optional sign: its value and the number of characters it takes. *)
Definition take_sign (s : list ascii) : bool * nat * list ascii :=
  match s with
  | "-"%char :: s' => (true, 1%nat, s')
  | "+"%char :: s' => (false, 1%nat, s')
  | _ => (false, 0%nat, s)
  end.

(** Optional exponent part: its value and the characters it takes. *)
Definition take_exponent (s : list ascii) : Z * nat :=
  match s with
  | c :: s' =>
      if (Ascii.eqb c "e" || Ascii.eqb c "E")%char then
        let '(neg, ns, s'') := take_sign s' in
        let '(e, ne, _) := take_digits s'' 0 0%nat in
        if (ne =? 0)%nat then (0, 0%nat)
        else ((if neg then - e else e), (1 + ns + ne)%nat)
      else (0, 0%nat)
  | [] => (0, 0%nat)
  end.

Definition DBL_MAX : Q := inject_Z ((2 ^ 53 - 1) * 2 ^ 971).
Definition DBL_MIN : Q := 1 # (Z.to_pos (2 ^ 1022)).

Definition out_of_range (q : Q) : bool :=
  let a := Qabs q in
  negb (Qle_bool a DBL_MAX) || (negb (Qeq_bool a 0) && negb (Qle_bool DBL_MIN a)).

Definition strtod (str : string) : strtod_result :=
  let '(s1, nw) := skip_space (list_ascii_of_string str) 0%nat in
  let '(neg, ns, s2) := take_sign s1 in
  let '(ip, ni, s3) := take_digits s2 0 0%nat in
  let '(m, nf, nd, s4) :=
    match s3 with
    | "."%char :: r =>
        let '(m, nf, r') := take_digits r ip 0%nat in (m, nf, 1%nat, r')
    | _ => (ip, 0%nat, 0%nat, s3)
    end in
  if (ni + nf =? 0)%nat then mk_strtod 0 0 0
  else
    let '(e, ne) := take_exponent s4 in
    let q := Qred (inject_Z (if neg then - m else m)
                   * Qpower (inject_Z 10) (e - Z.of_nat nf)) in
    mk_strtod q (nw + ns + ni + nd + nf + ne)
              (if out_of_range q then ERANGE else 0).

(** [atof(s)] is [strtod(s, NULL)]. *)
Definition atof (str : string) : Q := sd_value (strtod str).

End Libc.

(** * Version 1.4 *)

Module V14.

(** [struct stream_info].  The opaque GLib/GStreamer handles the core never
    looks into (main loop, server, mounts, factory, media) are left out;
    [stream] stands for the array [si->stream] points to (all slots [NULL]
    while no array is allocated); [first_run] is the static local of
    [new_client_handler]. *)
Record stream_info : Type := mk_stream_info {
  num_cli : Z;  (* Number of clients *)
  stream : elements;  (* Array of elements *)
  userpipeline : option string;
  connected : bool;  (* Flag to see if this is in use *)
  enable_variable_mode : bool;  (* enable automatic rate adjustment *)
  video_in : string;  (* Video in device *)
  config_interval : Z;  (* RTP Send Config Interval *)
  idr : Z;  (* Interval betweeen IDR frames *)
  steps : Z;  (* Steps to scale quality at *)
  min_quant_lvl : Z;  (* Min Quant Level *)
  max_quant_lvl : Z;  (* Max Quant Level *)
  curr_quant_lvl : Z;  (* Current Quant Level *)
  min_bitrate : Z;  (* Min Bitrate *)
  max_bitrate : Z;  (* Max Bitrate *)
  curr_bitrate : Z;  (* Current Bitrate *)
  msg_rate : Z;  (* In Seconds *)
  command_pipe : option string;  (* command-pipe *)
  status_pipe : option string;  (* status-pipe *)
  command_pipe_fd : Z;  (* command-pipe file descriptor *)
  status_pipe_fd : Z;  (* status-pipe file descriptor *)
  status_pipe_stream : option Z;  (* status-pipe stream *)
  first_run : bool  (* static local of new_client_handler *)
}.

Definition set_num_cli (v : Z) (si : stream_info) : stream_info :=
  mk_stream_info v (stream si) (userpipeline si) (connected si)
    (enable_variable_mode si) (video_in si) (config_interval si) (idr si)
    (steps si) (min_quant_lvl si) (max_quant_lvl si) (curr_quant_lvl si)
    (min_bitrate si) (max_bitrate si) (curr_bitrate si) (msg_rate si)
    (command_pipe si) (status_pipe si) (command_pipe_fd si)
    (status_pipe_fd si) (status_pipe_stream si) (first_run si).
Definition set_stream (v : elements) (si : stream_info) : stream_info :=
  mk_stream_info (num_cli si) v (userpipeline si) (connected si)
    (enable_variable_mode si) (video_in si) (config_interval si) (idr si)
    (steps si) (min_quant_lvl si) (max_quant_lvl si) (curr_quant_lvl si)
    (min_bitrate si) (max_bitrate si) (curr_bitrate si) (msg_rate si)
    (command_pipe si) (status_pipe si) (command_pipe_fd si)
    (status_pipe_fd si) (status_pipe_stream si) (first_run si).
Definition set_userpipeline (v : option string) (si : stream_info) : stream_info :=
  mk_stream_info (num_cli si) (stream si) v (connected si)
    (enable_variable_mode si) (video_in si) (config_interval si) (idr si)
    (steps si) (min_quant_lvl si) (max_quant_lvl si) (curr_quant_lvl si)
    (min_bitrate si) (max_bitrate si) (curr_bitrate si) (msg_rate si)
    (command_pipe si) (status_pipe si) (command_pipe_fd si)
    (status_pipe_fd si) (status_pipe_stream si) (first_run si).
Definition set_connected (v : bool) (si : stream_info) : stream_info :=
  mk_stream_info (num_cli si) (stream si) (userpipeline si) v
    (enable_variable_mode si) (video_in si) (config_interval si) (idr si)
    (steps si) (min_quant_lvl si) (max_quant_lvl si) (curr_quant_lvl si)
    (min_bitrate si) (max_bitrate si) (curr_bitrate si) (msg_rate si)
    (command_pipe si) (status_pipe si) (command_pipe_fd si)
    (status_pipe_fd si) (status_pipe_stream si) (first_run si).
Definition set_enable_variable_mode (v : bool) (si : stream_info) : stream_info :=
  mk_stream_info (num_cli si) (stream si) (userpipeline si) (connected si) v
    (video_in si) (config_interval si) (idr si) (steps si)
    (min_quant_lvl si) (max_quant_lvl si) (curr_quant_lvl si)
    (min_bitrate si) (max_bitrate si) (curr_bitrate si) (msg_rate si)
    (command_pipe si) (status_pipe si) (command_pipe_fd si)
    (status_pipe_fd si) (status_pipe_stream si) (first_run si).
Definition set_video_in (v : string) (si : stream_info) : stream_info :=
  mk_stream_info (num_cli si) (stream si) (userpipeline si) (connected si)
    (enable_variable_mode si) v (config_interval si) (idr si) (steps si)
    (min_quant_lvl si) (max_quant_lvl si) (curr_quant_lvl si)
    (min_bitrate si) (max_bitrate si) (curr_bitrate si) (msg_rate si)
    (command_pipe si) (status_pipe si) (command_pipe_fd si)
    (status_pipe_fd si) (status_pipe_stream si) (first_run si).
Definition set_config_interval (v : Z) (si : stream_info) : stream_info :=
  mk_stream_info (num_cli si) (stream si) (userpipeline si) (connected si)
    (enable_variable_mode si) (video_in si) v (idr si) (steps si)
    (min_quant_lvl si) (max_quant_lvl si) (curr_quant_lvl si)
    (min_bitrate si) (max_bitrate si) (curr_bitrate si) (msg_rate si)
    (command_pipe si) (status_pipe si) (command_pipe_fd si)
    (status_pipe_fd si) (status_pipe_stream si) (first_run si).
Definition set_idr (v : Z) (si : stream_info) : stream_info :=
  mk_stream_info (num_cli si) (stream si) (userpipeline si) (connected si)
    (enable_variable_mode si) (video_in si) (config_interval si) v
    (steps si) (min_quant_lvl si) (max_quant_lvl si) (curr_quant_lvl si)
    (min_bitrate si) (max_bitrate si) (curr_bitrate si) (msg_rate si)
    (command_pipe si) (status_pipe si) (command_pipe_fd si)
    (status_pipe_fd si) (status_pipe_stream si) (first_run si).
Definition set_steps (v : Z) (si : stream_info) : stream_info :=
  mk_stream_info (num_cli si) (stream si) (userpipeline si) (connected si)
    (enable_variable_mode si) (video_in si) (config_interval si) (idr si) v
    (min_quant_lvl si) (max_quant_lvl si) (curr_quant_lvl si)
    (min_bitrate si) (max_bitrate si) (curr_bitrate si) (msg_rate si)
    (command_pipe si) (status_pipe si) (command_pipe_fd si)
    (status_pipe_fd si) (status_pipe_stream si) (first_run si).
Definition set_min_quant_lvl (v : Z) (si : stream_info) : stream_info :=
  mk_stream_info (num_cli si) (stream si) (userpipeline si) (connected si)
    (enable_variable_mode si) (video_in si) (config_interval si) (idr si)
    (steps si) v (max_quant_lvl si) (curr_quant_lvl si) (min_bitrate si)
    (max_bitrate si) (curr_bitrate si) (msg_rate si) (command_pipe si)
    (status_pipe si) (command_pipe_fd si) (status_pipe_fd si)
    (status_pipe_stream si) (first_run si).
Definition set_max_quant_lvl (v : Z) (si : stream_info) : stream_info :=
  mk_stream_info (num_cli si) (stream si) (userpipeline si) (connected si)
    (enable_variable_mode si) (video_in si) (config_interval si) (idr si)
    (steps si) (min_quant_lvl si) v (curr_quant_lvl si) (min_bitrate si)
    (max_bitrate si) (curr_bitrate si) (msg_rate si) (command_pipe si)
    (status_pipe si) (command_pipe_fd si) (status_pipe_fd si)
    (status_pipe_stream si) (first_run si).
Definition set_curr_quant_lvl (v : Z) (si : stream_info) : stream_info :=
  mk_stream_info (num_cli si) (stream si) (userpipeline si) (connected si)
    (enable_variable_mode si) (video_in si) (config_interval si) (idr si)
    (steps si) (min_quant_lvl si) (max_quant_lvl si) v (min_bitrate si)
    (max_bitrate si) (curr_bitrate si) (msg_rate si) (command_pipe si)
    (status_pipe si) (command_pipe_fd si) (status_pipe_fd si)
    (status_pipe_stream si) (first_run si).
Definition set_min_bitrate (v : Z) (si : stream_info) : stream_info :=
  mk_stream_info (num_cli si) (stream si) (userpipeline si) (connected si)
    (enable_variable_mode si) (video_in si) (config_interval si) (idr si)
    (steps si) (min_quant_lvl si) (max_quant_lvl si) (curr_quant_lvl si) v
    (max_bitrate si) (curr_bitrate si) (msg_rate si) (command_pipe si)
    (status_pipe si) (command_pipe_fd si) (status_pipe_fd si)
    (status_pipe_stream si) (first_run si).
Definition set_max_bitrate (v : Z) (si : stream_info) : stream_info :=
  mk_stream_info (num_cli si) (stream si) (userpipeline si) (connected si)
    (enable_variable_mode si) (video_in si) (config_interval si) (idr si)
    (steps si) (min_quant_lvl si) (max_quant_lvl si) (curr_quant_lvl si)
    (min_bitrate si) v (curr_bitrate si) (msg_rate si) (command_pipe si)
    (status_pipe si) (command_pipe_fd si) (status_pipe_fd si)
    (status_pipe_stream si) (first_run si).
Definition set_curr_bitrate (v : Z) (si : stream_info) : stream_info :=
  mk_stream_info (num_cli si) (stream si) (userpipeline si) (connected si)
    (enable_variable_mode si) (video_in si) (config_interval si) (idr si)
    (steps si) (min_quant_lvl si) (max_quant_lvl si) (curr_quant_lvl si)
    (min_bitrate si) (max_bitrate si) v (msg_rate si) (command_pipe si)
    (status_pipe si) (command_pipe_fd si) (status_pipe_fd si)
    (status_pipe_stream si) (first_run si).
Definition set_msg_rate (v : Z) (si : stream_info) : stream_info :=
  mk_stream_info (num_cli si) (stream si) (userpipeline si) (connected si)
    (enable_variable_mode si) (video_in si) (config_interval si) (idr si)
    (steps si) (min_quant_lvl si) (max_quant_lvl si) (curr_quant_lvl si)
    (min_bitrate si) (max_bitrate si) (curr_bitrate si) v (command_pipe si)
    (status_pipe si) (command_pipe_fd si) (status_pipe_fd si)
    (status_pipe_stream si) (first_run si).
Definition set_command_pipe (v : option string) (si : stream_info) : stream_info :=
  mk_stream_info (num_cli si) (stream si) (userpipeline si) (connected si)
    (enable_variable_mode si) (video_in si) (config_interval si) (idr si)
    (steps si) (min_quant_lvl si) (max_quant_lvl si) (curr_quant_lvl si)
    (min_bitrate si) (max_bitrate si) (curr_bitrate si) (msg_rate si) v
    (status_pipe si) (command_pipe_fd si) (status_pipe_fd si)
    (status_pipe_stream si) (first_run si).
Definition set_status_pipe (v : option string) (si : stream_info) : stream_info :=
  mk_stream_info (num_cli si) (stream si) (userpipeline si) (connected si)
    (enable_variable_mode si) (video_in si) (config_interval si) (idr si)
    (steps si) (min_quant_lvl si) (max_quant_lvl si) (curr_quant_lvl si)
    (min_bitrate si) (max_bitrate si) (curr_bitrate si) (msg_rate si)
    (command_pipe si) v (command_pipe_fd si) (status_pipe_fd si)
    (status_pipe_stream si) (first_run si).
Definition set_command_pipe_fd (v : Z) (si : stream_info) : stream_info :=
  mk_stream_info (num_cli si) (stream si) (userpipeline si) (connected si)
    (enable_variable_mode si) (video_in si) (config_interval si) (idr si)
    (steps si) (min_quant_lvl si) (max_quant_lvl si) (curr_quant_lvl si)
    (min_bitrate si) (max_bitrate si) (curr_bitrate si) (msg_rate si)
    (command_pipe si) (status_pipe si) v (status_pipe_fd si)
    (status_pipe_stream si) (first_run si).
Definition set_status_pipe_fd (v : Z) (si : stream_info) : stream_info :=
  mk_stream_info (num_cli si) (stream si) (userpipeline si) (connected si)
    (enable_variable_mode si) (video_in si) (config_interval si) (idr si)
    (steps si) (min_quant_lvl si) (max_quant_lvl si) (curr_quant_lvl si)
    (min_bitrate si) (max_bitrate si) (curr_bitrate si) (msg_rate si)
    (command_pipe si) (status_pipe si) (command_pipe_fd si) v
    (status_pipe_stream si) (first_run si).
Definition set_status_pipe_stream (v : option Z) (si : stream_info) : stream_info :=
  mk_stream_info (num_cli si) (stream si) (userpipeline si) (connected si)
    (enable_variable_mode si) (video_in si) (config_interval si) (idr si)
    (steps si) (min_quant_lvl si) (max_quant_lvl si) (curr_quant_lvl si)
    (min_bitrate si) (max_bitrate si) (curr_bitrate si) (msg_rate si)
    (command_pipe si) (status_pipe si) (command_pipe_fd si)
    (status_pipe_fd si) v (first_run si).
Definition set_first_run (v : bool) (si : stream_info) : stream_info :=
  mk_stream_info (num_cli si) (stream si) (userpipeline si) (connected si)
    (enable_variable_mode si) (video_in si) (config_interval si) (idr si)
    (steps si) (min_quant_lvl si) (max_quant_lvl si) (curr_quant_lvl si)
    (min_bitrate si) (max_bitrate si) (curr_bitrate si) (msg_rate si)
    (command_pipe si) (status_pipe si) (command_pipe_fd si)
    (status_pipe_fd si) (status_pipe_stream si) v.
Abbreviation Mi := (M stream_info).

(** [setup_status_pipe_if_needed] *)
Definition setup_status_pipe_if_needed : Mi unit :=
  si <- get_si ;;
  match status_pipe si with
  | Some path =>
      if status_pipe_fd si =? 0 then
        dbg 4 "setup_status_pipe_if_needed" "opening status pipe " [] ;;
        fd <- sys_open path ;;
        modify (set_status_pipe_fd fd) ;;
        (if fd <=? 0
         then dbg 4 "setup_status_pipe_if_needed"
                  "Failed to open status pipe file descriptor " []
         else emit (Print "status pipe fd = %d\n" [AInt fd])) ;;
        dbg 4 "setup_status_pipe_if_needed" "Creating status pipe stream " [] ;;
        modify (set_status_pipe_stream (fdopen fd)) ;;
        (match fdopen fd with
         | None => dbg 4 "setup_status_pipe_if_needed"
                       "Failed to open status pipe stream " []
         | Some _ => ret tt
         end) ;;
        dbg 4 "setup_status_pipe_if_needed" "status pipe ready " []
      else ret tt
  | None => ret tt
  end.

(** [send_status_pipe_msg]: the framed message on the status stream, or
    the bare [status-reply: {...}] on standard output. *)
Definition send_status_pipe_msg (msg_type : string) (body : payload) : Mi unit :=
  setup_status_pipe_if_needed ;;
  si <- get_si ;;
  match status_pipe_stream si with
  | Some st => emit (PipeMsg st msg_type body)
  | None => emit (StdoutMsg None body)
  end.

Definition not_streaming (elementName padName paramName paramValue : string)
  : payload :=
  Pieces [("%s:%s:%s:%s:not streaming",
           [AStr elementName; AStr padName; AStr paramName; AStr paramValue])].

(** The part of [do_command_setparam] after the pad lookup
    ("Set pad parameter" onwards). *)
Definition setparam_apply (gstElement : option GstElement)
    (gstPad : option GstPad)
    (elementName padName paramName paramValue : string) : Mi unit :=
  dbg 0 "do_command_setparam" "parsing value" [] ;;
  let value := Libc.atof paramValue in
  dbg 0 "do_command_setparam" "setting property" [] ;;
  (match gstPad with
   | Some p =>
       g_object_set_property (Some (ObjPad p)) paramName (VDouble value) ;;
       gst_object_unref (Some (ObjPad p))
   | None =>
       g_object_set_property (option_map ObjElement gstElement) paramName
         (VDouble value)
   end) ;;
  send_status_pipe_msg "setparam"
    (not_streaming elementName padName paramName paramValue) ;;
  gst_object_unref (option_map ObjElement gstElement).

(** [do_command_setparam] *)
Definition do_command_setparam
    (action elementName padName paramName paramValue : string) : Mi unit :=
  dbg 0 "do_command_setparam"
    "action: [%s], element: [%s], padName: [%s], paramName: [%s], paramValue: [%s]"
    [AStr action; AStr elementName; AStr padName; AStr paramName;
     AStr paramValue] ;;
  si <- get_si ;;
  if negb (connected si) then
    dbg 0 "do_command_setparam" "not connected, nothing to do." [] ;;
    send_status_pipe_msg "setparam"
      (not_streaming elementName padName paramName paramValue)
  else
    dbg 0 "do_command_setparam" "Connected! Lets do this!" [] ;;
    dbg 0 "do_command_setparam" "getting pipeline" [] ;;
    match pipeline (stream si) with
    | None =>
        send_status_pipe_msg "setparam"
          (not_streaming elementName padName paramName paramValue) ;;
        dbg 0 "do_command_setparam"
          "ERROR: pipeline element not populated, is there a stream running?" []
    | Some bin =>
        dbg 0 "do_command_setparam" "get element: [%s]" [AStr elementName] ;;
        let gstElement := gst_bin_get_by_name bin elementName in
        (match gstElement with
         | None =>
             send_status_pipe_msg "setparam"
               (not_streaming elementName padName paramName paramValue) ;;
             dbg 0 "do_command_setparam"
               "ERROR: Failed getting the element name = %s" [AStr elementName]
         | Some _ => ret tt
         end) ;;
        dbg 0 "do_command_setparam" "get pad" [] ;;
        if String.eqb padName "" then
          dbg 1 "do_command_setparam"
            "No Pad provided, setting element property." [] ;;
          setparam_apply gstElement None
            elementName padName paramName paramValue
        else
          gstPad <- gst_element_get_static_pad gstElement padName ;;
          match gstPad with
          | None =>
              gst_object_unref (option_map ObjElement gstElement) ;;
              send_status_pipe_msg "setparam"
                (not_streaming elementName padName paramName paramValue) ;;
              dbg 0 "do_command_setparam" "Failed to get static pad %s"
                [AStr padName]
          | Some p =>
              setparam_apply gstElement (Some p)
                elementName padName paramName paramValue
          end
    end.

(** [print_object_properties_info]: the dump of the element's readable
    properties is GObject introspection; its text is kept symbolic, and with
    it the filling of [buffer] and [responsebuffer] by [sprintf], which the
    source does not bound and for which the model has no fault. *)
Definition print_object_properties_info (element : GstElement) : Mi unit :=
  send_status_pipe_msg "pipelineobjectprops" (ElementProps element).

(** [_do_command_status], with the [__func__] and [__LINE__] of the call. *)
Definition _do_command_status (functionname : string) (line : Z) : Mi unit :=
  si <- get_si ;;
  send_status_pipe_msg "status"
    (Pieces
       ([("source:" ++ dquote ++ "%s:%d" ++ dquote ++ ",\n",
          [AStr functionname; AInt line]);
         ("num_cli:%d,\n", [AInt (num_cli si)]);
         ("connected:%s,\n", [AStr (bool_text (connected si))]);
         ("config_interval:%d,\n", [AInt (config_interval si)]);
         ("idr:%d,\n", [AInt (idr si)])]
        ++ (if enable_variable_mode si then
              [("enable_variable_mode:true,\n", []);
               ("steps:%d,\n", [AInt (steps si)]);
               ("curr_quant_lvl:%d,\n", [AInt (curr_quant_lvl si)]);
               ("min_quant_lvl:%d,\n", [AInt (min_quant_lvl si)]);
               ("max_quant_lvl:%d,\n", [AInt (max_quant_lvl si)]);
               ("curr_bitrate:%d,\n", [AInt (curr_bitrate si)]);
               ("min_bitrate:%d,\n", [AInt (min_bitrate si)]);
               ("max_bitrate:%d,\n", [AInt (max_bitrate si)])]
            else [("enable_variable_mode:false,\n", [])])
        ++ [("periodic_msg_rate:%d", [AInt (msg_rate si)])])).

(** [do_command_print_bin] *)
Definition do_command_print_bin : Mi unit :=
  si <- get_si ;;
  if negb (connected si) then
    dbg 0 "do_command_print_bin" "not connected, nothing to do." []
  else
    dbg 0 "do_command_print_bin" "Connected! Lets do this!" [] ;;
    match pipeline (stream si) with
    | Some bin =>
        for_each (fun element =>
                    print_object_properties_info element ;;
                    emit (Print "\n" [])) bin
    | None => ret tt
    end.

(** The character loop of [process_command]: fields [params] and the
    delimiter count.  The count never exceeds the length of the command. *)
Fixpoint scan_command (command : list ascii) (params : list string)
    (delimeter : Z) : Mi (list string * Z) :=
  match command with
  | [] => ret (params, delimeter)
  | c :: rest =>
      if Ascii.eqb c colon || Ascii.eqb c newline then
        scan_command rest params (delimeter + 1)
      else if delimeter <=? 4 then
        scan_command rest (strcat_at (Z.to_nat delimeter) (catme c) params)
          delimeter
      else
        dbg 0 "process_command" "extra character: %s" [AStr (catme c)] ;;
        scan_command rest params delimeter
  end.

(** The dispatch at the end of [process_command]. *)
Definition dispatch_command (params : list string) (delimeter : Z) : Mi unit :=
  let p := fun k => nth k params "" in
  if String.eqb (p 0%nat) "setparam" then
    dbg 4 "process_command" "calling do_command_setparam" [] ;;
    if delimeter <? 4 then
      dbg 0 "process_command" "not enough values: %d" [AInt delimeter]
    else
      do_command_setparam (p 0%nat) (p 1%nat) (p 2%nat) (p 3%nat) (p 4%nat)
  else if String.eqb (p 0%nat) "printbin" then
    dbg 4 "process_command" "calling do_command_print_bin" [] ;;
    do_command_print_bin
  else if String.eqb (p 0%nat) "status" then
    dbg 4 "process_command" "calling do_command_status" [] ;;
    _do_command_status "process_command" 563
  else
    dbg 0 "process_command" "Undefined action [%s]" [AStr (p 0%nat)].

(** [process_command(command, len, si)]: [command] holds the [len]
    characters of the line. *)
Definition process_command (command : list ascii) : Mi unit :=
  dbg 0 "process_command" " Command: %s"
    [AStr (string_of_list_ascii command)] ;;
  r <- scan_command command [""; ""; ""; ""; ""] 0 ;;
  dispatch_command (fst r) (snd r).

(** What [reader] does when the byte read is a newline or when [read]
    returned nothing ([result <= 0]). *)
Definition reader_flush (ch_buffer : list ascii) : Mi unit :=
  let pos := Z.of_nat (List.length ch_buffer) in
  if 256 <=? pos then
    dbg 0 "reader" "Invalid command! [%s]"
      [AStr (string_of_list_ascii ch_buffer)]
  else if 0 <? pos then
    dbg 0 "reader" "command is %s" [AStr (string_of_list_ascii ch_buffer)] ;;
    process_command ch_buffer
  else ret tt.

(** The loop of [reader] over the bytes [avail] that the non-blocking
    [read] hands out before it returns [result <= 0].  [ch_buffer] holds the
    [pos] characters stored so far; storing at index 256 or beyond is
    outside the 256-byte array. *)
Fixpoint reader_loop (avail : list ascii) (ch_buffer : list ascii) : Mi bool :=
  match avail with
  | ch :: rest =>
      if negb (Ascii.eqb ch newline) then
        if 256 <=? Z.of_nat (List.length ch_buffer) then trap BufferOverrun
        else reader_loop rest (ch_buffer ++ [ch])
      else
        reader_flush ch_buffer ;;
        reader_loop rest []
  | [] =>
      reader_flush ch_buffer ;;
      ret true
  end.

(** [reader]: one poll of the command pipe. *)
Definition reader (avail : list ascii) : Mi bool := reader_loop avail [].

(** [media_configure_handler]; [bin] is the element of the media being
    configured ([gst_rtsp_media_get_element]). *)
Definition media_configure_handler (bin : GstBin) : Mi unit :=
  dbg 4 "media_configure_handler" "called" [] ;;
  si <- get_si ;;
  emit (Print "[%d]Configuring pipeline...\n" [AInt (num_cli si)]) ;;
  let st := mkElements (Some bin)
              (gst_bin_get_by_name bin "source0")
              (gst_bin_get_by_name bin "enc0")
              (gst_bin_get_by_name bin "pay0") in
  modify (set_stream st) ;;
  (match source st with
   | Some src =>
       emit (Print "Setting input device=%s\n" [AStr (video_in si)]) ;;
       emit (SetProperty (ObjElement src) "device" (VString (video_in si)))
   | None =>
       emit (PrintErr "Couldn't get source (source0) pipeline element\n" [])
   end) ;;
  (match encoder st with
   | Some enc =>
       if enable_variable_mode si then
         emit (Print "Setting encoder bitrate=%d\n" [AInt (curr_bitrate si)]) ;;
         emit (SetProperty (ObjElement enc) "bitrate" (VInt (curr_bitrate si))) ;;
         emit (Print "Setting encoder quant-param=%d\n"
                 [AInt (curr_quant_lvl si)]) ;;
         emit (SetProperty (ObjElement enc) "quant-param"
                 (VInt (curr_quant_lvl si))) ;;
         emit (SetProperty (ObjElement enc) "idr-interval" (VInt (idr si)))
       else
         dbg 2 "media_configure_handler" "Not setting any encoder properties" []
   | None =>
       emit (PrintErr "Couldn't get encoder (enc0) pipeline element\n" [])
   end) ;;
  (match protocol st with
   | Some pay =>
       emit (Print "Setting rtp config-interval=%d\n"
               [AInt (config_interval si)]) ;;
       emit (SetProperty (ObjElement pay) "config-interval"
               (VInt (config_interval si)))
   | None =>
       emit (PrintErr "Couldn't get protocol (pay0) pipeline element\n" [])
   end) ;;
  if num_cli si =? 1 then
    if 0 <? msg_rate si then
      dbg 4 "media_configure_handler" "Creating 'periodic message' handler" [] ;;
      emit (TimeoutAdd (CInt.mul (msg_rate si) 1000) "periodic_msg_handler")
    else
      dbg 4 "media_configure_handler" "'periodic message' handler disabled" []
  else ret tt.

(** [int step = (si->max_quant_lvl - si->min_quant_lvl) / si->steps] *)
Definition quant_step (si : stream_info) : option Z :=
  CInt.div (CInt.sub (max_quant_lvl si) (min_quant_lvl si)) (steps si).

(** [change_quant] *)
Definition change_quant : Mi unit :=
  dbg 4 "change_quant" "called" [] ;;
  si <- get_si ;;
  match encoder (stream si) with
  | Some enc =>
      let c := curr_quant_lvl si in
      step <- lift_div (quant_step si) ;;
      let q := CInt.add (CInt.mul (CInt.sub (num_cli si) 1) step)
                 (min_quant_lvl si) in
      let q := if max_quant_lvl si <? q then max_quant_lvl si else q in
      put_si (set_curr_quant_lvl q si) ;;
      if negb (q =? c) then
        emit (Print "[%d]Changing quant-lvl from %d to %d\n"
                [AInt (num_cli si); AInt c; AInt q]) ;;
        emit (SetProperty (ObjElement enc) "quant-param" (VInt q))
      else ret tt
  | None => ret tt
  end.

(** [int step = (si->max_bitrate - si->min_bitrate) / si->steps] *)
Definition bitrate_step (si : stream_info) : option Z :=
  CInt.div (CInt.sub (max_bitrate si) (min_bitrate si)) (steps si).

(** [change_bitrate] *)
Definition change_bitrate : Mi unit :=
  dbg 4 "change_bitrate" "called" [] ;;
  si <- get_si ;;
  match encoder (stream si) with
  | Some enc =>
      let c := curr_bitrate si in
      step <- lift_div (bitrate_step si) ;;
      let b := CInt.sub (max_bitrate si)
                 (CInt.mul (CInt.sub (num_cli si) 1) step) in
      (if b <? min_bitrate si
       then dbg 3 "change_bitrate" "Snapping bitrate to %d"
              [AInt (min_bitrate si)]
       else ret tt) ;;
      let b := if b <? min_bitrate si then min_bitrate si else b in
      put_si (set_curr_bitrate b si) ;;
      if negb (b =? c) then
        emit (Print "[%d]Changing bitrate from %d to %d\n"
                [AInt (num_cli si); AInt c; AInt b]) ;;
        emit (SetProperty (ObjElement enc) "bitrate" (VInt b))
      else ret tt
  | None => ret tt
  end.

(** The adaptation step shared by both client handlers:
    [if (si->enable_variable_mode) { if (si->curr_bitrate) change_bitrate(si);
    else change_quant(si); }] *)
Definition adapt_quality : Mi unit :=
  si <- get_si ;;
  if enable_variable_mode si then
    if negb (curr_bitrate si =? 0) then change_bitrate else change_quant
  else ret tt.

(** [client_close_handler] *)
Definition client_close_handler : Mi unit :=
  dbg 4 "client_close_handler" "called" [] ;;
  modify (fun si => set_num_cli (CInt.sub (num_cli si) 1) si) ;;
  si <- get_si ;;
  emit (Print "[%d]Client is closing down\n" [AInt (num_cli si)]) ;;
  (if num_cli si =? 0 then
     dbg 3 "client_close_handler" "Connection terminated" [] ;;
     modify (set_connected false) ;;
     (match pipeline (stream si) with
      | Some b =>
          dbg 4 "client_close_handler" "deleting pipeline" [] ;;
          emit (SetStateNull b) ;;
          emit (Unref (ObjBin b))
      | None => ret tt
      end) ;;
     (match source (stream si) with
      | Some e =>
          dbg 4 "client_close_handler" "deleting source" [] ;;
          emit (Unref (ObjElement e))
      | None => ret tt
      end) ;;
     (match encoder (stream si) with
      | Some e =>
          dbg 4 "client_close_handler" "deleting encoder" [] ;;
          emit (Unref (ObjElement e))
      | None => ret tt
      end) ;;
     (match protocol (stream si) with
      | Some e =>
          dbg 4 "client_close_handler" "deleting protocol" [] ;;
          emit (Unref (ObjElement e))
      | None => ret tt
      end) ;;
     dbg 4 "client_close_handler" "freeing si->stream" [] ;;
     modify (set_stream no_elements) ;;
     _do_command_status "client_close_handler" 818
   else adapt_quality) ;;
  dbg 4 "client_close_handler" "exiting" [].

(** [new_client_handler]; [fresh] is the indeterminate content of the
    array that [malloc] returns on the first connection. *)
Definition new_client_handler (fresh : elements) : Mi unit :=
  dbg 4 "new_client_handler" "called" [] ;;
  modify (fun si => set_num_cli (CInt.add (num_cli si) 1) si) ;;
  si <- get_si ;;
  emit (Print "[%d]A new client has connected\n" [AInt (num_cli si)]) ;;
  dbg 0 "new_client_handler" "*************Cliented connected! [%d]"
    [AInt (num_cli si)] ;;
  modify (set_connected true) ;;
  (if num_cli si =? 1 then
     modify (set_stream fresh) ;;
     if first_run si then
       dbg 2 "new_client_handler" "Creating 'media-configure' signal handler" [] ;;
       emit (SignalConnect "media-configure" "media_configure_handler")
     else ret tt
   else adapt_quality) ;;
  dbg 2 "new_client_handler" "Creating 'closed' signal handler" [] ;;
  emit (SignalConnect "closed" "client_close_handler") ;;
  _do_command_status "new_client_handler" 880 ;;
  dbg 4 "new_client_handler" "leaving" [] ;;
  modify (set_first_run false).


(** ** [main]: configuration and the callback loop *)

(** The initializer of [info] in [main]. *)
Definition default_info : stream_info :=
  {| num_cli := 0;
     stream := no_elements;
     userpipeline := None;
     connected := false;
     enable_variable_mode := true;
     video_in := "/dev/video0";
     config_interval := 2;
     idr := 0;
     steps := 5 - 1;
     min_quant_lvl := 0;
     max_quant_lvl := 51;
     curr_quant_lvl := 0;
     min_bitrate := 1;
     max_bitrate := 10000;
     curr_bitrate := 10000;
     msg_rate := 5;
     command_pipe := None;
     status_pipe := None;
     command_pipe_fd := 0;
     status_pipe_fd := 0;
     status_pipe_stream := None;
     first_run := true |}.

(** A command-line option that [getopt_long] hands to the [switch] of
    [main]; numeric options carry [atoi(optarg)].  The options that print the
    usage or the version and leave are not part of a run. *)
Inductive option_arg : Type :=
| opt_steps (v : Z)
| opt_min_bitrate (v : Z)
| opt_max_quant_lvl (v : Z)
| opt_command_pipe (s : string)
| opt_status_pipe (s : string)
| opt_debug (v : Z)
| opt_mount_point (s : string)
| opt_port (s : string)
| opt_user_pipeline (s : string)
| opt_src_element (s : string)
| opt_video_in (s : string)
| opt_enable_variable_mode (v : Z)
| opt_max_bitrate (v : Z)
| opt_min_quant_lvl (v : Z)
| opt_config_interval (v : Z)
| opt_idr (v : Z)
| opt_msg_rate (v : Z).

Section Main.

(** [atoi(MAX_BR)]: the text "4294967295" does not fit an [int], so the
    value is whatever the C library makes of it. *)
Variable atoi_MAX_BR : Z.

(** One round of the option [switch]. *)
Definition apply_option (info : stream_info) (o : option_arg) : stream_info :=
  match o with
  | opt_steps v => set_steps (CInt.sub v 1) info
  | opt_min_bitrate v =>
      set_min_bitrate
        (if atoi_MAX_BR <? v then atoi_MAX_BR
         else if v <=? 0 then 1 else v) info
  | opt_max_quant_lvl v =>
      set_max_quant_lvl
        (if 51 <? v then 51 else if v <? 0 then 0 else v) info
  | opt_command_pipe s => set_command_pipe (Some s) info
  | opt_status_pipe s => set_status_pipe (Some s) info
  | opt_debug _ => info
  | opt_mount_point _ => info
  | opt_port _ => info
  | opt_user_pipeline s => set_userpipeline (Some s) info
  | opt_src_element _ => info
  | opt_video_in s => set_video_in s info
  | opt_enable_variable_mode v => set_enable_variable_mode (0 <? v) info
  | opt_max_bitrate v =>
      let b := if atoi_MAX_BR <? v then atoi_MAX_BR
               else if v <? 0 then 0 else v in
      set_curr_bitrate b (set_max_bitrate b info)
  | opt_min_quant_lvl v =>
      let q := if 51 <? v then 51 else if v <? 0 then 0 else v in
      set_curr_quant_lvl q (set_min_quant_lvl q info)
  | opt_config_interval v => set_config_interval v info
  | opt_idr v => set_idr v info
  | opt_msg_rate v => set_msg_rate v info
  end.

(** "Validate inputs": [false] is the exit with [-ECODE_ARGS]. *)
Definition validate (info : stream_info) : bool :=
  negb (max_quant_lvl info <? min_quant_lvl info)
  && negb (CInt.add (max_bitrate info) 1 <? min_bitrate info)
  && negb (steps info <? 1).

(** The configuration [main] runs with, if it gets that far. *)
Definition configure (opts : list option_arg) : option stream_info :=
  let info := fold_left apply_option opts default_info in
  if validate info then Some info else None.

End Main.

(** "Configure Callbacks and signals" *)
Definition setup_callbacks : Mi unit :=
  info <- get_si ;;
  (match command_pipe info with
   | Some path =>
       fd <- sys_open path ;;
       modify (set_command_pipe_fd fd) ;;
       (match status_pipe info with
        | Some sp => dbg 4 "main" "Creating status pipe [%s]" [AStr sp]
        | None => ret tt
        end) ;;
       emit (TimeoutAdd 100 "reader")
   | None => ret tt
   end) ;;
  dbg 2 "main" "Creating 'client-connected' signal handler" [] ;;
  emit (SignalConnect "client-connected" "new_client_handler").

(** The callbacks the GLib main loop dispatches, one at a time. *)
Inductive callback : Type :=
| client_connected (fresh : elements)
| media_configure (bin : GstBin)
| client_closed
| command_poll (avail : list ascii).

Definition handle (cb : callback) : Mi unit :=
  match cb with
  | client_connected fresh => new_client_handler fresh
  | media_configure bin => media_configure_handler bin
  | client_closed => client_close_handler
  | command_poll avail => reader avail ;; ret tt
  end.

(** [g_main_loop_run] over a finite history of callbacks. *)
Definition main_loop (cbs : list callback) : Mi unit := for_each handle cbs.

(** ** Observations on a run *)

(** The quant level [change_quant] leaves in [curr_quant_lvl] when it runs
    with [n] clients attached. *)
Definition stored_quant (si : stream_info) (n : Z) : option Z :=
  match run change_quant (set_num_cli n si) [] with
  | Ok (_, w) => Some (curr_quant_lvl (w_si w))
  | Trap _ => None
  end.

(** The bitrate [change_bitrate] leaves in [curr_bitrate] when it runs with
    [n] clients attached. *)
Definition stored_bitrate (si : stream_info) (n : Z) : option Z :=
  match run change_bitrate (set_num_cli n si) [] with
  | Ok (_, w) => Some (curr_bitrate (w_si w))
  | Trap _ => None
  end.

(** The state with the descriptor and the stream of the status pipe
    blanked; two states with the same session agree on everything else. *)
Definition session_of (si : stream_info) : stream_info :=
  set_status_pipe_stream None (set_status_pipe_fd 0 si).

Definition same_session (si si' : stream_info) : Prop :=
  session_of si = session_of si'.

(** The state with the fields blanked that the client handlers assign
    directly (client count, connection flag, element slots, [first_run]); two
    states with the same frame agree on everything else. *)
Definition frame_of (si : stream_info) : stream_info :=
  set_num_cli 0 (set_connected false (set_stream no_elements
    (set_first_run false si))).

Definition same_frame (si si' : stream_info) : Prop :=
  frame_of si = frame_of si'.

End V14.

(** * Version 1.5 *)

Module V15.

(** [struct StreamInfo], with the same conventions as for version 1.4. *)
Record StreamInfo : Type := mkStreamInfo {
  numConnectedClients : Z;  (* Number of clients *)
  stream : elements;  (* Array of elements *)
  userpipeline : option string;
  connected : bool;  (* Flag to see if this is in use *)
  enableVariableMode : bool;  (* enable automatic rate adjustment *)
  videoInDevice : string;  (* Video in device *)
  configInterval : Z;  (* RTP Send Config Interval *)
  idr : Z;  (* Interval betweeen IDR frames *)
  steps : Z;  (* Steps to scale quality at *)
  minQuantLevel : Z;  (* Min Quant Level *)
  maxQuantLevel : Z;  (* Max Quant Level *)
  currentQuantLevel : Z;  (* Current Quant Level *)
  minBitrate : Z;  (* Min total Bitrate *)
  maxBitrate : Z;  (* Max total Bitrate *)
  capBitrate : Z;  (* Over Cap on Max Bitrate *)
  currentBitrate : Z;  (* Current Bitrate *)
  periodicStatusMessageRate : Z;  (* In Seconds *)
  commandPipe : option string;  (* command-pipe *)
  statusPipe : option string;  (* status-pipe *)
  commandPipeFd : Z;  (* command-pipe file descriptor *)
  statusPipeFd : Z;  (* status-pipe file descriptor *)
  statusPipeStream : option Z;  (* status-pipe stream *)
  rtspPortMin : Z;  (* start of range for rtp client address pool *)
  rtspPortMax : Z;  (* end of range for rtp client address pool *)
  enableSharedPipeline : bool;  (* enable shared pipeline for all clients *)
  enableNoSuspend : bool;  (* enable no suspend on pipeline *)
  first_run : bool  (* static local of newClientHandler *)
}.

Definition set_numConnectedClients (v : Z) (si : StreamInfo) : StreamInfo :=
  mkStreamInfo v (stream si) (userpipeline si) (connected si)
    (enableVariableMode si) (videoInDevice si) (configInterval si) (idr si)
    (steps si) (minQuantLevel si) (maxQuantLevel si) (currentQuantLevel si)
    (minBitrate si) (maxBitrate si) (capBitrate si) (currentBitrate si)
    (periodicStatusMessageRate si) (commandPipe si) (statusPipe si)
    (commandPipeFd si) (statusPipeFd si) (statusPipeStream si)
    (rtspPortMin si) (rtspPortMax si) (enableSharedPipeline si)
    (enableNoSuspend si) (first_run si).
Definition set_stream (v : elements) (si : StreamInfo) : StreamInfo :=
  mkStreamInfo (numConnectedClients si) v (userpipeline si) (connected si)
    (enableVariableMode si) (videoInDevice si) (configInterval si) (idr si)
    (steps si) (minQuantLevel si) (maxQuantLevel si) (currentQuantLevel si)
    (minBitrate si) (maxBitrate si) (capBitrate si) (currentBitrate si)
    (periodicStatusMessageRate si) (commandPipe si) (statusPipe si)
    (commandPipeFd si) (statusPipeFd si) (statusPipeStream si)
    (rtspPortMin si) (rtspPortMax si) (enableSharedPipeline si)
    (enableNoSuspend si) (first_run si).
Definition set_userpipeline (v : option string) (si : StreamInfo) : StreamInfo :=
  mkStreamInfo (numConnectedClients si) (stream si) v (connected si)
    (enableVariableMode si) (videoInDevice si) (configInterval si) (idr si)
    (steps si) (minQuantLevel si) (maxQuantLevel si) (currentQuantLevel si)
    (minBitrate si) (maxBitrate si) (capBitrate si) (currentBitrate si)
    (periodicStatusMessageRate si) (commandPipe si) (statusPipe si)
    (commandPipeFd si) (statusPipeFd si) (statusPipeStream si)
    (rtspPortMin si) (rtspPortMax si) (enableSharedPipeline si)
    (enableNoSuspend si) (first_run si).
Definition set_connected (v : bool) (si : StreamInfo) : StreamInfo :=
  mkStreamInfo (numConnectedClients si) (stream si) (userpipeline si) v
    (enableVariableMode si) (videoInDevice si) (configInterval si) (idr si)
    (steps si) (minQuantLevel si) (maxQuantLevel si) (currentQuantLevel si)
    (minBitrate si) (maxBitrate si) (capBitrate si) (currentBitrate si)
    (periodicStatusMessageRate si) (commandPipe si) (statusPipe si)
    (commandPipeFd si) (statusPipeFd si) (statusPipeStream si)
    (rtspPortMin si) (rtspPortMax si) (enableSharedPipeline si)
    (enableNoSuspend si) (first_run si).
Definition set_enableVariableMode (v : bool) (si : StreamInfo) : StreamInfo :=
  mkStreamInfo (numConnectedClients si) (stream si) (userpipeline si)
    (connected si) v (videoInDevice si) (configInterval si) (idr si)
    (steps si) (minQuantLevel si) (maxQuantLevel si) (currentQuantLevel si)
    (minBitrate si) (maxBitrate si) (capBitrate si) (currentBitrate si)
    (periodicStatusMessageRate si) (commandPipe si) (statusPipe si)
    (commandPipeFd si) (statusPipeFd si) (statusPipeStream si)
    (rtspPortMin si) (rtspPortMax si) (enableSharedPipeline si)
    (enableNoSuspend si) (first_run si).
Definition set_videoInDevice (v : string) (si : StreamInfo) : StreamInfo :=
  mkStreamInfo (numConnectedClients si) (stream si) (userpipeline si)
    (connected si) (enableVariableMode si) v (configInterval si) (idr si)
    (steps si) (minQuantLevel si) (maxQuantLevel si) (currentQuantLevel si)
    (minBitrate si) (maxBitrate si) (capBitrate si) (currentBitrate si)
    (periodicStatusMessageRate si) (commandPipe si) (statusPipe si)
    (commandPipeFd si) (statusPipeFd si) (statusPipeStream si)
    (rtspPortMin si) (rtspPortMax si) (enableSharedPipeline si)
    (enableNoSuspend si) (first_run si).
Definition set_configInterval (v : Z) (si : StreamInfo) : StreamInfo :=
  mkStreamInfo (numConnectedClients si) (stream si) (userpipeline si)
    (connected si) (enableVariableMode si) (videoInDevice si) v (idr si)
    (steps si) (minQuantLevel si) (maxQuantLevel si) (currentQuantLevel si)
    (minBitrate si) (maxBitrate si) (capBitrate si) (currentBitrate si)
    (periodicStatusMessageRate si) (commandPipe si) (statusPipe si)
    (commandPipeFd si) (statusPipeFd si) (statusPipeStream si)
    (rtspPortMin si) (rtspPortMax si) (enableSharedPipeline si)
    (enableNoSuspend si) (first_run si).
Definition set_idr (v : Z) (si : StreamInfo) : StreamInfo :=
  mkStreamInfo (numConnectedClients si) (stream si) (userpipeline si)
    (connected si) (enableVariableMode si) (videoInDevice si)
    (configInterval si) v (steps si) (minQuantLevel si) (maxQuantLevel si)
    (currentQuantLevel si) (minBitrate si) (maxBitrate si) (capBitrate si)
    (currentBitrate si) (periodicStatusMessageRate si) (commandPipe si)
    (statusPipe si) (commandPipeFd si) (statusPipeFd si) (statusPipeStream si)
    (rtspPortMin si) (rtspPortMax si) (enableSharedPipeline si)
    (enableNoSuspend si) (first_run si).
Definition set_steps (v : Z) (si : StreamInfo) : StreamInfo :=
  mkStreamInfo (numConnectedClients si) (stream si) (userpipeline si)
    (connected si) (enableVariableMode si) (videoInDevice si)
    (configInterval si) (idr si) v (minQuantLevel si) (maxQuantLevel si)
    (currentQuantLevel si) (minBitrate si) (maxBitrate si) (capBitrate si)
    (currentBitrate si) (periodicStatusMessageRate si) (commandPipe si)
    (statusPipe si) (commandPipeFd si) (statusPipeFd si) (statusPipeStream si)
    (rtspPortMin si) (rtspPortMax si) (enableSharedPipeline si)
    (enableNoSuspend si) (first_run si).
Definition set_minQuantLevel (v : Z) (si : StreamInfo) : StreamInfo :=
  mkStreamInfo (numConnectedClients si) (stream si) (userpipeline si)
    (connected si) (enableVariableMode si) (videoInDevice si)
    (configInterval si) (idr si) (steps si) v (maxQuantLevel si)
    (currentQuantLevel si) (minBitrate si) (maxBitrate si) (capBitrate si)
    (currentBitrate si) (periodicStatusMessageRate si) (commandPipe si)
    (statusPipe si) (commandPipeFd si) (statusPipeFd si) (statusPipeStream si)
    (rtspPortMin si) (rtspPortMax si) (enableSharedPipeline si)
    (enableNoSuspend si) (first_run si).
Definition set_maxQuantLevel (v : Z) (si : StreamInfo) : StreamInfo :=
  mkStreamInfo (numConnectedClients si) (stream si) (userpipeline si)
    (connected si) (enableVariableMode si) (videoInDevice si)
    (configInterval si) (idr si) (steps si) (minQuantLevel si) v
    (currentQuantLevel si) (minBitrate si) (maxBitrate si) (capBitrate si)
    (currentBitrate si) (periodicStatusMessageRate si) (commandPipe si)
    (statusPipe si) (commandPipeFd si) (statusPipeFd si) (statusPipeStream si)
    (rtspPortMin si) (rtspPortMax si) (enableSharedPipeline si)
    (enableNoSuspend si) (first_run si).
Definition set_currentQuantLevel (v : Z) (si : StreamInfo) : StreamInfo :=
  mkStreamInfo (numConnectedClients si) (stream si) (userpipeline si)
    (connected si) (enableVariableMode si) (videoInDevice si)
    (configInterval si) (idr si) (steps si) (minQuantLevel si)
    (maxQuantLevel si) v (minBitrate si) (maxBitrate si) (capBitrate si)
    (currentBitrate si) (periodicStatusMessageRate si) (commandPipe si)
    (statusPipe si) (commandPipeFd si) (statusPipeFd si) (statusPipeStream si)
    (rtspPortMin si) (rtspPortMax si) (enableSharedPipeline si)
    (enableNoSuspend si) (first_run si).
Definition set_minBitrate (v : Z) (si : StreamInfo) : StreamInfo :=
  mkStreamInfo (numConnectedClients si) (stream si) (userpipeline si)
    (connected si) (enableVariableMode si) (videoInDevice si)
    (configInterval si) (idr si) (steps si) (minQuantLevel si)
    (maxQuantLevel si) (currentQuantLevel si) v (maxBitrate si)
    (capBitrate si) (currentBitrate si) (periodicStatusMessageRate si)
    (commandPipe si) (statusPipe si) (commandPipeFd si) (statusPipeFd si)
    (statusPipeStream si) (rtspPortMin si) (rtspPortMax si)
    (enableSharedPipeline si) (enableNoSuspend si) (first_run si).
Definition set_maxBitrate (v : Z) (si : StreamInfo) : StreamInfo :=
  mkStreamInfo (numConnectedClients si) (stream si) (userpipeline si)
    (connected si) (enableVariableMode si) (videoInDevice si)
    (configInterval si) (idr si) (steps si) (minQuantLevel si)
    (maxQuantLevel si) (currentQuantLevel si) (minBitrate si) v
    (capBitrate si) (currentBitrate si) (periodicStatusMessageRate si)
    (commandPipe si) (statusPipe si) (commandPipeFd si) (statusPipeFd si)
    (statusPipeStream si) (rtspPortMin si) (rtspPortMax si)
    (enableSharedPipeline si) (enableNoSuspend si) (first_run si).
Definition set_capBitrate (v : Z) (si : StreamInfo) : StreamInfo :=
  mkStreamInfo (numConnectedClients si) (stream si) (userpipeline si)
    (connected si) (enableVariableMode si) (videoInDevice si)
    (configInterval si) (idr si) (steps si) (minQuantLevel si)
    (maxQuantLevel si) (currentQuantLevel si) (minBitrate si) (maxBitrate si)
    v (currentBitrate si) (periodicStatusMessageRate si) (commandPipe si)
    (statusPipe si) (commandPipeFd si) (statusPipeFd si) (statusPipeStream si)
    (rtspPortMin si) (rtspPortMax si) (enableSharedPipeline si)
    (enableNoSuspend si) (first_run si).
Definition set_currentBitrate (v : Z) (si : StreamInfo) : StreamInfo :=
  mkStreamInfo (numConnectedClients si) (stream si) (userpipeline si)
    (connected si) (enableVariableMode si) (videoInDevice si)
    (configInterval si) (idr si) (steps si) (minQuantLevel si)
    (maxQuantLevel si) (currentQuantLevel si) (minBitrate si) (maxBitrate si)
    (capBitrate si) v (periodicStatusMessageRate si) (commandPipe si)
    (statusPipe si) (commandPipeFd si) (statusPipeFd si) (statusPipeStream si)
    (rtspPortMin si) (rtspPortMax si) (enableSharedPipeline si)
    (enableNoSuspend si) (first_run si).
Definition set_periodicStatusMessageRate (v : Z) (si : StreamInfo) : StreamInfo :=
  mkStreamInfo (numConnectedClients si) (stream si) (userpipeline si)
    (connected si) (enableVariableMode si) (videoInDevice si)
    (configInterval si) (idr si) (steps si) (minQuantLevel si)
    (maxQuantLevel si) (currentQuantLevel si) (minBitrate si) (maxBitrate si)
    (capBitrate si) (currentBitrate si) v (commandPipe si) (statusPipe si)
    (commandPipeFd si) (statusPipeFd si) (statusPipeStream si)
    (rtspPortMin si) (rtspPortMax si) (enableSharedPipeline si)
    (enableNoSuspend si) (first_run si).
Definition set_commandPipe (v : option string) (si : StreamInfo) : StreamInfo :=
  mkStreamInfo (numConnectedClients si) (stream si) (userpipeline si)
    (connected si) (enableVariableMode si) (videoInDevice si)
    (configInterval si) (idr si) (steps si) (minQuantLevel si)
    (maxQuantLevel si) (currentQuantLevel si) (minBitrate si) (maxBitrate si)
    (capBitrate si) (currentBitrate si) (periodicStatusMessageRate si) v
    (statusPipe si) (commandPipeFd si) (statusPipeFd si) (statusPipeStream si)
    (rtspPortMin si) (rtspPortMax si) (enableSharedPipeline si)
    (enableNoSuspend si) (first_run si).
Definition set_statusPipe (v : option string) (si : StreamInfo) : StreamInfo :=
  mkStreamInfo (numConnectedClients si) (stream si) (userpipeline si)
    (connected si) (enableVariableMode si) (videoInDevice si)
    (configInterval si) (idr si) (steps si) (minQuantLevel si)
    (maxQuantLevel si) (currentQuantLevel si) (minBitrate si) (maxBitrate si)
    (capBitrate si) (currentBitrate si) (periodicStatusMessageRate si)
    (commandPipe si) v (commandPipeFd si) (statusPipeFd si)
    (statusPipeStream si) (rtspPortMin si) (rtspPortMax si)
    (enableSharedPipeline si) (enableNoSuspend si) (first_run si).
Definition set_commandPipeFd (v : Z) (si : StreamInfo) : StreamInfo :=
  mkStreamInfo (numConnectedClients si) (stream si) (userpipeline si)
    (connected si) (enableVariableMode si) (videoInDevice si)
    (configInterval si) (idr si) (steps si) (minQuantLevel si)
    (maxQuantLevel si) (currentQuantLevel si) (minBitrate si) (maxBitrate si)
    (capBitrate si) (currentBitrate si) (periodicStatusMessageRate si)
    (commandPipe si) (statusPipe si) v (statusPipeFd si) (statusPipeStream si)
    (rtspPortMin si) (rtspPortMax si) (enableSharedPipeline si)
    (enableNoSuspend si) (first_run si).
Definition set_statusPipeFd (v : Z) (si : StreamInfo) : StreamInfo :=
  mkStreamInfo (numConnectedClients si) (stream si) (userpipeline si)
    (connected si) (enableVariableMode si) (videoInDevice si)
    (configInterval si) (idr si) (steps si) (minQuantLevel si)
    (maxQuantLevel si) (currentQuantLevel si) (minBitrate si) (maxBitrate si)
    (capBitrate si) (currentBitrate si) (periodicStatusMessageRate si)
    (commandPipe si) (statusPipe si) (commandPipeFd si) v
    (statusPipeStream si) (rtspPortMin si) (rtspPortMax si)
    (enableSharedPipeline si) (enableNoSuspend si) (first_run si).
Definition set_statusPipeStream (v : option Z) (si : StreamInfo) : StreamInfo :=
  mkStreamInfo (numConnectedClients si) (stream si) (userpipeline si)
    (connected si) (enableVariableMode si) (videoInDevice si)
    (configInterval si) (idr si) (steps si) (minQuantLevel si)
    (maxQuantLevel si) (currentQuantLevel si) (minBitrate si) (maxBitrate si)
    (capBitrate si) (currentBitrate si) (periodicStatusMessageRate si)
    (commandPipe si) (statusPipe si) (commandPipeFd si) (statusPipeFd si) v
    (rtspPortMin si) (rtspPortMax si) (enableSharedPipeline si)
    (enableNoSuspend si) (first_run si).
Definition set_rtspPortMin (v : Z) (si : StreamInfo) : StreamInfo :=
  mkStreamInfo (numConnectedClients si) (stream si) (userpipeline si)
    (connected si) (enableVariableMode si) (videoInDevice si)
    (configInterval si) (idr si) (steps si) (minQuantLevel si)
    (maxQuantLevel si) (currentQuantLevel si) (minBitrate si) (maxBitrate si)
    (capBitrate si) (currentBitrate si) (periodicStatusMessageRate si)
    (commandPipe si) (statusPipe si) (commandPipeFd si) (statusPipeFd si)
    (statusPipeStream si) v (rtspPortMax si) (enableSharedPipeline si)
    (enableNoSuspend si) (first_run si).
Definition set_rtspPortMax (v : Z) (si : StreamInfo) : StreamInfo :=
  mkStreamInfo (numConnectedClients si) (stream si) (userpipeline si)
    (connected si) (enableVariableMode si) (videoInDevice si)
    (configInterval si) (idr si) (steps si) (minQuantLevel si)
    (maxQuantLevel si) (currentQuantLevel si) (minBitrate si) (maxBitrate si)
    (capBitrate si) (currentBitrate si) (periodicStatusMessageRate si)
    (commandPipe si) (statusPipe si) (commandPipeFd si) (statusPipeFd si)
    (statusPipeStream si) (rtspPortMin si) v (enableSharedPipeline si)
    (enableNoSuspend si) (first_run si).
Definition set_enableSharedPipeline (v : bool) (si : StreamInfo) : StreamInfo :=
  mkStreamInfo (numConnectedClients si) (stream si) (userpipeline si)
    (connected si) (enableVariableMode si) (videoInDevice si)
    (configInterval si) (idr si) (steps si) (minQuantLevel si)
    (maxQuantLevel si) (currentQuantLevel si) (minBitrate si) (maxBitrate si)
    (capBitrate si) (currentBitrate si) (periodicStatusMessageRate si)
    (commandPipe si) (statusPipe si) (commandPipeFd si) (statusPipeFd si)
    (statusPipeStream si) (rtspPortMin si) (rtspPortMax si) v
    (enableNoSuspend si) (first_run si).
Definition set_enableNoSuspend (v : bool) (si : StreamInfo) : StreamInfo :=
  mkStreamInfo (numConnectedClients si) (stream si) (userpipeline si)
    (connected si) (enableVariableMode si) (videoInDevice si)
    (configInterval si) (idr si) (steps si) (minQuantLevel si)
    (maxQuantLevel si) (currentQuantLevel si) (minBitrate si) (maxBitrate si)
    (capBitrate si) (currentBitrate si) (periodicStatusMessageRate si)
    (commandPipe si) (statusPipe si) (commandPipeFd si) (statusPipeFd si)
    (statusPipeStream si) (rtspPortMin si) (rtspPortMax si)
    (enableSharedPipeline si) v (first_run si).
Definition set_first_run (v : bool) (si : StreamInfo) : StreamInfo :=
  mkStreamInfo (numConnectedClients si) (stream si) (userpipeline si)
    (connected si) (enableVariableMode si) (videoInDevice si)
    (configInterval si) (idr si) (steps si) (minQuantLevel si)
    (maxQuantLevel si) (currentQuantLevel si) (minBitrate si) (maxBitrate si)
    (capBitrate si) (currentBitrate si) (periodicStatusMessageRate si)
    (commandPipe si) (statusPipe si) (commandPipeFd si) (statusPipeFd si)
    (statusPipeStream si) (rtspPortMin si) (rtspPortMax si)
    (enableSharedPipeline si) (enableNoSuspend si) v.

Abbreviation Mi := (M StreamInfo).

Definition NO_FILE : Z := -1.
Definition MSG_T_SETPARAM : string := "setparam".
Definition MSG_T_ELEMENTPROPS : string := "elementprops".
Definition MSG_T_STATUS : string := "status".

(** [setupStatusPipeIfNeeded] *)
Definition setupStatusPipeIfNeeded : Mi unit :=
  si <- get_si ;;
  match statusPipe si with
  | Some path =>
      if statusPipeFd si =? NO_FILE then
        dbg 4 "setupStatusPipeIfNeeded" "opening status pipe " [] ;;
        fd <- sys_open path ;;
        modify (set_statusPipeFd fd) ;;
        if fd <=? 0 then
          dbg 4 "setupStatusPipeIfNeeded"
            "Failed to open status pipe file descriptor " []
        else
          emit (Print "status pipe fd = %d\n" [AInt fd]) ;;
          dbg 4 "setupStatusPipeIfNeeded" "Creating status pipe stream " [] ;;
          modify (set_statusPipeStream (fdopen fd)) ;;
          match fdopen fd with
          | None => dbg 4 "setupStatusPipeIfNeeded"
                        "Failed to open status pipe stream " []
          | Some _ => dbg 4 "setupStatusPipeIfNeeded" "status pipe ready " []
          end
      else ret tt
  | None => ret tt
  end.

(** [sendStatusPipeMessage]: the framed message on the status stream, or the
    same frame wrapped in [status-reply: {...}] on standard output. *)
Definition sendStatusPipeMessage (messageType : string) (body : payload)
  : Mi unit :=
  setupStatusPipeIfNeeded ;;
  si <- get_si ;;
  match statusPipeStream si with
  | Some st => emit (PipeMsg st messageType body)
  | None => emit (StdoutMsg (Some messageType) body)
  end.

(** [doCommandSetParameter] *)
Definition doCommandSetParameter
    (action elementName padName paramName paramValue : string) : Mi unit :=
  dbg 0 "doCommandSetParameter"
    "action: [%s], element: [%s], padName: [%s], paramName: [%s], paramValue: [%s]"
    [AStr action; AStr elementName; AStr padName; AStr paramName;
     AStr paramValue] ;;
  si <- get_si ;;
  if negb (connected si) then
    dbg 0 "doCommandSetParameter" "not connected, nothing to do." []
  else
    dbg 0 "doCommandSetParameter" "Connected! Lets do this!" [] ;;
    dbg 0 "doCommandSetParameter" "getting pipeline" [] ;;
    match pipeline (stream si) with
    | None =>
        dbg 0 "doCommandSetParameter"
          "ERROR: pipeline element not populated, is there a stream running?" []
    | Some bin =>
        dbg 0 "doCommandSetParameter" "get element: [%s]" [AStr elementName] ;;
        let gstElement := gst_bin_get_by_name bin elementName in
        (match gstElement with
         | None =>
             dbg 0 "doCommandSetParameter"
               "ERROR: Failed getting the element name = %s" [AStr elementName]
         | Some _ => ret tt
         end) ;;
        dbg 0 "doCommandSetParameter" "get pad" [] ;;
        gstPad <-
          (if String.eqb padName "" then
             dbg 1 "doCommandSetParameter"
               "No Pad provided, setting element property." [] ;;
             ret (inr None)
           else
             pad <- gst_element_get_static_pad gstElement padName ;;
             match pad with
             | None =>
                 gst_object_unref (option_map ObjElement gstElement) ;;
                 dbg 0 "doCommandSetParameter" "Failed to get static pad %s"
                   [AStr padName] ;;
                 ret (inl tt)
             | Some p => ret (inr (Some p))
             end) ;;
        match gstPad with
        | inl _ => ret tt
        | inr gstPad =>
            dbg 0 "doCommandSetParameter" "parsing value" [] ;;
            let r := Libc.strtod paramValue in
            (if negb (Libc.sd_errno r =? 0) then
               dbg 0 "doCommandSetParameter"
                 "invalid value sent for setparam. errno:[%d]; value: [%s] "
                 [AInt (Libc.sd_errno r); AStr paramValue]
             else
               dbg 0 "doCommandSetParameter" "setting property" [] ;;
               match gstPad with
               | Some p =>
                   g_object_set_property (Some (ObjPad p)) paramName
                     (VDouble (Libc.sd_value r)) ;;
                   gst_object_unref (Some (ObjPad p))
               | None =>
                   g_object_set_property (option_map ObjElement gstElement)
                     paramName (VDouble (Libc.sd_value r))
               end) ;;
            gst_object_unref (option_map ObjElement gstElement)
        end
    end.

(** [printObjectPropertiesInfo]: the dump of the element's readable
    properties is GObject introspection; its text is kept symbolic, and with
    it the filling of [buffer] and [responsebuffer], whose [snprintf] calls
    take the full size at every offset and for which the model has no
    fault. *)
Definition printObjectPropertiesInfo (element : GstElement) : Mi unit :=
  sendStatusPipeMessage MSG_T_ELEMENTPROPS (ElementProps element).

(** [_doCommandSendStatus], with the [__func__] and [__LINE__] of the call. *)
Definition _doCommandSendStatus (functionname : string) (line : Z) : Mi unit :=
  si <- get_si ;;
  sendStatusPipeMessage "status"
    (Pieces
       ([("source:" ++ dquote ++ "%s:%d" ++ dquote ++ ",\n",
          [AStr functionname; AInt line]);
         ("numConnectedClients:%d,\n", [AInt (numConnectedClients si)]);
         ("connected:%s,\n", [AStr (bool_text (connected si))]);
         ("configInterval:%d,\n", [AInt (configInterval si)]);
         ("idr:%d,\n", [AInt (idr si)])]
        ++ (if enableVariableMode si then
              [("enableVariableMode:true,\n", []);
               ("steps:%d,\n", [AInt (steps si)]);
               ("minQuantLevel:%d,\n", [AInt (minQuantLevel si)]);
               ("maxQuantLevel:%d,\n", [AInt (maxQuantLevel si)]);
               ("minBitrate:%d,\n", [AInt (minBitrate si)]);
               ("maxBitrate:%d,\n", [AInt (maxBitrate si)])]
            else [("enableVariableMode:false,\n", [])])
        ++ [("currentBitrate:%d,\n", [AInt (currentBitrate si)]);
            ("currentQuantLevel:%d,\n", [AInt (currentQuantLevel si)]);
            ("periodic_msg_rate:%d", [AInt (periodicStatusMessageRate si)])])).

(** [doCommandPrintBin] *)
Definition doCommandPrintBin : Mi unit :=
  si <- get_si ;;
  if negb (connected si) then
    dbg 0 "doCommandPrintBin" "not connected, nothing to do." []
  else
    dbg 0 "doCommandPrintBin" "Connected! Lets do this!" [] ;;
    match pipeline (stream si) with
    | Some bin =>
        for_each (fun element =>
                    printObjectPropertiesInfo element ;;
                    emit (Print "\n" [])) bin
    | None => ret tt
    end.

(** The character loop of [processCommand]: fields [params] and the
    delimiter count.  The count never exceeds the length of the command. *)
Fixpoint scanCommand (command : list ascii) (params : list string)
    (delimeter : Z) : Mi (list string * Z) :=
  match command with
  | [] => ret (params, delimeter)
  | c :: rest =>
      if Ascii.eqb c colon || Ascii.eqb c newline then
        scanCommand rest params (delimeter + 1)
      else if delimeter <=? 4 then
        scanCommand rest (strcat_at (Z.to_nat delimeter) (catme c) params)
          delimeter
      else
        dbg 0 "processCommand" "extra character: %s" [AStr (catme c)] ;;
        scanCommand rest params delimeter
  end.

(** The dispatch at the end of [processCommand]. *)
Definition dispatchCommand (params : list string) (delimeter : Z) : Mi unit :=
  let p := fun k => nth k params "" in
  if String.eqb (p 0%nat) "setparam" then
    dbg 4 "processCommand" "calling doCommandSetParameter" [] ;;
    if delimeter <? 4 then
      dbg 0 "processCommand" "not enough values: %d" [AInt delimeter]
    else
      doCommandSetParameter (p 0%nat) (p 1%nat) (p 2%nat) (p 3%nat) (p 4%nat)
  else if String.eqb (p 0%nat) "printbin" then
    dbg 4 "processCommand" "calling doCommandPrintBin" [] ;;
    doCommandPrintBin
  else if String.eqb (p 0%nat) "status" then
    dbg 4 "processCommand" "calling doCommandSendStatus" [] ;;
    _doCommandSendStatus "processCommand" 672
  else
    dbg 0 "processCommand" "Undefined action [%s]" [AStr (p 0%nat)].

(** [processCommand(command, len, si)]: [command] holds the [len]
    characters of the line. *)
Definition processCommand (command : list ascii) : Mi unit :=
  dbg 0 "processCommand" " Command: %s"
    [AStr (string_of_list_ascii command)] ;;
  r <- scanCommand command [""; ""; ""; ""; ""] 0 ;;
  dispatchCommand (fst r) (snd r).

(** What [reader] does when the byte read is a newline or when [read]
    returned nothing ([result <= 0]). *)
Definition readerFlush (ch_buffer : list ascii) : Mi unit :=
  let pos := Z.of_nat (List.length ch_buffer) in
  if 256 <=? pos then
    dbg 0 "reader" "Invalid command! [%s]"
      [AStr (string_of_list_ascii ch_buffer)]
  else if 0 <? pos then
    dbg 0 "reader" "command is %s" [AStr (string_of_list_ascii ch_buffer)] ;;
    processCommand ch_buffer
  else ret tt.

(** The loop of [reader] over the bytes [avail] that the non-blocking
    [read] hands out before it returns [result <= 0].  [ch_buffer] holds the
    [pos] characters stored so far; storing at index 256 or beyond is
    outside the 256-byte array. *)
Fixpoint readerLoop (avail : list ascii) (ch_buffer : list ascii) : Mi bool :=
  match avail with
  | ch :: rest =>
      if negb (Ascii.eqb ch newline) then
        if 256 <=? Z.of_nat (List.length ch_buffer) then trap BufferOverrun
        else readerLoop rest (ch_buffer ++ [ch])
      else
        readerFlush ch_buffer ;;
        readerLoop rest []
  | [] =>
      readerFlush ch_buffer ;;
      ret true
  end.

(** [reader]: one poll of the command pipe. *)
Definition reader (avail : list ascii) : Mi bool := readerLoop avail [].

(** [mediaConfigureHandler]; [bin] is the element of the media being
    configured ([gst_rtsp_media_get_element]). *)
Definition mediaConfigureHandler (bin : GstBin) : Mi unit :=
  dbg 4 "mediaConfigureHandler" "called" [] ;;
  si <- get_si ;;
  emit (Print "[%d]Configuring pipeline...\n" [AInt (numConnectedClients si)]) ;;
  let st := mkElements (Some bin)
              (gst_bin_get_by_name bin "source0")
              (gst_bin_get_by_name bin "enc0")
              (gst_bin_get_by_name bin "pay0") in
  modify (set_stream st) ;;
  (match source st with
   | Some src =>
       emit (Print "Setting input device=%s\n" [AStr (videoInDevice si)]) ;;
       emit (SetProperty (ObjElement src) "device" (VString (videoInDevice si)))
   | None =>
       emit (PrintErr "Couldn't get source (source0) pipeline element\n" [])
   end) ;;
  (match encoder st with
   | Some enc =>
       emit (Print "Setting encoder bitrate=%d\n" [AInt (currentBitrate si)]) ;;
       emit (SetProperty (ObjElement enc) "bitrate" (VInt (currentBitrate si))) ;;
       emit (Print "Setting encoder quant-param=%d\n"
               [AInt (currentQuantLevel si)]) ;;
       emit (SetProperty (ObjElement enc) "quant-param"
               (VInt (currentQuantLevel si))) ;;
       emit (SetProperty (ObjElement enc) "idr-interval" (VInt (idr si)))
   | None =>
       emit (PrintErr "Couldn't get encoder (enc0) pipeline element\n" [])
   end) ;;
  (match protocol st with
   | Some pay =>
       emit (Print "Setting rtp config-interval=%d\n"
               [AInt (configInterval si)]) ;;
       emit (SetProperty (ObjElement pay) "config-interval"
               (VInt (configInterval si)))
   | None =>
       emit (PrintErr "Couldn't get protocol (pay0) pipeline element\n" [])
   end) ;;
  if numConnectedClients si =? 1 then
    if 0 <? periodicStatusMessageRate si then
      dbg 4 "mediaConfigureHandler" "Creating 'periodic message' handler" [] ;;
      emit (TimeoutAdd (CInt.mul (periodicStatusMessageRate si) 1000)
              "periodicMessageHandler")
    else
      dbg 4 "mediaConfigureHandler" "'periodic message' handler disabled" []
  else ret tt.

(** [int step = (si->maxQuantLevel - si->minQuantLevel) / si->steps] *)
Definition quantStep (si : StreamInfo) : option Z :=
  CInt.div (CInt.sub (maxQuantLevel si) (minQuantLevel si)) (steps si).

(** [changeQuant] *)
Definition changeQuant : Mi unit :=
  dbg 4 "changeQuant" "called" [] ;;
  si <- get_si ;;
  match encoder (stream si) with
  | Some enc =>
      if 0 <? maxQuantLevel si then
        let c := currentQuantLevel si in
        step <- lift_div (quantStep si) ;;
        let q := CInt.add (CInt.mul (CInt.sub (numConnectedClients si) 1) step)
                   (minQuantLevel si) in
        let q := if maxQuantLevel si <? q then maxQuantLevel si else q in
        put_si (set_currentQuantLevel q si) ;;
        if negb (q =? c) then
          emit (Print "[%d]Changing quant-lvl from %d to %d\n"
                  [AInt (numConnectedClients si); AInt c; AInt q]) ;;
          emit (SetProperty (ObjElement enc) "quant-param" (VInt q))
        else ret tt
      else ret tt
  | None => ret tt
  end.

(** [int step = (si->maxBitrate - si->minBitrate) / si->steps] *)
Definition bitrateStep (si : StreamInfo) : option Z :=
  CInt.div (CInt.sub (maxBitrate si) (minBitrate si)) (steps si).

(** [changeBitrate] *)
Definition changeBitrate : Mi unit :=
  dbg 4 "changeBitrate" "called" [] ;;
  si <- get_si ;;
  match encoder (stream si) with
  | Some enc =>
      let c := currentBitrate si in
      step <- lift_div (bitrateStep si) ;;
      let b := CInt.sub (maxBitrate si)
                 (CInt.mul (CInt.sub (numConnectedClients si) 1) step) in
      (if b <? minBitrate si
       then dbg 3 "changeBitrate" "Snapping bitrate to %d"
              [AInt (minBitrate si)]
       else ret tt) ;;
      let b := if b <? minBitrate si then minBitrate si else b in
      put_si (set_currentBitrate b si) ;;
      if negb (b =? c) then
        emit (Print "[%d]Changing bitrate from %d to %d\n"
                [AInt (numConnectedClients si); AInt c; AInt b]) ;;
        emit (SetProperty (ObjElement enc) "bitrate" (VInt b))
      else ret tt
  | None => ret tt
  end.

(** The adaptation step shared by both client handlers:
    [if (si->enableVariableMode) { if (si->maxBitrate) changeBitrate(si);
    else changeQuant(si); }] *)
Definition adaptQuality : Mi unit :=
  si <- get_si ;;
  if enableVariableMode si then
    if negb (maxBitrate si =? 0) then changeBitrate else changeQuant
  else ret tt.

(** [clientCloseHandler] *)
Definition clientCloseHandler : Mi unit :=
  dbg 4 "clientCloseHandler" "called" [] ;;
  modify (fun si =>
            set_numConnectedClients (CInt.sub (numConnectedClients si) 1) si) ;;
  si <- get_si ;;
  emit (Print "[%d]Client is closing down\n" [AInt (numConnectedClients si)]) ;;
  (if numConnectedClients si =? 0 then
     dbg 3 "clientCloseHandler" "Connection terminated" [] ;;
     modify (set_connected false) ;;
     (match pipeline (stream si) with
      | Some b =>
          dbg 4 "clientCloseHandler" "deleting pipeline" [] ;;
          emit (SetStateNull b) ;;
          emit (Unref (ObjBin b))
      | None => ret tt
      end) ;;
     (match source (stream si) with
      | Some e =>
          dbg 4 "clientCloseHandler" "deleting source" [] ;;
          emit (Unref (ObjElement e))
      | None => ret tt
      end) ;;
     (match encoder (stream si) with
      | Some e =>
          dbg 4 "clientCloseHandler" "deleting encoder" [] ;;
          emit (Unref (ObjElement e))
      | None => ret tt
      end) ;;
     (match protocol (stream si) with
      | Some e =>
          dbg 4 "clientCloseHandler" "deleting protocol" [] ;;
          emit (Unref (ObjElement e))
      | None => ret tt
      end) ;;
     dbg 4 "clientCloseHandler" "freeing si->stream" [] ;;
     modify (set_stream no_elements) ;;
     _doCommandSendStatus "clientCloseHandler" 949
   else adaptQuality) ;;
  dbg 4 "clientCloseHandler" "exiting" [].

(** [newClientHandler]; [fresh] is the indeterminate content of the array
    that [malloc] returns on the first connection.  The session timeouts set
    on the client's RTSP sessions belong to the transport and are left out. *)
Definition newClientHandler (fresh : elements) : Mi unit :=
  dbg 4 "newClientHandler" "called" [] ;;
  modify (fun si =>
            set_numConnectedClients (CInt.add (numConnectedClients si) 1) si) ;;
  si <- get_si ;;
  emit (Print "[%d]A new client has connected\n"
          [AInt (numConnectedClients si)]) ;;
  dbg 0 "newClientHandler" "*************Cliented connected! [%d]"
    [AInt (numConnectedClients si)] ;;
  modify (set_connected true) ;;
  (if numConnectedClients si =? 1 then
     modify (set_stream fresh) ;;
     if first_run si then
       dbg 2 "newClientHandler" "Creating 'media-configure' signal handler" [] ;;
       emit (SignalConnect "media-configure" "mediaConfigureHandler")
     else ret tt
   else adaptQuality) ;;
  dbg 2 "newClientHandler" "Creating 'closed' signal handler" [] ;;
  emit (SignalConnect "closed" "clientCloseHandler") ;;
  _doCommandSendStatus "newClientHandler" 1035 ;;
  dbg 4 "newClientHandler" "leaving" [] ;;
  modify (set_first_run false).


(** ** [main]: configuration and the callback loop *)

(** The initializer of [info] in [main]; [capBitrate] is not named there
    and so starts at zero. *)
Definition default_info : StreamInfo :=
  {| numConnectedClients := 0;
     stream := no_elements;
     userpipeline := None;
     connected := false;
     enableVariableMode := true;
     videoInDevice := "/dev/video0";
     configInterval := 2;
     idr := 0;
     steps := 5 - 1;
     minQuantLevel := 0;
     maxQuantLevel := 0;
     currentQuantLevel := 0;
     minBitrate := 1;
     maxBitrate := 0;
     capBitrate := 0;
     currentBitrate := 10000;
     periodicStatusMessageRate := 5;
     commandPipe := None;
     statusPipe := None;
     commandPipeFd := NO_FILE;
     statusPipeFd := NO_FILE;
     statusPipeStream := None;
     rtspPortMin := 0;
     rtspPortMax := 0;
     enableSharedPipeline := false;
     enableNoSuspend := false;
     first_run := true |}.

(** A command-line option that [getopt_long] hands to the [switch] of
    [main]; numeric options carry [atoi(optarg)].  The options that print the
    usage or the version and leave are not part of a run. *)
Inductive option_arg : Type :=
| opt_steps (v : Z)
| opt_cap_bitrate (v : Z)
| opt_min_bitrate (v : Z)
| opt_max_quant_lvl (v : Z)
| opt_command_pipe (s : string)
| opt_status_pipe (s : string)
| opt_enable_shared_pipeline
| opt_enable_no_suspend
| opt_client_port_min (v : Z)
| opt_client_port_max (v : Z)
| opt_debug (v : Z)
| opt_mount_point (s : string)
| opt_port (s : string)
| opt_user_pipeline (s : string)
| opt_src_element (s : string)
| opt_video_in (s : string)
| opt_enable_variable_mode
| opt_max_bitrate (v : Z)
| opt_min_quant_lvl (v : Z)
| opt_config_interval (v : Z)
| opt_idr (v : Z)
| opt_msg_rate (v : Z).

Section Main.

(** [atoi(MAX_BR)]: the text "4294967295" does not fit an [int], so the
    value is whatever the C library makes of it. *)
Variable atoi_MAX_BR : Z.

(** One round of the option [switch]. *)
Definition apply_option (info : StreamInfo) (o : option_arg) : StreamInfo :=
  match o with
  | opt_steps v => set_steps (CInt.sub v 1) info
  | opt_cap_bitrate v =>
      set_capBitrate
        (if atoi_MAX_BR <? v then atoi_MAX_BR
         else if v <=? 0 then atoi_MAX_BR else v) info
  | opt_min_bitrate v =>
      set_minBitrate
        (if atoi_MAX_BR <? v then atoi_MAX_BR
         else if v <=? 0 then 1 else v) info
  | opt_max_quant_lvl v =>
      set_maxQuantLevel
        (if 51 <? v then 51 else if v <? 0 then 0 else v) info
  | opt_command_pipe s => set_commandPipe (Some s) info
  | opt_status_pipe s => set_statusPipe (Some s) info
  | opt_enable_shared_pipeline => set_enableSharedPipeline true info
  | opt_enable_no_suspend => set_enableNoSuspend true info
  | opt_client_port_min v => set_rtspPortMin v info
  | opt_client_port_max v => set_rtspPortMax v info
  | opt_debug _ => info
  | opt_mount_point _ => info
  | opt_port _ => info
  | opt_user_pipeline s => set_userpipeline (Some s) info
  | opt_src_element _ => info
  | opt_video_in s => set_videoInDevice s info
  | opt_enable_variable_mode => set_enableVariableMode true info
  | opt_max_bitrate v =>
      set_maxBitrate
        (if atoi_MAX_BR <? v then atoi_MAX_BR
         else if v <? 0 then 0 else v) info
  | opt_min_quant_lvl v =>
      let q := if 51 <? v then 51 else if v <? 0 then 0 else v in
      set_currentQuantLevel q (set_minQuantLevel q info)
  | opt_config_interval v => set_configInterval v info
  | opt_idr v => set_idr v info
  | opt_msg_rate v => set_periodicStatusMessageRate v info
  end.

(** After the options: the maximum is capped and the current bitrate
    starts at the cap. *)
Definition cap_bitrate (info : StreamInfo) : StreamInfo :=
  let info := if capBitrate info <? maxBitrate info
              then set_maxBitrate (capBitrate info) info else info in
  set_currentBitrate (capBitrate info) info.

(** "Validate inputs": [false] is the exit with an error code. *)
Definition validate (info : StreamInfo) : bool :=
  negb (maxQuantLevel info <? minQuantLevel info)
  && negb ((0 <? maxBitrate info) && (maxBitrate info <=? minBitrate info))
  && negb (steps info <? 1)
  && (if (0 <? rtspPortMin info) || (0 <? rtspPortMax info) then
        negb (rtspPortMin info <=? 0)
        && negb (rtspPortMax info <=? 0)
        && negb (rtspPortMax info <=? rtspPortMin info)
      else true).

(** The configuration [main] runs with, if it gets that far. *)
Definition configure (opts : list option_arg) : option StreamInfo :=
  let info := cap_bitrate (fold_left apply_option opts default_info) in
  if validate info then Some info else None.

End Main.

(** "Configure Callbacks and signals"; [false] is the [exit(1)] taken when
    the command pipe cannot be opened. *)
Definition setupCallbacks : Mi bool :=
  info <- get_si ;;
  ok <-
    (match commandPipe info with
     | Some path =>
         fd <- sys_open path ;;
         modify (set_commandPipeFd fd) ;;
         if fd <? 0 then
           emit (PrintErr "Could not open command pipe [%s], exiting now.\n"
                   [AStr path]) ;;
           ret false
         else
           (match statusPipe info with
            | Some sp => dbg 4 "main" "Creating status pipe [%s]" [AStr sp]
            | None => ret tt
            end) ;;
           emit (TimeoutAdd 100 "reader") ;;
           ret true
     | None => ret true
     end) ;;
  if ok then
    dbg 2 "main" "Creating 'client-connected' signal handler" [] ;;
    emit (SignalConnect "client-connected" "newClientHandler") ;;
    ret true
  else ret false.

(** The callbacks the GLib main loop dispatches, one at a time. *)
Inductive callback : Type :=
| client_connected (fresh : elements)
| media_configure (bin : GstBin)
| client_closed
| command_poll (avail : list ascii).

Definition handle (cb : callback) : Mi unit :=
  match cb with
  | client_connected fresh => newClientHandler fresh
  | media_configure bin => mediaConfigureHandler bin
  | client_closed => clientCloseHandler
  | command_poll avail => reader avail ;; ret tt
  end.

(** [g_main_loop_run] over a finite history of callbacks. *)
Definition main_loop (cbs : list callback) : Mi unit := for_each handle cbs.

(** ** Observations on a run *)

(** The quant level [changeQuant] leaves in [currentQuantLevel] when it runs
    with [n] clients attached. *)
Definition storedQuant (si : StreamInfo) (n : Z) : option Z :=
  match run changeQuant (set_numConnectedClients n si) [] with
  | Ok (_, w) => Some (currentQuantLevel (w_si w))
  | Trap _ => None
  end.

(** The bitrate [changeBitrate] leaves in [currentBitrate] when it runs with
    [n] clients attached. *)
Definition storedBitrate (si : StreamInfo) (n : Z) : option Z :=
  match run changeBitrate (set_numConnectedClients n si) [] with
  | Ok (_, w) => Some (currentBitrate (w_si w))
  | Trap _ => None
  end.

(** The state with the descriptor and the stream of the status pipe
    blanked; two states with the same session agree on everything else. *)
Definition session_of (si : StreamInfo) : StreamInfo :=
  set_statusPipeStream None (set_statusPipeFd 0 si).

Definition same_session (si si' : StreamInfo) : Prop :=
  session_of si = session_of si'.

(** The state with the fields blanked that the client handlers assign
    directly (client count, connection flag, element slots, [first_run]); two
    states with the same frame agree on everything else. *)
Definition frame_of (si : StreamInfo) : StreamInfo :=
  set_numConnectedClients 0 (set_connected false (set_stream no_elements
    (set_first_run false si))).

Definition same_frame (si si' : StreamInfo) : Prop :=
  frame_of si = frame_of si'.

End V15.

(** * Notions used in the statements *)

(** The two level formulas on [gint], as both versions compute them from
    the bounds, the client count and the step. *)
Definition quant_level (mn mx n step : Z) : Z :=
  let q := CInt.add (CInt.mul (CInt.sub n 1) step) mn in
  if mx <? q then mx else q.

Definition bitrate_raw (mx n step : Z) : Z :=
  CInt.sub mx (CInt.mul (CInt.sub n 1) step).

Definition bitrate_level (mn mx n step : Z) : Z :=
  let b := bitrate_raw mx n step in
  if b <? mn then mn else b.

(** The events of a trace that write a property. *)
Definition property_writes (tr : list event) : list event :=
  filter is_set_property tr.

(** A pair of bounds and a step count as the bounds claims suppose them,
    held in 32-bit variables: ordered bounds whose distance is representable
    and at least one step. *)
Definition level_config (lo hi st : Z) : Prop :=
  CInt.in_range lo /\ CInt.in_range hi /\ lo <= hi /\ 1 <= st
  /\ hi - lo <= CInt.INT_MAX.

(** The quant level for [n] clients is computed without leaving the range
    of [gint]. *)
Definition quant_fits (lo hi st n : Z) : Prop :=
  CInt.in_range n /\ lo + (n - 1) * Z.quot (hi - lo) st <= CInt.INT_MAX.

(** The bitrate for [n] clients is computed without leaving the range of
    [gint]. *)
Definition bitrate_fits (lo hi st n : Z) : Prop :=
  CInt.in_range n /\ CInt.INT_MIN <= hi - (n - 1) * Z.quot (hi - lo) st.

(** The pipeline [main] launches by default:
    [v4l2src name=source0 ! imxipuvideotransform name=caps0 !
     imxvpuenc_h264 name=enc0 ! rtph264pay name=pay0 pt=96]. *)
Definition source0 : GstElement := mkElement "source0" "v4l2src" ["src"].
Definition caps0 : GstElement :=
  mkElement "caps0" "imxipuvideotransform" ["sink"; "src"].
Definition enc0 : GstElement := mkElement "enc0" "imxvpuenc_h264" ["sink"; "src"].
Definition pay0 : GstElement := mkElement "pay0" "rtph264pay" ["sink"; "src"].
Definition static_pipeline : GstBin := [source0; caps0; enc0; pay0].

(** The element slots once [media_configure_handler] has bound them. *)
Definition bound_elements : elements :=
  mkElements (Some static_pipeline) (Some source0) (Some enc0) (Some pay0).

(** What one run of an adaptation [f] and its immediate repetition do, in
    terms of the stored value [cur] and of the property [prop] it controls:
    - the run returns, and the repetition returns with the same state and
      without a further property write;
    - the run itself writes nothing when the stored value stays as it was, and
      otherwise writes exactly the new value, once, to the bound encoder. *)
Definition applies_on_change {S : Type} (f : M S unit) (cur : S -> Z)
    (enc_of : S -> option GstElement) (prop : string) (w : world S) : Prop :=
  exists w1 w2,
    f w = Ok (tt, w1) /\ f w1 = Ok (tt, w2)
    /\ w_si w2 = w_si w1
    /\ property_writes (w_out w2) = property_writes (w_out w1)
    /\ (cur (w_si w1) = cur (w_si w) ->
        property_writes (w_out w1) = property_writes (w_out w))
    /\ (cur (w_si w1) <> cur (w_si w) ->
        exists enc, enc_of (w_si w) = Some enc
          /\ property_writes (w_out w1)
             = (property_writes (w_out w)
                ++ [SetProperty (ObjElement enc) prop (VInt (cur (w_si w1)))])%list).

(** ** Specifications of computations

    [partial w c Q]: if [c] returns from the world [w], the result and the
    final world satisfy [Q].  [total w c Q]: [c] does return from [w], and the
    result and the final world satisfy [Q]. *)
Definition partial {S A : Type} (w : world S) (c : M S A)
    (Q : A -> world S -> Prop) : Prop :=
  forall a w', c w = Ok (a, w') -> Q a w'.

Definition total {S A : Type} (w : world S) (c : M S A)
    (Q : A -> world S -> Prop) : Prop :=
  exists a w', c w = Ok (a, w') /\ Q a w'.

(** A log message (other than the entry message [dbg(4, "called")] of a
    function), a GLib warning or release, or a step of the status channel. *)
Definition reply_or_log (e : event) : bool :=
  match e with
  | Dbg _ _ fmt _ => negb (String.eqb fmt "called")
  | Print _ _ | SysOpen _ _ | PipeMsg _ _ _ | StdoutMsg _ _
  | GCritical _ | Unref _ => true
  | _ => false
  end.

(** From [w] to [w'] the trace grows by replies, logs and the property
    writes [ws], in this order. *)
Definition effects {S : Type} (w w' : world S) (ws : list event) : Prop :=
  exists tr,
    w_out w' = (w_out w ++ tr)%list
    /\ property_writes tr = ws
    /\ forallb (fun e => reply_or_log e || is_set_property e) tr = true.

(** The object a [setparam] command addresses: the named pad of the named
    element of the bound pipeline, or the element itself when no pad is named;
    none when the session is not connected, no pipeline is bound, the element
    is not in the pipeline, or the element has no such pad. *)
Definition setparam_target (connected : bool) (st : elements)
    (elementName padName : string) : option gobject :=
  if negb connected then None
  else
    match pipeline st with
    | None => None
    | Some bin =>
        match gst_bin_get_by_name bin elementName with
        | None => None
        | Some el =>
            if String.eqb padName "" then Some (ObjElement el)
            else option_map ObjPad (static_pad el padName)
        end
    end.

(** ** The command line, as the specification words it *)

Definition is_delim (c : ascii) : bool :=
  Ascii.eqb c colon || Ascii.eqb c newline.

(** The pieces of a line between its delimiters. *)
Fixpoint split_fields (cmd : list ascii) : list (list ascii) :=
  match cmd with
  | [] => [[]]
  | c :: rest =>
      if is_delim c then [] :: split_fields rest
      else match split_fields rest with
           | p :: ps => (c :: p) :: ps
           | [] => [[c]]
           end
  end.

(** The C string made of the characters of a piece (a NUL byte adds
    nothing to a C string). *)
Fixpoint c_string (p : list ascii) : string :=
  match p with
  | [] => EmptyString
  | c :: p' => catme c ++ c_string p'
  end.

(** The [k]-th field of a line: its [k]-th piece, empty when the line has
    fewer pieces. *)
Definition field (cmd : list ascii) (k : nat) : string :=
  c_string (nth k (split_fields cmd) []).

(** The five fields, in their fixed order: action, elementName, padName,
    paramName, paramValue. *)
Definition five_fields (cmd : list ascii) : list string :=
  [field cmd 0; field cmd 1; field cmd 2; field cmd 3; field cmd 4].

(** The number of delimiters of a line. *)
Definition delimiters (cmd : list ascii) : Z :=
  Z.of_nat (List.length (filter is_delim cmd)).

(** The characters of a line that lie beyond its fifth field. *)
Definition extra_chars (cmd : list ascii) : list ascii :=
  List.concat (skipn 5 (split_fields cmd)).

(** The message logged for a character beyond the fifth field, at level 0
    (always printed). *)
Definition extra_character (func : string) (c : ascii) : event :=
  Dbg 0 func "extra character: %s" [AStr (catme c)].

(** Appending the pieces [ps] to the fields from index [d] on. *)
Fixpoint append_fields (d : nat) (ps : list string) (params : list string)
  : list string :=
  match ps with
  | [] => params
  | p :: ps' => append_fields (S d) ps' (strcat_at d p params)
  end.

(** The messages for the pieces [ps], the first of which has index [d]. *)
Fixpoint extras (func : string) (d : Z) (ps : list (list ascii)) : list event :=
  match ps with
  | [] => []
  | p :: ps' =>
      ((if d <=? 4 then [] else map (extra_character func) p)
       ++ extras func (d + 1) ps')%list
  end.

(** ** The bytes of one poll, line by line *)

(** The pieces between the newlines of the available bytes; the last piece
    is the remainder that no newline follows (it is empty when the data ends
    with a newline, or when there is no data). *)
Fixpoint lines_of (avail : list ascii) : list (list ascii) :=
  match avail with
  | [] => [[]]
  | c :: rest =>
      if Ascii.eqb c newline then [] :: lines_of rest
      else match lines_of rest with
           | l :: ls => (c :: l) :: ls
           | [] => [[c]]
           end
  end.

(** The texts of the commands that [func] (the command processor) was
    handed, read off the message it logs first. *)
Definition commands_run (func : string) (tr : list event) : list string :=
  flat_map (fun e =>
              match e with
              | Dbg _ f " Command: %s" [AStr c] =>
                  if String.eqb f func then [c] else []
              | _ => []
              end) tr.

(** The commands of a finished computation. *)
Definition commands_of {S A : Type} (func : string) (r : result (A * world S))
  : list string :=
  match r with
  | Ok (_, w) => commands_run func (w_out w)
  | Trap _ => []
  end.

(** ** Invariants of a whole run *)

(** An event that is not the status channel's own (an [open], or a message
    on the pipe or on standard output). *)
Definition plain (e : event) : bool :=
  match e with
  | SysOpen _ _ | PipeMsg _ _ _ | StdoutMsg _ _ => false
  | _ => true
  end.

(** What it takes for a property [I] of worlds to hold throughout the
    callback loop of version 1.4: it survives a plain event, a direct
    assignment of the client handlers, a status message, and either
    adaptation. *)
Record maintained14 (I : world V14.stream_info -> Prop) : Prop := {
  m14_emit : forall s out o e,
    plain e = true -> I (World s out o) -> I (World s (out ++ [e]) o);
  m14_frame : forall s s' out o,
    V14.same_frame s s' -> I (World s out o) -> I (World s' out o);
  m14_send : forall w t b,
    I w -> partial w (V14.send_status_pipe_msg t b) (fun _ w' => I w');
  m14_quant : forall w,
    I w -> partial w V14.change_quant (fun _ w' => I w');
  m14_bitrate : forall w,
    I w -> partial w V14.change_bitrate (fun _ w' => I w')
}.

(** The weaker requirement on the adaptations: only the one that the client
    handlers select has to keep [I]. *)
Record kept14 (I : world V14.stream_info -> Prop) : Prop := {
  k14_emit : forall s out o e,
    plain e = true -> I (World s out o) -> I (World s (out ++ [e]) o);
  k14_frame : forall s s' out o,
    V14.same_frame s s' -> I (World s out o) -> I (World s' out o);
  k14_send : forall w t b,
    I w -> partial w (V14.send_status_pipe_msg t b) (fun _ w' => I w');
  k14_adapt : forall w,
    I w -> partial w V14.adapt_quality (fun _ w' => I w')
}.

(** The same for version 1.5. *)
Record maintained15 (I : world V15.StreamInfo -> Prop) : Prop := {
  m15_emit : forall s out o e,
    plain e = true -> I (World s out o) -> I (World s (out ++ [e]) o);
  m15_frame : forall s s' out o,
    V15.same_frame s s' -> I (World s out o) -> I (World s' out o);
  m15_send : forall w t b,
    I w -> partial w (V15.sendStatusPipeMessage t b) (fun _ w' => I w');
  m15_quant : forall w,
    I w -> partial w V15.changeQuant (fun _ w' => I w');
  m15_bitrate : forall w,
    I w -> partial w V15.changeBitrate (fun _ w' => I w')
}.

(** ** The status channel *)

(** The attempts to open a pipe, and the messages that went to the status
    pipe or to standard output, in a trace. *)
Definition open_attempts (tr : list event) : list event := filter is_open tr.
Definition pipe_messages (tr : list event) : list event := filter is_pipe_msg tr.
Definition stdout_messages (tr : list event) : list event :=
  filter is_stdout_msg tr.

(** Version 1.4, the status pipe not yet opened and the next [open] bound
    to fail, or the fallback already taken: no stream, nothing ever written to
    the pipe, and either no attempt so far and a failing answer ahead, or a
    descriptor other than 0 after the one attempt. *)
Definition fallback14 (w : world V14.stream_info) : Prop :=
  V14.status_pipe_stream (w_si w) = None
  /\ pipe_messages (w_out w) = []
  /\ ((V14.status_pipe_fd (w_si w) = 0 /\ next_open (w_open w) < 0
       /\ open_attempts (w_out w) = [])
      \/ (V14.status_pipe_fd (w_si w) <> 0
          /\ exists e, open_attempts (w_out w) = [e])).

(** ** Adaptation events *)





(** Version 1.5 as it starts without options: variable mode on, no maximum
    bitrate, and the maximum and the current quant level both zero. *)
Definition quant_idle15 (w : world V15.StreamInfo) : Prop :=
  let si := w_si w in
  V15.enableVariableMode si = true
  /\ V15.maxBitrate si = 0
  /\ V15.maxQuantLevel si = 0
  /\ V15.currentQuantLevel si = 0.

(** ** Configurations *)

(** An option other than [--cap-bitrate]. *)
Definition no_cap_option (o : V15.option_arg) : bool :=
  match o with V15.opt_cap_bitrate _ => false | _ => true end.

(** ** What a command line makes of the pipeline *)

(** The property writes of the command line [cmd] in the state [si]: one,
    for a [setparam] line with at least four delimiters whose target exists
    (with the number the version makes of the value, and in version 1.5 only
    if the conversion reports no error); none otherwise. *)
Definition command_writes14 (si : V14.stream_info) (cmd : list ascii)
  : list event :=
  if String.eqb (field cmd 0) "setparam" && (4 <=? delimiters cmd) then
    match setparam_target (V14.connected si) (V14.stream si)
            (field cmd 1) (field cmd 2) with
    | None => []
    | Some obj =>
        [SetProperty obj (field cmd 3) (VDouble (Libc.atof (field cmd 4)))]
    end
  else [].

(** The property writes of one piece of a poll: those of the command it is,
    when it has between 1 and 255 bytes. *)
Definition line_writes14 (si : V14.stream_info) (l : list ascii)
  : list event :=
  if (0 <? Z.of_nat (List.length l)) && (Z.of_nat (List.length l) <? 256)
  then command_writes14 si l else [].

Definition command_writes15 (si : V15.StreamInfo) (cmd : list ascii)
  : list event :=
  if String.eqb (field cmd 0) "setparam" && (4 <=? delimiters cmd) then
    match setparam_target (V15.connected si) (V15.stream si)
            (field cmd 1) (field cmd 2) with
    | None => []
    | Some obj =>
        if Libc.sd_errno (Libc.strtod (field cmd 4)) =? 0
        then [SetProperty obj (field cmd 3)
                (VDouble (Libc.sd_value (Libc.strtod (field cmd 4))))]
        else []
    end
  else [].

Definition line_writes15 (si : V15.StreamInfo) (l : list ascii)
  : list event :=
  if (0 <? Z.of_nat (List.length l)) && (Z.of_nat (List.length l) <? 256)
  then command_writes15 si l else [].

(** ** Observations on the trace *)

(** From [w] to [w'] the trace grows by a piece whose events, observed
    through [f], give [xs]. *)
Definition emits {S X : Type} (f : event -> list X) (w w' : world S)
    (xs : list X) : Prop :=
  exists tr, w_out w' = (w_out w ++ tr)%list /\ flat_map f tr = xs.







(** ** What the callbacks leave alone *)

(** The state with blanked the fields that the callbacks assign: the
    client count, the connection flag, the element slots, [first_run], the
    current quant level and bitrate, and the descriptor and stream of the
    status pipe.  Two states with the same settings agree on everything
    else: the bounds, the steps, the intervals, the mode, the device and the
    pipe names. *)
Definition settings14 (si : V14.stream_info) : V14.stream_info :=
  V14.set_curr_quant_lvl 0
    (V14.set_curr_bitrate 0 (V14.session_of (V14.frame_of si))).

Definition settings15 (si : V15.StreamInfo) : V15.StreamInfo :=
  V15.set_currentQuantLevel 0
    (V15.set_currentBitrate 0 (V15.session_of (V15.frame_of si))).

(** The bounds are those of [info], the current quant level is not above
    the maximum, and the current bitrate is not below the minimum unless it
    is still the one of [info]. *)
Definition capped14 (info : V14.stream_info) (w : world V14.stream_info)
  : Prop :=
  let si := w_si w in
  V14.max_quant_lvl si = V14.max_quant_lvl info
  /\ V14.min_bitrate si = V14.min_bitrate info
  /\ V14.max_bitrate si = V14.max_bitrate info
  /\ V14.curr_quant_lvl si <= V14.max_quant_lvl info
  /\ (V14.min_bitrate info <= V14.curr_bitrate si
      \/ V14.curr_bitrate si = V14.curr_bitrate info).

Definition capped15 (info : V15.StreamInfo) (w : world V15.StreamInfo)
  : Prop :=
  let si := w_si w in
  V15.maxQuantLevel si = V15.maxQuantLevel info
  /\ V15.minBitrate si = V15.minBitrate info
  /\ V15.maxBitrate si = V15.maxBitrate info
  /\ V15.currentQuantLevel si <= V15.maxQuantLevel info
  /\ (V15.minBitrate info <= V15.currentBitrate si
      \/ V15.currentBitrate si = V15.currentBitrate info).

(** ** Histories in which no client leaves that did not connect *)

(** The client count after the history [cbs], from [n] clients. *)
Fixpoint clients_after14 (n : Z) (cbs : list V14.callback) : Z :=
  match cbs with
  | [] => n
  | V14.client_connected _ :: rest => clients_after14 (n + 1) rest
  | V14.client_closed :: rest => clients_after14 (n - 1) rest
  | _ :: rest => clients_after14 n rest
  end.

(** From [n] clients, every close in [cbs] finds a client connected. *)
Fixpoint balanced14 (n : Z) (cbs : list V14.callback) : bool :=
  match cbs with
  | [] => true
  | V14.client_connected _ :: rest => balanced14 (n + 1) rest
  | V14.client_closed :: rest => (0 <? n) && balanced14 (n - 1) rest
  | _ :: rest => balanced14 n rest
  end.

(** The state counts [n] clients, is connected exactly when [n] is
    positive, has the bounds and the steps of [info], a current quant level
    within its bounds and, under the condition [B], a current bitrate within
    its bounds. *)
Definition tracked14 (info : V14.stream_info) (B : Prop) (n : Z)
    (w : world V14.stream_info) : Prop :=
  let si := w_si w in
  V14.num_cli si = n
  /\ V14.connected si = (0 <? n)
  /\ V14.steps si = V14.steps info
  /\ V14.min_quant_lvl si = V14.min_quant_lvl info
  /\ V14.max_quant_lvl si = V14.max_quant_lvl info
  /\ V14.min_bitrate si = V14.min_bitrate info
  /\ V14.max_bitrate si = V14.max_bitrate info
  /\ V14.min_quant_lvl info <= V14.curr_quant_lvl si <= V14.max_quant_lvl info
  /\ (B -> V14.min_bitrate info <= V14.curr_bitrate si
                                <= V14.max_bitrate info).

(** The same for version 1.5, where the current bitrate starts at the cap. *)
Fixpoint clients_after15 (n : Z) (cbs : list V15.callback) : Z :=
  match cbs with
  | [] => n
  | V15.client_connected _ :: rest => clients_after15 (n + 1) rest
  | V15.client_closed :: rest => clients_after15 (n - 1) rest
  | _ :: rest => clients_after15 n rest
  end.

Fixpoint balanced15 (n : Z) (cbs : list V15.callback) : bool :=
  match cbs with
  | [] => true
  | V15.client_connected _ :: rest => balanced15 (n + 1) rest
  | V15.client_closed :: rest => (0 <? n) && balanced15 (n - 1) rest
  | _ :: rest => balanced15 n rest
  end.

Definition tracked15 (info : V15.StreamInfo) (B : Prop) (n : Z)
    (w : world V15.StreamInfo) : Prop :=
  let si := w_si w in
  V15.numConnectedClients si = n
  /\ V15.connected si = (0 <? n)
  /\ V15.steps si = V15.steps info
  /\ V15.minQuantLevel si = V15.minQuantLevel info
  /\ V15.maxQuantLevel si = V15.maxQuantLevel info
  /\ V15.minBitrate si = V15.minBitrate info
  /\ V15.maxBitrate si = V15.maxBitrate info
  /\ V15.minQuantLevel info <= V15.currentQuantLevel si <= V15.maxQuantLevel info
  /\ (B -> V15.currentBitrate si = V15.currentBitrate info
           \/ V15.minBitrate info <= V15.currentBitrate si
                                  <= V15.maxBitrate info).

(** A callback other than a command poll, or a poll whose pieces between
    newlines have at most 256 bytes. *)
Definition poll_fits14 (cb : V14.callback) : Prop :=
  match cb with
  | V14.command_poll avail =>
      Forall (fun l => (List.length l <= 256)%nat) (lines_of avail)
  | _ => True
  end.

Definition poll_fits15 (cb : V15.callback) : Prop :=
  match cb with
  | V15.command_poll avail =>
      Forall (fun l => (List.length l <= 256)%nat) (lines_of avail)
  | _ => True
  end.

(** ** Status reports *)





(** ** Signal handlers *)

(** A registration of the handler of the [media-configure] signal. *)
Definition media_configure_connects (e : event) : list unit :=
  match e with
  | SignalConnect signal _ =>
      if String.eqb signal "media-configure" then [tt] else []
  | _ => []
  end.

(** The handler has been registered at most once, and not at all while
    [first_run] is still set. *)
Definition registered_once {S : Type} (first_run : S -> bool) (w : world S)
  : Prop :=
  (List.length (flat_map media_configure_connects (w_out w)) <= 1)%nat
  /\ (first_run (w_si w) = true ->
      flat_map media_configure_connects (w_out w) = []).

(** * Properties *)

Unset Implicit Arguments.

(** ** Arithmetic of [gint] *)

Lemma wrap_id (z : Z) : CInt.in_range z -> CInt.wrap z = z.
Proof.
  unfold CInt.in_range, CInt.INT_MIN, CInt.INT_MAX, CInt.wrap. intros H.
  rewrite Z.mod_small; lia.
Qed.

Lemma wrap_in_range (z : Z) : CInt.in_range (CInt.wrap z).
Proof.
  unfold CInt.in_range, CInt.INT_MIN, CInt.INT_MAX, CInt.wrap.
  pose proof (Z.mod_pos_bound (z + 2147483648) 4294967296 eq_refl). lia.
Qed.

Lemma wrap_add_wrap_l (a b : Z) : CInt.wrap (CInt.wrap a + b) = CInt.wrap (a + b).
Proof.
  unfold CInt.wrap. f_equal.
  replace ((a + 2147483648) mod 4294967296 - 2147483648 + b + 2147483648)
    with ((a + 2147483648) mod 4294967296 + b) by lia.
  rewrite Zplus_mod_idemp_l. f_equal. lia.
Qed.

Lemma wrap_sub_wrap_r (a b : Z) : CInt.wrap (a - CInt.wrap b) = CInt.wrap (a - b).
Proof.
  unfold CInt.wrap. f_equal.
  replace (a - ((b + 2147483648) mod 4294967296 - 2147483648) + 2147483648)
    with (a + 4294967296 - (b + 2147483648) mod 4294967296) by ring.
  rewrite Zminus_mod_idemp_r.
  f_equal. lia.
Qed.

Lemma div_some (a b : Z) :
  1 <= b -> CInt.div a b = Some (Z.quot a b).
Proof.
  intros Hb. unfold CInt.div.
  replace (b =? 0) with false by (symmetry; apply Z.eqb_neq; lia).
  replace (b =? -1) with false by (symmetry; apply Z.eqb_neq; lia).
  now rewrite andb_false_r.
Qed.

(** The step of a well-ordered pair of bounds is non-negative and no larger
    than their distance. *)
Lemma step_bounds (lo hi st : Z) :
  lo <= hi -> 1 <= st -> 0 <= Z.quot (hi - lo) st <= hi - lo.
Proof.
  intros Hle Hst. rewrite Z.quot_div_nonneg by lia. split.
  - apply Z.div_pos; lia.
  - apply Z.div_le_upper_bound; nia.
Qed.

(** ** The two adaptations, step by step *)

(** The level formulas, as the adaptations compute them on [gint]. *)
Lemma quant_formula (mn mx st n : Z) :
  CInt.in_range mn -> CInt.in_range n ->
  mn <= mx -> 1 <= st -> 1 <= n ->
  mn + (n - 1) * Z.quot (mx - mn) st <= CInt.INT_MAX ->
  CInt.add (CInt.mul (CInt.sub n 1) (Z.quot (mx - mn) st)) mn
  = mn + (n - 1) * Z.quot (mx - mn) st.
Proof.
  intros Hmn Hn Hle Hst H1 Hfit.
  pose proof (step_bounds _ _ _ Hle Hst) as Hs.
  unfold CInt.add, CInt.mul, CInt.sub.
  rewrite (wrap_id (n - 1)) by (unfold CInt.in_range, CInt.INT_MIN, CInt.INT_MAX in *; lia).
  rewrite wrap_add_wrap_l. rewrite wrap_id.
  - lia.
  - unfold CInt.in_range, CInt.INT_MIN, CInt.INT_MAX in *. nia.
Qed.

Lemma bitrate_formula (mn mx st n : Z) :
  CInt.in_range mx -> CInt.in_range n ->
  mn <= mx -> 1 <= st -> 1 <= n ->
  CInt.INT_MIN <= mx - (n - 1) * Z.quot (mx - mn) st ->
  CInt.sub mx (CInt.mul (CInt.sub n 1) (Z.quot (mx - mn) st))
  = mx - (n - 1) * Z.quot (mx - mn) st.
Proof.
  intros Hmx Hn Hle Hst H1 Hfit.
  pose proof (step_bounds _ _ _ Hle Hst) as Hs.
  unfold CInt.mul, CInt.sub.
  rewrite (wrap_id (n - 1)) by (unfold CInt.in_range, CInt.INT_MIN, CInt.INT_MAX in *; lia).
  rewrite wrap_sub_wrap_r. rewrite wrap_id.
  - lia.
  - unfold CInt.in_range, CInt.INT_MIN, CInt.INT_MAX in *. nia.
Qed.

Ltac mrun :=
  unfold bind, ret, get_si, put_si, emit, dbg, modify, when, lift_div, trap;
  simpl.

Lemma change_quant_run (w : world V14.stream_info) (enc : GstElement) (st : Z) :
  encoder (V14.stream (w_si w)) = Some enc ->
  V14.quant_step (w_si w) = Some st ->
  let si := w_si w in
  let q := quant_level (V14.min_quant_lvl si) (V14.max_quant_lvl si)
             (V14.num_cli si) st in
  V14.change_quant w
  = Ok (tt, World (V14.set_curr_quant_lvl q si)
              (w_out w ++ Dbg 4 "change_quant" "called" []
                 :: (if q =? V14.curr_quant_lvl si then []
                     else [Print "[%d]Changing quant-lvl from %d to %d\n"
                             [AInt (V14.num_cli si);
                              AInt (V14.curr_quant_lvl si); AInt q];
                           SetProperty (ObjElement enc) "quant-param" (VInt q)]))
              (w_open w)).
Proof.
  intros He Hs si q. unfold V14.change_quant. mrun.
  rewrite He. mrun. rewrite Hs. fold si. unfold quant_level in q. fold q.
  destruct (q =? V14.curr_quant_lvl si); cbn [negb]; mrun;
    rewrite <- ?app_assoc; reflexivity.
Qed.

Lemma change_quant_unbound (w : world V14.stream_info) :
  encoder (V14.stream (w_si w)) = None ->
  V14.change_quant w
  = Ok (tt, World (w_si w) (w_out w ++ [Dbg 4 "change_quant" "called" []])
              (w_open w)).
Proof.
  intros He. unfold V14.change_quant. mrun. now rewrite He.
Qed.

Lemma change_bitrate_run (w : world V14.stream_info) (enc : GstElement) (st : Z) :
  encoder (V14.stream (w_si w)) = Some enc ->
  V14.bitrate_step (w_si w) = Some st ->
  let si := w_si w in
  let b := bitrate_level (V14.min_bitrate si) (V14.max_bitrate si)
             (V14.num_cli si) st in
  V14.change_bitrate w
  = Ok (tt, World (V14.set_curr_bitrate b si)
              (w_out w ++ Dbg 4 "change_bitrate" "called" []
                 :: (if bitrate_raw (V14.max_bitrate si) (V14.num_cli si) st
                        <? V14.min_bitrate si
                     then [Dbg 3 "change_bitrate" "Snapping bitrate to %d"
                             [AInt (V14.min_bitrate si)]]
                     else [])
                 ++ (if b =? V14.curr_bitrate si then []
                     else [Print "[%d]Changing bitrate from %d to %d\n"
                             [AInt (V14.num_cli si);
                              AInt (V14.curr_bitrate si); AInt b];
                           SetProperty (ObjElement enc) "bitrate" (VInt b)]))
              (w_open w)).
Proof.
  intros He Hs si b. unfold V14.change_bitrate. mrun.
  rewrite He. mrun. rewrite Hs. fold si.
  unfold bitrate_level in b. unfold bitrate_raw in *. fold b.
  destruct (_ <? V14.min_bitrate si); mrun;
    destruct (b =? V14.curr_bitrate si); cbn [negb]; mrun;
    rewrite <- ?app_assoc; reflexivity.
Qed.

Lemma change_bitrate_unbound (w : world V14.stream_info) :
  encoder (V14.stream (w_si w)) = None ->
  V14.change_bitrate w
  = Ok (tt, World (w_si w) (w_out w ++ [Dbg 4 "change_bitrate" "called" []])
              (w_open w)).
Proof.
  intros He. unfold V14.change_bitrate. mrun. now rewrite He.
Qed.

Lemma changeQuant_run (w : world V15.StreamInfo) (enc : GstElement) (st : Z) :
  encoder (V15.stream (w_si w)) = Some enc ->
  0 < V15.maxQuantLevel (w_si w) ->
  V15.quantStep (w_si w) = Some st ->
  let si := w_si w in
  let q := quant_level (V15.minQuantLevel si) (V15.maxQuantLevel si)
             (V15.numConnectedClients si) st in
  V15.changeQuant w
  = Ok (tt, World (V15.set_currentQuantLevel q si)
              (w_out w ++ Dbg 4 "changeQuant" "called" []
                 :: (if q =? V15.currentQuantLevel si then []
                     else [Print "[%d]Changing quant-lvl from %d to %d\n"
                             [AInt (V15.numConnectedClients si);
                              AInt (V15.currentQuantLevel si); AInt q];
                           SetProperty (ObjElement enc) "quant-param" (VInt q)]))
              (w_open w)).
Proof.
  intros He Hmax Hs si q. unfold V15.changeQuant. mrun.
  rewrite He. apply Z.ltb_lt in Hmax. rewrite Hmax. mrun. rewrite Hs. fold si.
  unfold quant_level in q. fold q.
  destruct (q =? V15.currentQuantLevel si); cbn [negb]; mrun;
    rewrite <- ?app_assoc; reflexivity.
Qed.

(** Nothing but the entry message happens when no encoder is bound or the
    configured maximum is not positive. *)
Lemma changeQuant_idle (w : world V15.StreamInfo) :
  encoder (V15.stream (w_si w)) = None \/ V15.maxQuantLevel (w_si w) <= 0 ->
  V15.changeQuant w
  = Ok (tt, World (w_si w) (w_out w ++ [Dbg 4 "changeQuant" "called" []])
              (w_open w)).
Proof.
  intros H. unfold V15.changeQuant. mrun.
  destruct (encoder (V15.stream (w_si w))) as [enc|]; [|reflexivity].
  destruct H as [H|H]; [discriminate|].
  apply Z.ltb_ge in H. now rewrite H.
Qed.

Lemma changeBitrate_run (w : world V15.StreamInfo) (enc : GstElement) (st : Z) :
  encoder (V15.stream (w_si w)) = Some enc ->
  V15.bitrateStep (w_si w) = Some st ->
  let si := w_si w in
  let b := bitrate_level (V15.minBitrate si) (V15.maxBitrate si)
             (V15.numConnectedClients si) st in
  V15.changeBitrate w
  = Ok (tt, World (V15.set_currentBitrate b si)
              (w_out w ++ Dbg 4 "changeBitrate" "called" []
                 :: (if bitrate_raw (V15.maxBitrate si)
                          (V15.numConnectedClients si) st <? V15.minBitrate si
                     then [Dbg 3 "changeBitrate" "Snapping bitrate to %d"
                             [AInt (V15.minBitrate si)]]
                     else [])
                 ++ (if b =? V15.currentBitrate si then []
                     else [Print "[%d]Changing bitrate from %d to %d\n"
                             [AInt (V15.numConnectedClients si);
                              AInt (V15.currentBitrate si); AInt b];
                           SetProperty (ObjElement enc) "bitrate" (VInt b)]))
              (w_open w)).
Proof.
  intros He Hs si b. unfold V15.changeBitrate. mrun.
  rewrite He. mrun. rewrite Hs. fold si.
  unfold bitrate_level in b. unfold bitrate_raw in *. fold b.
  destruct (_ <? V15.minBitrate si); mrun;
    destruct (b =? V15.currentBitrate si); cbn [negb]; mrun;
    rewrite <- ?app_assoc; reflexivity.
Qed.

Lemma changeBitrate_unbound (w : world V15.StreamInfo) :
  encoder (V15.stream (w_si w)) = None ->
  V15.changeBitrate w
  = Ok (tt, World (w_si w) (w_out w ++ [Dbg 4 "changeBitrate" "called" []])
              (w_open w)).
Proof.
  intros He. unfold V15.changeBitrate. mrun. now rewrite He.
Qed.

(** ** Bounds and monotonicity of the levels *)

Lemma sub_exact (lo hi st : Z) :
  level_config lo hi st -> CInt.sub hi lo = hi - lo.
Proof.
  intros (Hlo & Hhi & Hle & Hst & Hd). unfold CInt.sub. apply wrap_id.
  unfold CInt.in_range, CInt.INT_MIN, CInt.INT_MAX in *. lia.
Qed.

Lemma quant_level_exact (lo hi st n : Z) :
  level_config lo hi st -> 1 <= n -> quant_fits lo hi st n ->
  quant_level lo hi n (Z.quot (hi - lo) st)
  = Z.min hi (lo + (n - 1) * Z.quot (hi - lo) st).
Proof.
  intros (Hlo & Hhi & Hle & Hst & Hd) Hn (Hnr & Hfit). unfold quant_level.
  rewrite quant_formula by assumption.
  destruct (Z.ltb_spec hi (lo + (n - 1) * Z.quot (hi - lo) st)); lia.
Qed.

Lemma bitrate_level_exact (lo hi st n : Z) :
  level_config lo hi st -> 1 <= n -> bitrate_fits lo hi st n ->
  bitrate_level lo hi n (Z.quot (hi - lo) st)
  = Z.max lo (hi - (n - 1) * Z.quot (hi - lo) st).
Proof.
  intros (Hlo & Hhi & Hle & Hst & Hd) Hn (Hnr & Hfit).
  unfold bitrate_level, bitrate_raw.
  rewrite bitrate_formula by assumption.
  destruct (Z.ltb_spec (hi - (n - 1) * Z.quot (hi - lo) st) lo); lia.
Qed.

(** Fitting at a client count entails fitting at every smaller one. *)
Lemma quant_fits_le (lo hi st n1 n2 : Z) :
  level_config lo hi st -> 1 <= n1 <= n2 ->
  quant_fits lo hi st n2 -> quant_fits lo hi st n1.
Proof.
  intros (Hlo & Hhi & Hle & Hst & Hd) Hn (Hnr & Hfit).
  pose proof (step_bounds _ _ _ Hle Hst) as Hs.
  unfold quant_fits, CInt.in_range, CInt.INT_MIN, CInt.INT_MAX in *.
  split; [lia | nia].
Qed.

Lemma bitrate_fits_le (lo hi st n1 n2 : Z) :
  level_config lo hi st -> 1 <= n1 <= n2 ->
  bitrate_fits lo hi st n2 -> bitrate_fits lo hi st n1.
Proof.
  intros (Hlo & Hhi & Hle & Hst & Hd) Hn (Hnr & Hfit).
  pose proof (step_bounds _ _ _ Hle Hst) as Hs.
  unfold bitrate_fits, CInt.in_range, CInt.INT_MIN, CInt.INT_MAX in *.
  split; [lia | nia].
Qed.

Lemma stored_quant_value (si : V14.stream_info) (enc : GstElement) (n : Z) :
  encoder (V14.stream si) = Some enc ->
  level_config (V14.min_quant_lvl si) (V14.max_quant_lvl si) (V14.steps si) ->
  V14.stored_quant si n
  = Some (quant_level (V14.min_quant_lvl si) (V14.max_quant_lvl si) n
            (Z.quot (V14.max_quant_lvl si - V14.min_quant_lvl si) (V14.steps si))).
Proof.
  intros He Hc. unfold V14.stored_quant, run.
  rewrite change_quant_run
    with (enc := enc)
         (st := Z.quot (V14.max_quant_lvl si - V14.min_quant_lvl si) (V14.steps si)).
  - reflexivity.
  - exact He.
  - unfold V14.quant_step. simpl. rewrite (sub_exact _ _ _ Hc).
    apply div_some. apply Hc.
Qed.

Lemma storedQuant_value (si : V15.StreamInfo) (enc : GstElement) (n : Z) :
  encoder (V15.stream si) = Some enc ->
  0 < V15.maxQuantLevel si ->
  level_config (V15.minQuantLevel si) (V15.maxQuantLevel si) (V15.steps si) ->
  V15.storedQuant si n
  = Some (quant_level (V15.minQuantLevel si) (V15.maxQuantLevel si) n
            (Z.quot (V15.maxQuantLevel si - V15.minQuantLevel si) (V15.steps si))).
Proof.
  intros He Hmax Hc. unfold V15.storedQuant, run.
  rewrite changeQuant_run
    with (enc := enc)
         (st := Z.quot (V15.maxQuantLevel si - V15.minQuantLevel si) (V15.steps si)).
  - reflexivity.
  - exact He.
  - exact Hmax.
  - unfold V15.quantStep. simpl. rewrite (sub_exact _ _ _ Hc).
    apply div_some. apply Hc.
Qed.

Lemma stored_bitrate_value (si : V14.stream_info) (enc : GstElement) (n : Z) :
  encoder (V14.stream si) = Some enc ->
  level_config (V14.min_bitrate si) (V14.max_bitrate si) (V14.steps si) ->
  V14.stored_bitrate si n
  = Some (bitrate_level (V14.min_bitrate si) (V14.max_bitrate si) n
            (Z.quot (V14.max_bitrate si - V14.min_bitrate si) (V14.steps si))).
Proof.
  intros He Hc. unfold V14.stored_bitrate, run.
  rewrite change_bitrate_run
    with (enc := enc)
         (st := Z.quot (V14.max_bitrate si - V14.min_bitrate si) (V14.steps si)).
  - reflexivity.
  - exact He.
  - unfold V14.bitrate_step. simpl. rewrite (sub_exact _ _ _ Hc).
    apply div_some. apply Hc.
Qed.

Lemma storedBitrate_value (si : V15.StreamInfo) (enc : GstElement) (n : Z) :
  encoder (V15.stream si) = Some enc ->
  level_config (V15.minBitrate si) (V15.maxBitrate si) (V15.steps si) ->
  V15.storedBitrate si n
  = Some (bitrate_level (V15.minBitrate si) (V15.maxBitrate si) n
            (Z.quot (V15.maxBitrate si - V15.minBitrate si) (V15.steps si))).
Proof.
  intros He Hc. unfold V15.storedBitrate, run.
  rewrite changeBitrate_run
    with (enc := enc)
         (st := Z.quot (V15.maxBitrate si - V15.minBitrate si) (V15.steps si)).
  - reflexivity.
  - exact He.
  - unfold V15.bitrateStep. simpl. rewrite (sub_exact _ _ _ Hc).
    apply div_some. apply Hc.
Qed.

(** The pure content of the two bounds claims. *)
Lemma quant_levels_ordered (lo hi st n1 n2 : Z) :
  level_config lo hi st -> 1 <= n1 <= n2 -> quant_fits lo hi st n2 ->
  let q1 := quant_level lo hi n1 (Z.quot (hi - lo) st) in
  let q2 := quant_level lo hi n2 (Z.quot (hi - lo) st) in
  lo <= q1 /\ q1 <= q2 /\ q2 <= hi.
Proof.
  intros Hc Hn Hfit q1 q2. subst q1 q2.
  rewrite !quant_level_exact; try assumption; try lia.
  2: now apply (quant_fits_le _ _ _ _ n2).
  destruct Hc as (Hlo & Hhi & Hle & Hst & Hd).
  pose proof (step_bounds _ _ _ Hle Hst) as Hs. nia.
Qed.

Lemma bitrate_levels_ordered (lo hi st n1 n2 : Z) :
  level_config lo hi st -> 1 <= n1 <= n2 -> bitrate_fits lo hi st n2 ->
  let b1 := bitrate_level lo hi n1 (Z.quot (hi - lo) st) in
  let b2 := bitrate_level lo hi n2 (Z.quot (hi - lo) st) in
  lo <= b2 /\ b2 <= b1 /\ b1 <= hi.
Proof.
  intros Hc Hn Hfit b1 b2. subst b1 b2.
  rewrite !bitrate_level_exact; try assumption; try lia.
  2: now apply (bitrate_fits_le _ _ _ _ n2).
  destruct Hc as (Hlo & Hhi & Hle & Hst & Hd).
  pose proof (step_bounds _ _ _ Hle Hst) as Hs. nia.
Qed.

(** C1 (amended).  For every configuration of 32-bit values with
    [minQuant <= maxQuant], a representable distance and [steps >= 1], and for
    all client counts [1 <= n1 <= n2] such that the level for [n2] is computed
    without 32-bit overflow, the quant level that the quant-scaling adaptation
    stores (run with the encoder bound and, in version 1.5, with a positive
    maximum) lies in [[minQuant, maxQuant]] and does not decrease from [n1]
    to [n2]. *)
Theorem quant_level_bounded_monotone :
  (forall (si : V14.stream_info) (enc : GstElement) (n1 n2 : Z),
      encoder (V14.stream si) = Some enc ->
      level_config (V14.min_quant_lvl si) (V14.max_quant_lvl si) (V14.steps si) ->
      1 <= n1 <= n2 ->
      quant_fits (V14.min_quant_lvl si) (V14.max_quant_lvl si) (V14.steps si) n2 ->
      exists q1 q2,
        V14.stored_quant si n1 = Some q1 /\ V14.stored_quant si n2 = Some q2
        /\ V14.min_quant_lvl si <= q1 /\ q1 <= q2
        /\ q2 <= V14.max_quant_lvl si)
  /\ (forall (si : V15.StreamInfo) (enc : GstElement) (n1 n2 : Z),
      encoder (V15.stream si) = Some enc ->
      0 < V15.maxQuantLevel si ->
      level_config (V15.minQuantLevel si) (V15.maxQuantLevel si) (V15.steps si) ->
      1 <= n1 <= n2 ->
      quant_fits (V15.minQuantLevel si) (V15.maxQuantLevel si) (V15.steps si) n2 ->
      exists q1 q2,
        V15.storedQuant si n1 = Some q1 /\ V15.storedQuant si n2 = Some q2
        /\ V15.minQuantLevel si <= q1 /\ q1 <= q2
        /\ q2 <= V15.maxQuantLevel si).
Proof.
  split.
  - intros si enc n1 n2 He Hc Hn Hfit.
    rewrite !(stored_quant_value _ _ _ He Hc).
    eexists; eexists; split; [reflexivity | split; [reflexivity |]].
    exact (quant_levels_ordered _ _ _ _ _ Hc Hn Hfit).
  - intros si enc n1 n2 He Hmax Hc Hn Hfit.
    rewrite !(storedQuant_value _ _ _ He Hmax Hc).
    eexists; eexists; split; [reflexivity | split; [reflexivity |]].
    exact (quant_levels_ordered _ _ _ _ _ Hc Hn Hfit).
Qed.

Lemma default_quant_config : level_config 0 51 4.
Proof.
  unfold level_config, CInt.in_range, CInt.INT_MIN, CInt.INT_MAX. lia.
Defined.

Lemma default_quant_fits : quant_fits 0 51 4 10.
Proof.
  unfold quant_fits, CInt.in_range, CInt.INT_MIN, CInt.INT_MAX.
  split; [lia | vm_compute; discriminate].
Defined.

(** The amended C1 at the default bounds 0..51 in four steps, for two and
    ten clients. *)
Lemma quant_level_bounded_monotone_witness :
  (exists q1 q2,
      V14.stored_quant (V14.set_stream bound_elements V14.default_info) 2 = Some q1
      /\ V14.stored_quant (V14.set_stream bound_elements V14.default_info) 10
         = Some q2
      /\ 0 <= q1 /\ q1 <= q2 /\ q2 <= 51)
  /\ (exists q1 q2,
      V15.storedQuant
        (V15.set_maxQuantLevel 51 (V15.set_stream bound_elements V15.default_info))
        2 = Some q1
      /\ V15.storedQuant
           (V15.set_maxQuantLevel 51
              (V15.set_stream bound_elements V15.default_info)) 10 = Some q2
      /\ 0 <= q1 /\ q1 <= q2 /\ q2 <= 51).
Proof.
  split.
  - apply (proj1 quant_level_bounded_monotone
             (V14.set_stream bound_elements V14.default_info) enc0 2 10).
    + reflexivity.
    + exact default_quant_config.
    + lia.
    + exact default_quant_fits.
  - apply (proj2 quant_level_bounded_monotone
             (V15.set_maxQuantLevel 51
                (V15.set_stream bound_elements V15.default_info)) enc0 2 10).
    + reflexivity.
    + reflexivity.
    + exact default_quant_config.
    + lia.
    + exact default_quant_fits.
Defined.

(** C1 as stated fails: with the default bounds 0..51 in four steps (step
    12) and 178956972 clients, [(n - 1) * 12] exceeds [INT_MAX], wraps, and
    the stored level is below the minimum, in both versions. *)
Lemma quant_level_overflow_counterexample :
  V14.min_quant_lvl V14.default_info <= V14.max_quant_lvl V14.default_info
  /\ 1 <= V14.steps V14.default_info
  /\ 1 <= 178956972
  /\ V14.stored_quant (V14.set_stream bound_elements V14.default_info) 178956972
     = Some (-2147483644)
  /\ V15.storedQuant
       (V15.set_maxQuantLevel 51 (V15.set_stream bound_elements V15.default_info))
       178956972 = Some (-2147483644)
  /\ -2147483644 < V14.min_quant_lvl V14.default_info.
Proof.
  repeat split; try (vm_compute; congruence).
Qed.

(** C2 (amended).  For every configuration of 32-bit values with
    [minBitrate <= maxBitrate], a representable distance and [steps >= 1], and
    for all client counts [1 <= n1 <= n2] such that the bitrate for [n2] is
    computed without 32-bit overflow, the bitrate that the bitrate-scaling
    adaptation stores (run with the encoder bound) lies in
    [[minBitrate, maxBitrate]] and does not increase from [n1] to [n2]. *)
Theorem bitrate_bounded_monotone :
  (forall (si : V14.stream_info) (enc : GstElement) (n1 n2 : Z),
      encoder (V14.stream si) = Some enc ->
      level_config (V14.min_bitrate si) (V14.max_bitrate si) (V14.steps si) ->
      1 <= n1 <= n2 ->
      bitrate_fits (V14.min_bitrate si) (V14.max_bitrate si) (V14.steps si) n2 ->
      exists b1 b2,
        V14.stored_bitrate si n1 = Some b1 /\ V14.stored_bitrate si n2 = Some b2
        /\ V14.min_bitrate si <= b2 /\ b2 <= b1 /\ b1 <= V14.max_bitrate si)
  /\ (forall (si : V15.StreamInfo) (enc : GstElement) (n1 n2 : Z),
      encoder (V15.stream si) = Some enc ->
      level_config (V15.minBitrate si) (V15.maxBitrate si) (V15.steps si) ->
      1 <= n1 <= n2 ->
      bitrate_fits (V15.minBitrate si) (V15.maxBitrate si) (V15.steps si) n2 ->
      exists b1 b2,
        V15.storedBitrate si n1 = Some b1 /\ V15.storedBitrate si n2 = Some b2
        /\ V15.minBitrate si <= b2 /\ b2 <= b1 /\ b1 <= V15.maxBitrate si).
Proof.
  split.
  - intros si enc n1 n2 He Hc Hn Hfit.
    rewrite !(stored_bitrate_value _ _ _ He Hc).
    eexists; eexists; split; [reflexivity | split; [reflexivity |]].
    exact (bitrate_levels_ordered _ _ _ _ _ Hc Hn Hfit).
  - intros si enc n1 n2 He Hc Hn Hfit.
    rewrite !(storedBitrate_value _ _ _ He Hc).
    eexists; eexists; split; [reflexivity | split; [reflexivity |]].
    exact (bitrate_levels_ordered _ _ _ _ _ Hc Hn Hfit).
Qed.

Lemma default_bitrate_config : level_config 1 10000 4.
Proof.
  unfold level_config, CInt.in_range, CInt.INT_MIN, CInt.INT_MAX. lia.
Defined.

Lemma default_bitrate_fits : bitrate_fits 1 10000 4 10.
Proof.
  unfold bitrate_fits, CInt.in_range, CInt.INT_MIN, CInt.INT_MAX.
  split; [lia | vm_compute; discriminate].
Defined.

(** The amended C2 at the bounds 1..10000 in four steps, for two and ten
    clients. *)
Lemma bitrate_bounded_monotone_witness :
  (exists b1 b2,
      V14.stored_bitrate (V14.set_stream bound_elements V14.default_info) 2
      = Some b1
      /\ V14.stored_bitrate (V14.set_stream bound_elements V14.default_info) 10
         = Some b2
      /\ 1 <= b2 /\ b2 <= b1 /\ b1 <= 10000)
  /\ (exists b1 b2,
      V15.storedBitrate
        (V15.set_maxBitrate 10000 (V15.set_stream bound_elements V15.default_info))
        2 = Some b1
      /\ V15.storedBitrate
           (V15.set_maxBitrate 10000
              (V15.set_stream bound_elements V15.default_info)) 10 = Some b2
      /\ 1 <= b2 /\ b2 <= b1 /\ b1 <= 10000).
Proof.
  split.
  - apply (proj1 bitrate_bounded_monotone
             (V14.set_stream bound_elements V14.default_info) enc0 2 10).
    + reflexivity.
    + exact default_bitrate_config.
    + lia.
    + exact default_bitrate_fits.
  - apply (proj2 bitrate_bounded_monotone
             (V15.set_maxBitrate 10000
                (V15.set_stream bound_elements V15.default_info)) enc0 2 10).
    + reflexivity.
    + exact default_bitrate_config.
    + lia.
    + exact default_bitrate_fits.
Defined.

(** C2 as stated fails: with the bounds 1..10000 in four steps (step 2499)
    and 859395 clients, [(n - 1) * 2499] exceeds [INT_MAX], wraps to a
    negative number, and the stored bitrate is above the maximum, in both
    versions. *)
Lemma bitrate_overflow_counterexample :
  V14.min_bitrate V14.default_info <= V14.max_bitrate V14.default_info
  /\ 1 <= V14.steps V14.default_info
  /\ 1 <= 859395
  /\ V14.stored_bitrate (V14.set_stream bound_elements V14.default_info) 859395
     = Some 2147351690
  /\ V15.storedBitrate
       (V15.set_maxBitrate 10000 (V15.set_stream bound_elements V15.default_info))
       859395 = Some 2147351690
  /\ V14.max_bitrate V14.default_info < 2147351690.
Proof.
  repeat split; try (vm_compute; congruence).
Qed.

(** ** The worked scenario *)

(** C7.  With [minQuant = 0], [maxQuant = 51] and [steps = 4] the step is 12,
    and the stored quant level is 0 for one client, 48 for five and 51 (the
    clamp) for ten, in both versions. *)
Theorem quant_scenario_0_51_4 :
  (forall (si : V14.stream_info) (enc : GstElement),
      encoder (V14.stream si) = Some enc ->
      V14.min_quant_lvl si = 0 -> V14.max_quant_lvl si = 51 ->
      V14.steps si = 4 ->
      V14.quant_step si = Some 12
      /\ V14.stored_quant si 1 = Some 0
      /\ V14.stored_quant si 5 = Some 48
      /\ V14.stored_quant si 10 = Some 51)
  /\ (forall (si : V15.StreamInfo) (enc : GstElement),
      encoder (V15.stream si) = Some enc ->
      V15.minQuantLevel si = 0 -> V15.maxQuantLevel si = 51 ->
      V15.steps si = 4 ->
      V15.quantStep si = Some 12
      /\ V15.storedQuant si 1 = Some 0
      /\ V15.storedQuant si 5 = Some 48
      /\ V15.storedQuant si 10 = Some 51).
Proof.
  split.
  - intros si enc He Hmin Hmax Hst.
    assert (Hc : level_config (V14.min_quant_lvl si) (V14.max_quant_lvl si)
                   (V14.steps si))
      by (rewrite Hmin, Hmax, Hst; exact default_quant_config).
    rewrite !(stored_quant_value _ _ _ He Hc).
    unfold V14.quant_step. rewrite Hmin, Hmax, Hst.
    repeat split; reflexivity.
  - intros si enc He Hmin Hmax Hst.
    assert (Hc : level_config (V15.minQuantLevel si) (V15.maxQuantLevel si)
                   (V15.steps si))
      by (rewrite Hmin, Hmax, Hst; exact default_quant_config).
    assert (Hpos : 0 < V15.maxQuantLevel si) by (rewrite Hmax; lia).
    rewrite !(storedQuant_value _ _ _ He Hpos Hc).
    unfold V15.quantStep. rewrite Hmin, Hmax, Hst.
    repeat split; reflexivity.
Qed.

(** The scenario on the default configuration of version 1.4 and, for
    version 1.5, on the default configuration with the maximum raised to 51. *)
Lemma quant_scenario_0_51_4_witness :
  (V14.quant_step (V14.set_stream bound_elements V14.default_info) = Some 12
   /\ V14.stored_quant (V14.set_stream bound_elements V14.default_info) 1 = Some 0
   /\ V14.stored_quant (V14.set_stream bound_elements V14.default_info) 5 = Some 48
   /\ V14.stored_quant (V14.set_stream bound_elements V14.default_info) 10
      = Some 51)
  /\ (V15.quantStep
        (V15.set_maxQuantLevel 51 (V15.set_stream bound_elements V15.default_info))
      = Some 12
      /\ V15.storedQuant
           (V15.set_maxQuantLevel 51
              (V15.set_stream bound_elements V15.default_info)) 1 = Some 0
      /\ V15.storedQuant
           (V15.set_maxQuantLevel 51
              (V15.set_stream bound_elements V15.default_info)) 5 = Some 48
      /\ V15.storedQuant
           (V15.set_maxQuantLevel 51
              (V15.set_stream bound_elements V15.default_info)) 10 = Some 51).
Proof.
  split.
  - apply (proj1 quant_scenario_0_51_4
             (V14.set_stream bound_elements V14.default_info) enc0);
      reflexivity.
  - apply (proj2 quant_scenario_0_51_4
             (V15.set_maxQuantLevel 51
                (V15.set_stream bound_elements V15.default_info)) enc0);
      reflexivity.
Defined.

(** ** Apply only on change *)

Lemma property_writes_app (a b : list event) :
  property_writes (a ++ b) = (property_writes a ++ property_writes b)%list.
Proof. apply filter_app. Qed.

Lemma property_writes_snoc_other (a : list event) (e : event) :
  is_set_property e = false -> property_writes (a ++ [e]) = property_writes a.
Proof.
  intros H. rewrite property_writes_app. simpl. rewrite H. apply app_nil_r.
Qed.

Ltac writes_norm :=
  repeat (rewrite ?property_writes_app; simpl); rewrite ?app_nil_r.

Lemma change_quant_applies (w : world V14.stream_info) :
  1 <= V14.steps (w_si w) ->
  applies_on_change V14.change_quant V14.curr_quant_lvl
    (fun si => encoder (V14.stream si)) "quant-param" w.
Proof.
  intros Hst. unfold applies_on_change.
  destruct (encoder (V14.stream (w_si w))) as [enc|] eqn:He.
  - pose proof (div_some (CInt.sub (V14.max_quant_lvl (w_si w))
                            (V14.min_quant_lvl (w_si w))) _ Hst) as Hd.
    rewrite (change_quant_run w enc _ He Hd). cbv zeta.
    set (q := quant_level _ _ _ _).
    eexists; eexists; split; [reflexivity|].
    rewrite change_quant_run
      with (enc := enc)
           (st := Z.quot (CInt.sub (V14.max_quant_lvl (w_si w))
                            (V14.min_quant_lvl (w_si w))) (V14.steps (w_si w)))
      by (simpl; assumption).
    cbv zeta. cbn [w_si w_out w_open]. simpl V14.curr_quant_lvl.
    simpl V14.min_quant_lvl. simpl V14.max_quant_lvl. simpl V14.num_cli.
    fold q. rewrite Z.eqb_refl.
    split; [reflexivity|]. split; [reflexivity|].
    split; [now writes_norm|].
    split.
    + intros Heq. rewrite <- Heq, Z.eqb_refl. now writes_norm.
    + intros Hne. exists enc. split; [reflexivity|].
      apply Z.eqb_neq in Hne. rewrite Hne. now writes_norm.
  - rewrite (change_quant_unbound w He).
    eexists; eexists; split; [reflexivity|].
    rewrite change_quant_unbound by exact He. cbn [w_si w_out w_open].
    split; [reflexivity|]. split; [reflexivity|].
    split; [now writes_norm|].
    split; [intros _; now writes_norm | intros Hne; now contradiction Hne].
Qed.

Lemma change_bitrate_applies (w : world V14.stream_info) :
  1 <= V14.steps (w_si w) ->
  applies_on_change V14.change_bitrate V14.curr_bitrate
    (fun si => encoder (V14.stream si)) "bitrate" w.
Proof.
  intros Hst. unfold applies_on_change.
  destruct (encoder (V14.stream (w_si w))) as [enc|] eqn:He.
  - pose proof (div_some (CInt.sub (V14.max_bitrate (w_si w))
                            (V14.min_bitrate (w_si w))) _ Hst) as Hd.
    rewrite (change_bitrate_run w enc _ He Hd). cbv zeta.
    set (b := bitrate_level _ _ _ _).
    eexists; eexists; split; [reflexivity|].
    rewrite change_bitrate_run
      with (enc := enc)
           (st := Z.quot (CInt.sub (V14.max_bitrate (w_si w))
                            (V14.min_bitrate (w_si w))) (V14.steps (w_si w)))
      by (simpl; assumption).
    cbv zeta. cbn [w_si w_out w_open]. simpl V14.curr_bitrate.
    simpl V14.min_bitrate. simpl V14.max_bitrate. simpl V14.num_cli.
    fold b. rewrite Z.eqb_refl.
    split; [reflexivity|]. split; [reflexivity|].
    split; [destruct (bitrate_raw _ _ _ <? _); now writes_norm|].
    split.
    + intros Heq. rewrite <- Heq, Z.eqb_refl.
      destruct (bitrate_raw _ _ _ <? _); now writes_norm.
    + intros Hne. exists enc. split; [reflexivity|].
      apply Z.eqb_neq in Hne. rewrite Hne.
      destruct (bitrate_raw _ _ _ <? _); now writes_norm.
  - rewrite (change_bitrate_unbound w He).
    eexists; eexists; split; [reflexivity|].
    rewrite change_bitrate_unbound by exact He. cbn [w_si w_out w_open].
    split; [reflexivity|]. split; [reflexivity|].
    split; [now writes_norm|].
    split; [intros _; now writes_norm | intros Hne; now contradiction Hne].
Qed.

Lemma changeQuant_applies (w : world V15.StreamInfo) :
  1 <= V15.steps (w_si w) ->
  applies_on_change V15.changeQuant V15.currentQuantLevel
    (fun si => encoder (V15.stream si)) "quant-param" w.
Proof.
  intros Hst. unfold applies_on_change.
  destruct (encoder (V15.stream (w_si w))) as [enc|] eqn:He;
    [destruct (Z.lt_ge_cases 0 (V15.maxQuantLevel (w_si w))) as [Hmax|Hmax]|].
  - pose proof (div_some (CInt.sub (V15.maxQuantLevel (w_si w))
                            (V15.minQuantLevel (w_si w))) _ Hst) as Hd.
    rewrite (changeQuant_run w enc _ He Hmax Hd). cbv zeta.
    set (q := quant_level _ _ _ _).
    eexists; eexists; split; [reflexivity|].
    rewrite changeQuant_run
      with (enc := enc)
           (st := Z.quot (CInt.sub (V15.maxQuantLevel (w_si w))
                            (V15.minQuantLevel (w_si w))) (V15.steps (w_si w)))
      by (simpl; assumption).
    cbv zeta. cbn [w_si w_out w_open]. simpl V15.currentQuantLevel.
    simpl V15.minQuantLevel. simpl V15.maxQuantLevel.
    simpl V15.numConnectedClients.
    fold q. rewrite Z.eqb_refl.
    split; [reflexivity|]. split; [reflexivity|].
    split; [now writes_norm|].
    split.
    + intros Heq. rewrite <- Heq, Z.eqb_refl. now writes_norm.
    + intros Hne. exists enc. split; [reflexivity|].
      apply Z.eqb_neq in Hne. rewrite Hne. now writes_norm.
  - rewrite (changeQuant_idle w (or_intror Hmax)).
    eexists; eexists; split; [reflexivity|].
    rewrite changeQuant_idle by (right; exact Hmax). cbn [w_si w_out w_open].
    split; [reflexivity|]. split; [reflexivity|].
    split; [now writes_norm|].
    split; [intros _; now writes_norm | intros Hne; now contradiction Hne].
  - rewrite (changeQuant_idle w (or_introl He)).
    eexists; eexists; split; [reflexivity|].
    rewrite changeQuant_idle by (left; exact He). cbn [w_si w_out w_open].
    split; [reflexivity|]. split; [reflexivity|].
    split; [now writes_norm|].
    split; [intros _; now writes_norm | intros Hne; now contradiction Hne].
Qed.

Lemma changeBitrate_applies (w : world V15.StreamInfo) :
  1 <= V15.steps (w_si w) ->
  applies_on_change V15.changeBitrate V15.currentBitrate
    (fun si => encoder (V15.stream si)) "bitrate" w.
Proof.
  intros Hst. unfold applies_on_change.
  destruct (encoder (V15.stream (w_si w))) as [enc|] eqn:He.
  - pose proof (div_some (CInt.sub (V15.maxBitrate (w_si w))
                            (V15.minBitrate (w_si w))) _ Hst) as Hd.
    rewrite (changeBitrate_run w enc _ He Hd). cbv zeta.
    set (b := bitrate_level _ _ _ _).
    eexists; eexists; split; [reflexivity|].
    rewrite changeBitrate_run
      with (enc := enc)
           (st := Z.quot (CInt.sub (V15.maxBitrate (w_si w))
                            (V15.minBitrate (w_si w))) (V15.steps (w_si w)))
      by (simpl; assumption).
    cbv zeta. cbn [w_si w_out w_open]. simpl V15.currentBitrate.
    simpl V15.minBitrate. simpl V15.maxBitrate. simpl V15.numConnectedClients.
    fold b. rewrite Z.eqb_refl.
    split; [reflexivity|]. split; [reflexivity|].
    split; [destruct (bitrate_raw _ _ _ <? _); now writes_norm|].
    split.
    + intros Heq. rewrite <- Heq, Z.eqb_refl.
      destruct (bitrate_raw _ _ _ <? _); now writes_norm.
    + intros Hne. exists enc. split; [reflexivity|].
      apply Z.eqb_neq in Hne. rewrite Hne.
      destruct (bitrate_raw _ _ _ <? _); now writes_norm.
  - rewrite (changeBitrate_unbound w He).
    eexists; eexists; split; [reflexivity|].
    rewrite changeBitrate_unbound by exact He. cbn [w_si w_out w_open].
    split; [reflexivity|]. split; [reflexivity|].
    split; [now writes_norm|].
    split; [intros _; now writes_norm | intros Hne; now contradiction Hne].
Qed.

(** C8.  In both versions and for both adaptations, running the adaptation
    again on the state it has just produced (same client count) leaves the
    state as it is and writes no property; and a run writes the encoder
    property exactly when the value it stores differs from the value stored
    before. *)
Theorem recompute_applies_only_on_change :
  (forall w : world V14.stream_info,
      1 <= V14.steps (w_si w) ->
      applies_on_change V14.change_quant V14.curr_quant_lvl
        (fun si => encoder (V14.stream si)) "quant-param" w
      /\ applies_on_change V14.change_bitrate V14.curr_bitrate
           (fun si => encoder (V14.stream si)) "bitrate" w)
  /\ (forall w : world V15.StreamInfo,
      1 <= V15.steps (w_si w) ->
      applies_on_change V15.changeQuant V15.currentQuantLevel
        (fun si => encoder (V15.stream si)) "quant-param" w
      /\ applies_on_change V15.changeBitrate V15.currentBitrate
           (fun si => encoder (V15.stream si)) "bitrate" w).
Proof.
  split; intros w Hst; split.
  - now apply change_quant_applies.
  - now apply change_bitrate_applies.
  - now apply changeQuant_applies.
  - now apply changeBitrate_applies.
Qed.

(** C8 on the default configurations, with the elements bound and three
    clients attached. *)
Lemma recompute_applies_only_on_change_witness :
  (applies_on_change V14.change_quant V14.curr_quant_lvl
     (fun si => encoder (V14.stream si)) "quant-param"
     (World (V14.set_num_cli 3 (V14.set_stream bound_elements V14.default_info))
        [] [])
   /\ applies_on_change V14.change_bitrate V14.curr_bitrate
        (fun si => encoder (V14.stream si)) "bitrate"
        (World (V14.set_num_cli 3 (V14.set_stream bound_elements V14.default_info))
           [] []))
  /\ (applies_on_change V15.changeQuant V15.currentQuantLevel
        (fun si => encoder (V15.stream si)) "quant-param"
        (World (V15.set_numConnectedClients 3
                  (V15.set_stream bound_elements V15.default_info)) [] [])
      /\ applies_on_change V15.changeBitrate V15.currentBitrate
           (fun si => encoder (V15.stream si)) "bitrate"
           (World (V15.set_numConnectedClients 3
                     (V15.set_stream bound_elements V15.default_info)) [] [])).
Proof.
  split.
  - apply (proj1 recompute_applies_only_on_change). simpl. lia.
  - apply (proj2 recompute_applies_only_on_change). simpl. lia.
Defined.

(** ** Rules for [partial] and [total] *)

Section Rules.

Context {S : Type}.

Lemma partial_ret {A} (w : world S) (a : A) (Q : A -> world S -> Prop) :
  Q a w -> partial w (ret a) Q.
Proof. intros H a' w' Heq. inversion Heq; subst. exact H. Qed.

Lemma partial_bind {A B} (w : world S) (c : M S A) (k : A -> M S B)
    (Q : B -> world S -> Prop) :
  partial w c (fun a w1 => partial w1 (k a) Q) -> partial w (bind c k) Q.
Proof.
  intros H b w' Heq. unfold bind in Heq.
  destruct (c w) as [[a w1]|f] eqn:Hc; [|discriminate].
  exact (H a w1 Hc b w' Heq).
Qed.

Lemma partial_weaken {A} (w : world S) (c : M S A)
    (Q1 Q2 : A -> world S -> Prop) :
  partial w c Q1 -> (forall a w', Q1 a w' -> Q2 a w') -> partial w c Q2.
Proof. intros H HQ a w' Heq. apply HQ. exact (H a w' Heq). Qed.

Lemma partial_get (w : world S) (Q : S -> world S -> Prop) :
  Q (w_si w) w -> partial w get_si Q.
Proof. intros H a w' Heq. inversion Heq; subst. exact H. Qed.

Lemma partial_put (w : world S) (s : S) (Q : unit -> world S -> Prop) :
  Q tt (World s (w_out w) (w_open w)) -> partial w (put_si s) Q.
Proof. intros H a w' Heq. inversion Heq; subst. exact H. Qed.

Lemma partial_modify (w : world S) (f : S -> S) (Q : unit -> world S -> Prop) :
  Q tt (World (f (w_si w)) (w_out w) (w_open w)) -> partial w (modify f) Q.
Proof. intros H a w' Heq. inversion Heq; subst. exact H. Qed.

Lemma partial_emit (w : world S) (e : event) (Q : unit -> world S -> Prop) :
  Q tt (World (w_si w) (w_out w ++ [e]) (w_open w)) -> partial w (emit e) Q.
Proof. intros H a w' Heq. inversion Heq; subst. exact H. Qed.

Lemma partial_open (w : world S) (path : string) (Q : Z -> world S -> Prop) :
  Q (next_open (w_open w))
    (World (w_si w) (w_out w ++ [SysOpen path (next_open (w_open w))])
       (tl (w_open w))) ->
  partial w (sys_open path) Q.
Proof. intros H a w' Heq. inversion Heq; subst. exact H. Qed.

Lemma partial_trap {A} (w : world S) (f : fault) (Q : A -> world S -> Prop) :
  partial w (trap f) Q.
Proof. intros a w' Heq. discriminate. Qed.

Lemma total_ret {A} (w : world S) (a : A) (Q : A -> world S -> Prop) :
  Q a w -> total w (ret a) Q.
Proof. intros H. exists a, w. split; [reflexivity | exact H]. Qed.

Lemma total_bind {A B} (w : world S) (c : M S A) (k : A -> M S B)
    (Q : B -> world S -> Prop) :
  total w c (fun a w1 => total w1 (k a) Q) -> total w (bind c k) Q.
Proof.
  intros (a & w1 & Hc & b & w' & Hk & HQ). exists b, w'. split; [|exact HQ].
  unfold bind. rewrite Hc. exact Hk.
Qed.

Lemma total_weaken {A} (w : world S) (c : M S A)
    (Q1 Q2 : A -> world S -> Prop) :
  total w c Q1 -> (forall a w', Q1 a w' -> Q2 a w') -> total w c Q2.
Proof. intros (a & w' & Hc & HQ) H. exists a, w'. split; [exact Hc | now apply H]. Qed.

Lemma total_get (w : world S) (Q : S -> world S -> Prop) :
  Q (w_si w) w -> total w get_si Q.
Proof. intros H. exists (w_si w), w. split; [reflexivity | exact H]. Qed.

Lemma total_put (w : world S) (s : S) (Q : unit -> world S -> Prop) :
  Q tt (World s (w_out w) (w_open w)) -> total w (put_si s) Q.
Proof. intros H. eexists; eexists. split; [reflexivity | exact H]. Qed.

Lemma total_modify (w : world S) (f : S -> S) (Q : unit -> world S -> Prop) :
  Q tt (World (f (w_si w)) (w_out w) (w_open w)) -> total w (modify f) Q.
Proof. intros H. eexists; eexists. split; [reflexivity | exact H]. Qed.

Lemma total_emit (w : world S) (e : event) (Q : unit -> world S -> Prop) :
  Q tt (World (w_si w) (w_out w ++ [e]) (w_open w)) -> total w (emit e) Q.
Proof. intros H. eexists; eexists. split; [reflexivity | exact H]. Qed.

Lemma total_open (w : world S) (path : string) (Q : Z -> world S -> Prop) :
  Q (next_open (w_open w))
    (World (w_si w) (w_out w ++ [SysOpen path (next_open (w_open w))])
       (tl (w_open w))) ->
  total w (sys_open path) Q.
Proof. intros H. eexists; eexists. split; [reflexivity | exact H]. Qed.

Lemma total_partial {A} (w : world S) (c : M S A) (Q : A -> world S -> Prop) :
  total w c Q -> partial w c Q.
Proof.
  intros (a & w' & Hc & HQ) a' w'' Heq. rewrite Hc in Heq.
  inversion Heq; subst. exact HQ.
Qed.

End Rules.

(** One step of symbolic execution on a [partial] or [total] goal. *)
Ltac exec_step :=
  lazymatch goal with
  | |- partial _ (bind _ _) _ => apply partial_bind
  | |- partial _ (ret _) _ => apply partial_ret
  | |- partial _ get_si _ => apply partial_get
  | |- partial _ (put_si _) _ => apply partial_put
  | |- partial _ (modify _) _ => apply partial_modify
  | |- partial _ (emit _) _ => apply partial_emit
  | |- partial _ (dbg _ _ _ _) _ => apply partial_emit
  | |- partial _ (sys_open _) _ => apply partial_open
  | |- partial _ (trap _) _ => apply partial_trap
  | |- partial _ (if ?b then _ else _) _ => destruct b eqn:?
  | |- partial _ (match ?x with _ => _ end) _ => destruct x eqn:?
  | |- total _ (bind _ _) _ => apply total_bind
  | |- total _ (ret _) _ => apply total_ret
  | |- total _ get_si _ => apply total_get
  | |- total _ (put_si _) _ => apply total_put
  | |- total _ (modify _) _ => apply total_modify
  | |- total _ (emit _) _ => apply total_emit
  | |- total _ (dbg _ _ _ _) _ => apply total_emit
  | |- total _ (sys_open _) _ => apply total_open
  | |- total _ (if ?b then _ else _) _ => destruct b eqn:?
  | |- total _ (match ?x with _ => _ end) _ => destruct x eqn:?
  end; cbn beta iota zeta; cbn [w_si w_out w_open].

(** Symbolic execution, with [call] applied at the calls of functions that
    have a specification. *)
Ltac exec_with call := repeat first [exec_step | call].
Ltac exec := repeat exec_step.

(** ** Parsing a command line *)

Lemma string_app_empty_r (s : string) : (s ++ "")%string = s.
Proof. induction s; simpl; congruence. Qed.

Lemma string_app_assoc (a b c : string) :
  ((a ++ b) ++ c)%string = (a ++ (b ++ c))%string.
Proof. induction a; simpl; congruence. Qed.

Lemma strcat_at_empty (i : nat) (ps : list string) : strcat_at i "" ps = ps.
Proof.
  revert i. induction ps as [|p ps IH]; intros [|i]; simpl; try reflexivity.
  - now rewrite string_app_empty_r.
  - now rewrite IH.
Qed.

Lemma strcat_at_twice (i : nat) (a b : string) (ps : list string) :
  strcat_at i b (strcat_at i a ps) = strcat_at i (a ++ b) ps.
Proof.
  revert i. induction ps as [|p ps IH]; intros [|i]; simpl; try reflexivity.
  - now rewrite string_app_assoc.
  - now rewrite IH.
Qed.

Lemma strcat_at_beyond (i : nat) (s : string) (ps : list string) :
  (List.length ps <= i)%nat -> strcat_at i s ps = ps.
Proof.
  revert i. induction ps as [|p ps IH]; intros [|i] H; simpl in *;
    try reflexivity; try lia.
  rewrite IH by lia. reflexivity.
Qed.

Lemma strcat_at_length (i : nat) (s : string) (ps : list string) :
  List.length (strcat_at i s ps) = List.length ps.
Proof.
  revert i. induction ps as [|p ps IH]; intros [|i]; simpl; try reflexivity.
  now rewrite IH.
Qed.

Lemma split_fields_cons (cmd : list ascii) :
  exists p ps, split_fields cmd = p :: ps.
Proof.
  induction cmd as [|c rest (p & ps & IH)]; simpl.
  - now exists [], [].
  - destruct (is_delim c).
    + now exists [], (split_fields rest).
    + rewrite IH. now exists (c :: p), ps.
Qed.

Lemma split_fields_length (cmd : list ascii) :
  Z.of_nat (List.length (split_fields cmd)) = delimiters cmd + 1.
Proof.
  unfold delimiters. induction cmd as [|c rest IH]; simpl; [reflexivity|].
  destruct (is_delim c); simpl.
  - lia.
  - destruct (split_fields_cons rest) as (p & ps & Hs). rewrite Hs in *.
    simpl in *. lia.
Qed.

Lemma delimiters_nonneg (cmd : list ascii) : 0 <= delimiters cmd.
Proof. unfold delimiters. lia. Qed.

Lemma append_fields_beyond (d : nat) (ps params : list string) :
  (List.length params <= d)%nat -> append_fields d ps params = params.
Proof.
  revert d params. induction ps as [|p ps IH]; intros d params H; simpl.
  - reflexivity.
  - rewrite strcat_at_beyond by exact H. apply IH. lia.
Qed.

Lemma append_fields_five (ps : list string) :
  append_fields 0 ps [""; ""; ""; ""; ""]
  = [nth 0 ps ""; nth 1 ps ""; nth 2 ps ""; nth 3 ps ""; nth 4 ps ""].
Proof.
  destruct ps as [|p0 [|p1 [|p2 [|p3 [|p4 rest]]]]]; simpl; try reflexivity.
  apply append_fields_beyond. simpl. lia.
Qed.

Lemma fields_of_pieces (cmd : list ascii) :
  append_fields 0 (map c_string (split_fields cmd)) [""; ""; ""; ""; ""]
  = five_fields cmd.
Proof.
  rewrite append_fields_five. unfold five_fields, field.
  now rewrite !(map_nth c_string (split_fields cmd) []).
Qed.

Lemma extras_all (func : string) (d : Z) (ps : list (list ascii)) :
  5 <= d -> extras func d ps = map (extra_character func) (List.concat ps).
Proof.
  revert d. induction ps as [|p ps IH]; intros d H; simpl; [reflexivity|].
  replace (d <=? 4) with false by (symmetry; apply Z.leb_gt; lia).
  rewrite IH by lia. now rewrite map_app.
Qed.

Lemma extras_skip (func : string) (n : nat) (ps : list (list ascii)) :
  (n <= 5)%nat ->
  extras func (5 - Z.of_nat n) ps
  = map (extra_character func) (List.concat (skipn n ps)).
Proof.
  revert ps. induction n as [|n IH]; intros ps H.
  - simpl. apply extras_all. lia.
  - destruct ps as [|p ps]; [reflexivity|].
    remember (5 - Z.of_nat (S n)) as d eqn:Hd. cbn [extras skipn].
    replace (d <=? 4) with true by (symmetry; apply Z.leb_le; lia).
    replace (d + 1) with (5 - Z.of_nat n) by lia.
    cbn [app]. apply IH. lia.
Qed.

Lemma extras_of_line (func : string) (cmd : list ascii) :
  extras func 0 (split_fields cmd) = map (extra_character func) (extra_chars cmd).
Proof. exact (extras_skip func 5 (split_fields cmd) (le_n 5)). Qed.

Lemma world_eta {S : Type} (w : world S) :
  World (w_si w) (w_out w) (w_open w) = w.
Proof. now destruct w. Qed.

Lemma scan_command_run (cmd : list ascii) :
  forall (params : list string) (d : Z) (w : world V14.stream_info),
    0 <= d -> List.length params = 5%nat ->
    V14.scan_command cmd params d w
    = Ok ((append_fields (Z.to_nat d) (map c_string (split_fields cmd)) params,
           d + delimiters cmd),
          World (w_si w)
            (w_out w ++ extras "process_command" d (split_fields cmd))
            (w_open w)).
Proof.
  unfold delimiters.
  induction cmd as [|c rest IH]; intros params d w Hd Hlen.
  - simpl. rewrite strcat_at_empty, Z.add_0_r.
    destruct (d <=? 4); simpl; now rewrite app_nil_r, world_eta.
  - simpl V14.scan_command. fold (is_delim c). simpl split_fields.
    simpl filter. destruct (is_delim c) eqn:Hc; cbn beta iota.
    + rewrite IH; try lia; try assumption.
      cbn [map c_string append_fields extras List.length].
      rewrite strcat_at_empty, Z2Nat.inj_add by lia.
      replace (Z.to_nat d + Z.to_nat 1)%nat with (S (Z.to_nat d)) by lia.
      rewrite Nat2Z.inj_succ.
      replace (d + Z.succ (Z.of_nat (List.length (filter is_delim rest))))
        with (d + 1 + Z.of_nat (List.length (filter is_delim rest))) by lia.
      destruct (d <=? 4); reflexivity.
    + destruct (split_fields_cons rest) as (p & ps & Hs).
      destruct (d <=? 4) eqn:Hd4; cbn beta iota.
      * rewrite IH; try assumption; try (now rewrite strcat_at_length).
        rewrite Hs. simpl. rewrite Hd4, strcat_at_twice. reflexivity.
      * unfold bind, dbg, emit. rewrite IH; try assumption.
        cbn [w_si w_out w_open].
        rewrite Hs. simpl. rewrite Hd4.
        apply Z.leb_gt in Hd4.
        rewrite !(strcat_at_beyond (Z.to_nat d)) by lia.
        rewrite <- app_assoc. reflexivity.
Qed.

Lemma scanCommand_run (cmd : list ascii) :
  forall (params : list string) (d : Z) (w : world V15.StreamInfo),
    0 <= d -> List.length params = 5%nat ->
    V15.scanCommand cmd params d w
    = Ok ((append_fields (Z.to_nat d) (map c_string (split_fields cmd)) params,
           d + delimiters cmd),
          World (w_si w)
            (w_out w ++ extras "processCommand" d (split_fields cmd))
            (w_open w)).
Proof.
  unfold delimiters.
  induction cmd as [|c rest IH]; intros params d w Hd Hlen.
  - simpl. rewrite strcat_at_empty, Z.add_0_r.
    destruct (d <=? 4); simpl; now rewrite app_nil_r, world_eta.
  - simpl V15.scanCommand. fold (is_delim c). simpl split_fields.
    simpl filter. destruct (is_delim c) eqn:Hc; cbn beta iota.
    + rewrite IH; try lia; try assumption.
      cbn [map c_string append_fields extras List.length].
      rewrite strcat_at_empty, Z2Nat.inj_add by lia.
      replace (Z.to_nat d + Z.to_nat 1)%nat with (S (Z.to_nat d)) by lia.
      rewrite Nat2Z.inj_succ.
      replace (d + Z.succ (Z.of_nat (List.length (filter is_delim rest))))
        with (d + 1 + Z.of_nat (List.length (filter is_delim rest))) by lia.
      destruct (d <=? 4); reflexivity.
    + destruct (split_fields_cons rest) as (p & ps & Hs).
      destruct (d <=? 4) eqn:Hd4; cbn beta iota.
      * rewrite IH; try assumption; try (now rewrite strcat_at_length).
        rewrite Hs. simpl. rewrite Hd4, strcat_at_twice. reflexivity.
      * unfold bind, dbg, emit. rewrite IH; try assumption.
        cbn [w_si w_out w_open].
        rewrite Hs. simpl. rewrite Hd4.
        apply Z.leb_gt in Hd4.
        rewrite !(strcat_at_beyond (Z.to_nat d)) by lia.
        rewrite <- app_assoc. reflexivity.
Qed.

Lemma few_delimiters_no_extras (cmd : list ascii) :
  delimiters cmd <= 4 -> extra_chars cmd = [].
Proof.
  intros H. unfold extra_chars. rewrite skipn_all2; [reflexivity|].
  pose proof (split_fields_length cmd). lia.
Qed.

Lemma process_command_run (cmd : list ascii) (w : world V14.stream_info) :
  V14.process_command cmd w
  = V14.dispatch_command (five_fields cmd) (delimiters cmd)
      (World (w_si w)
         (w_out w
          ++ Dbg 0 "process_command" " Command: %s"
               [AStr (string_of_list_ascii cmd)]
          :: map (extra_character "process_command") (extra_chars cmd))
         (w_open w)).
Proof.
  unfold V14.process_command, bind at 1, dbg, emit. unfold bind at 1.
  rewrite scan_command_run by (try lia; reflexivity).
  cbn [w_si w_out w_open fst snd Z.to_nat].
  now rewrite fields_of_pieces, extras_of_line, <- app_assoc.
Qed.

Lemma processCommand_run (cmd : list ascii) (w : world V15.StreamInfo) :
  V15.processCommand cmd w
  = V15.dispatchCommand (five_fields cmd) (delimiters cmd)
      (World (w_si w)
         (w_out w
          ++ Dbg 0 "processCommand" " Command: %s"
               [AStr (string_of_list_ascii cmd)]
          :: map (extra_character "processCommand") (extra_chars cmd))
         (w_open w)).
Proof.
  unfold V15.processCommand, bind at 1, dbg, emit. unfold bind at 1.
  rewrite scanCommand_run by (try lia; reflexivity).
  cbn [w_si w_out w_open fst snd Z.to_nat].
  now rewrite fields_of_pieces, extras_of_line, <- app_assoc.
Qed.

(** C5.  In both versions a command line is split at its delimiters into
    the five fields action, elementName, padName, paramName, paramValue, in
    that order (a missing field is empty); each character beyond the fifth
    field is dropped with a level-0 log message and nothing else, the command
    being dispatched on the five fields all the same; and a [setparam] line
    with fewer than four delimiters is answered by the log message
    "not enough values" alone, without the setparam handler being entered. *)
Theorem command_line_fields :
  (forall (cmd : list ascii) (w : world V14.stream_info),
      V14.scan_command cmd [""; ""; ""; ""; ""] 0 w
      = Ok ((five_fields cmd, delimiters cmd),
            World (w_si w)
              (w_out w
               ++ map (extra_character "process_command") (extra_chars cmd))
              (w_open w))
      /\ V14.process_command cmd w
         = V14.dispatch_command (five_fields cmd) (delimiters cmd)
             (World (w_si w)
                (w_out w
                 ++ Dbg 0 "process_command" " Command: %s"
                      [AStr (string_of_list_ascii cmd)]
                 :: map (extra_character "process_command") (extra_chars cmd))
                (w_open w))
      /\ (field cmd 0 = "setparam" -> delimiters cmd < 4 ->
          V14.process_command cmd w
          = Ok (tt, World (w_si w)
                      (w_out w
                       ++ [Dbg 0 "process_command" " Command: %s"
                             [AStr (string_of_list_ascii cmd)];
                           Dbg 4 "process_command" "calling do_command_setparam" [];
                           Dbg 0 "process_command" "not enough values: %d"
                             [AInt (delimiters cmd)]])
                      (w_open w))))
  /\ (forall (cmd : list ascii) (w : world V15.StreamInfo),
      V15.scanCommand cmd [""; ""; ""; ""; ""] 0 w
      = Ok ((five_fields cmd, delimiters cmd),
            World (w_si w)
              (w_out w
               ++ map (extra_character "processCommand") (extra_chars cmd))
              (w_open w))
      /\ V15.processCommand cmd w
         = V15.dispatchCommand (five_fields cmd) (delimiters cmd)
             (World (w_si w)
                (w_out w
                 ++ Dbg 0 "processCommand" " Command: %s"
                      [AStr (string_of_list_ascii cmd)]
                 :: map (extra_character "processCommand") (extra_chars cmd))
                (w_open w))
      /\ (field cmd 0 = "setparam" -> delimiters cmd < 4 ->
          V15.processCommand cmd w
          = Ok (tt, World (w_si w)
                      (w_out w
                       ++ [Dbg 0 "processCommand" " Command: %s"
                             [AStr (string_of_list_ascii cmd)];
                           Dbg 4 "processCommand" "calling doCommandSetParameter" [];
                           Dbg 0 "processCommand" "not enough values: %d"
                             [AInt (delimiters cmd)]])
                      (w_open w)))).
Proof.
  split; intros cmd w; (split; [|split]).
  - rewrite scan_command_run by (try lia; reflexivity).
    cbn [Z.to_nat]. now rewrite fields_of_pieces, extras_of_line.
  - apply process_command_run.
  - intros Hact Hfew. rewrite process_command_run.
    rewrite few_delimiters_no_extras by lia.
    unfold V14.dispatch_command. cbn [five_fields nth]. rewrite Hact.
    cbn [String.eqb Ascii.eqb Bool.eqb]. apply Z.ltb_lt in Hfew.
    unfold bind, dbg, emit. rewrite Hfew. cbn [w_si w_out w_open map].
    now rewrite <- !app_assoc.
  - rewrite scanCommand_run by (try lia; reflexivity).
    cbn [Z.to_nat]. now rewrite fields_of_pieces, extras_of_line.
  - apply processCommand_run.
  - intros Hact Hfew. rewrite processCommand_run.
    rewrite few_delimiters_no_extras by lia.
    unfold V15.dispatchCommand. cbn [five_fields nth]. rewrite Hact.
    cbn [String.eqb Ascii.eqb Bool.eqb]. apply Z.ltb_lt in Hfew.
    unfold bind, dbg, emit. rewrite Hfew. cbn [w_si w_out w_open map].
    now rewrite <- !app_assoc.
Qed.

Example five_fields_example :
  five_fields (list_ascii_of_string "setparam:enc0::bitrate:5000:more:junk")
  = ["setparam"; "enc0"; ""; "bitrate"; "5000"]
  /\ extra_chars (list_ascii_of_string "setparam:enc0::bitrate:5000:more:junk")
     = list_ascii_of_string "morejunk"
  /\ delimiters (list_ascii_of_string "setparam:enc0::bitrate:5000:more:junk") = 6.
Proof. repeat split. Qed.

(** C5 on the line [setparam:enc0::bitrate], which has three delimiters. *)
Lemma command_line_fields_witness :
  (field (list_ascii_of_string "setparam:enc0::bitrate") 0 = "setparam"
   /\ delimiters (list_ascii_of_string "setparam:enc0::bitrate") < 4
   /\ V14.process_command (list_ascii_of_string "setparam:enc0::bitrate")
        (World V14.default_info [] [])
      = Ok (tt, World V14.default_info
                  ([]
                   ++ [Dbg 0 "process_command" " Command: %s"
                         [AStr (string_of_list_ascii
                                  (list_ascii_of_string "setparam:enc0::bitrate"))];
                       Dbg 4 "process_command" "calling do_command_setparam" [];
                       Dbg 0 "process_command" "not enough values: %d"
                         [AInt (delimiters
                                  (list_ascii_of_string "setparam:enc0::bitrate"))]])
                  []))
  /\ (field (list_ascii_of_string "setparam:enc0::bitrate") 0 = "setparam"
      /\ delimiters (list_ascii_of_string "setparam:enc0::bitrate") < 4
      /\ V15.processCommand (list_ascii_of_string "setparam:enc0::bitrate")
           (World V15.default_info [] [])
         = Ok (tt, World V15.default_info
                     ([]
                      ++ [Dbg 0 "processCommand" " Command: %s"
                            [AStr (string_of_list_ascii
                                     (list_ascii_of_string "setparam:enc0::bitrate"))];
                          Dbg 4 "processCommand" "calling doCommandSetParameter" [];
                          Dbg 0 "processCommand" "not enough values: %d"
                            [AInt (delimiters
                                     (list_ascii_of_string
                                        "setparam:enc0::bitrate"))]])
                     [])).
Proof.
  split; (split; [reflexivity | split; [reflexivity |]]).
  - apply (proj2 (proj2 (proj1 command_line_fields
                           (list_ascii_of_string "setparam:enc0::bitrate")
                           (World V14.default_info [] []))));
      reflexivity.
  - apply (proj2 (proj2 (proj2 command_line_fields
                           (list_ascii_of_string "setparam:enc0::bitrate")
                           (World V15.default_info [] []))));
      reflexivity.
Defined.

(** ** The reader *)

Lemma bind_assoc_at {S A B C : Type} (c : M S A) (k1 : A -> M S B)
    (k2 : B -> M S C) (w : world S) :
  bind (bind c k1) k2 w = bind c (fun a => bind (k1 a) k2) w.
Proof. unfold bind. destruct (c w) as [[a w1]|f]; reflexivity. Qed.

Lemma bind_cong_at {S A B : Type} (c : M S A) (k1 k2 : A -> M S B)
    (w : world S) :
  (forall a w1, c w = Ok (a, w1) -> k1 a w1 = k2 a w1) ->
  bind c k1 w = bind c k2 w.
Proof.
  intros H. unfold bind. destruct (c w) as [[a w1]|f]; [|reflexivity].
  now apply H.
Qed.

Lemma lines_of_cons (avail : list ascii) : exists l ls, lines_of avail = l :: ls.
Proof.
  induction avail as [|c rest (l & ls & IH)]; simpl.
  - now exists [], [].
  - destruct (Ascii.eqb c newline).
    + now exists [], (lines_of rest).
    + rewrite IH. now exists (c :: l), ls.
Qed.

Lemma reader_loop_lines (avail : list ascii) :
  forall (buf l : list ascii) (ls : list (list ascii)) (w : world V14.stream_info),
    lines_of avail = l :: ls ->
    Forall (fun x => (List.length x <= 256)%nat) ((buf ++ l)%list :: ls) ->
    V14.reader_loop avail buf w
    = (for_each V14.reader_flush ((buf ++ l)%list :: ls) ;; ret true) w.
Proof.
  induction avail as [|c rest IH]; intros buf l ls w Hl Hlen.
  - simpl in Hl. inversion Hl; subst. rewrite app_nil_r. simpl.
    rewrite !bind_assoc_at. reflexivity.
  - simpl in Hl. cbn [V14.reader_loop].
    destruct (Ascii.eqb c newline) eqn:Hc; cbn [negb].
    + inversion Hl; subst. rewrite app_nil_r. cbn [for_each].
      rewrite bind_assoc_at. apply bind_cong_at. intros [] w1 _.
      destruct (lines_of_cons rest) as (l' & ls' & Hr).
      rewrite (IH [] l' ls' w1 Hr).
      * rewrite Hr. reflexivity.
      * inversion Hlen; subst. cbn [app]. now rewrite <- Hr.
    + destruct (lines_of_cons rest) as (l' & ls' & Hr). rewrite Hr in Hl.
      inversion Hl; subst.
      assert (Hb : (256 <=? Z.of_nat (List.length buf)) = false).
      { apply Z.leb_gt. inversion Hlen as [|? ? H1 H2]; subst.
        rewrite length_app in H1. simpl in H1. lia. }
      rewrite Hb.
      rewrite (IH (buf ++ [c])%list l' ls w Hr).
      * now rewrite <- app_assoc.
      * now rewrite <- app_assoc.
Qed.

Lemma readerLoop_lines (avail : list ascii) :
  forall (buf l : list ascii) (ls : list (list ascii)) (w : world V15.StreamInfo),
    lines_of avail = l :: ls ->
    Forall (fun x => (List.length x <= 256)%nat) ((buf ++ l)%list :: ls) ->
    V15.readerLoop avail buf w
    = (for_each V15.readerFlush ((buf ++ l)%list :: ls) ;; ret true) w.
Proof.
  induction avail as [|c rest IH]; intros buf l ls w Hl Hlen.
  - simpl in Hl. inversion Hl; subst. rewrite app_nil_r. simpl.
    rewrite !bind_assoc_at. reflexivity.
  - simpl in Hl. cbn [V15.readerLoop].
    destruct (Ascii.eqb c newline) eqn:Hc; cbn [negb].
    + inversion Hl; subst. rewrite app_nil_r. cbn [for_each].
      rewrite bind_assoc_at. apply bind_cong_at. intros [] w1 _.
      destruct (lines_of_cons rest) as (l' & ls' & Hr).
      rewrite (IH [] l' ls' w1 Hr).
      * rewrite Hr. reflexivity.
      * inversion Hlen; subst. cbn [app]. now rewrite <- Hr.
    + destruct (lines_of_cons rest) as (l' & ls' & Hr). rewrite Hr in Hl.
      inversion Hl; subst.
      assert (Hb : (256 <=? Z.of_nat (List.length buf)) = false).
      { apply Z.leb_gt. inversion Hlen as [|? ? H1 H2]; subst.
        rewrite length_app in H1. simpl in H1. lia. }
      rewrite Hb.
      rewrite (IH (buf ++ [c])%list l' ls w Hr).
      * now rewrite <- app_assoc.
      * now rewrite <- app_assoc.
Qed.

Lemma reader_flush_cases (l : list ascii) (w : world V14.stream_info) :
  ((0 < List.length l < 256)%nat ->
   V14.reader_flush l w
   = V14.process_command l
       (World (w_si w)
          (w_out w ++ [Dbg 0 "reader" "command is %s"
                         [AStr (string_of_list_ascii l)]])
          (w_open w)))
  /\ (l = [] -> V14.reader_flush l w = Ok (tt, w))
  /\ (List.length l = 256%nat ->
      V14.reader_flush l w
      = Ok (tt, World (w_si w)
                  (w_out w ++ [Dbg 0 "reader" "Invalid command! [%s]"
                                 [AStr (string_of_list_ascii l)]])
                  (w_open w))).
Proof.
  unfold V14.reader_flush. repeat split.
  - intros H.
    replace (256 <=? Z.of_nat (List.length l)) with false
      by (symmetry; apply Z.leb_gt; lia).
    replace (0 <? Z.of_nat (List.length l)) with true
      by (symmetry; apply Z.ltb_lt; lia).
    reflexivity.
  - intros ->. reflexivity.
  - intros H. rewrite H. reflexivity.
Qed.

Lemma readerFlush_cases (l : list ascii) (w : world V15.StreamInfo) :
  ((0 < List.length l < 256)%nat ->
   V15.readerFlush l w
   = V15.processCommand l
       (World (w_si w)
          (w_out w ++ [Dbg 0 "reader" "command is %s"
                         [AStr (string_of_list_ascii l)]])
          (w_open w)))
  /\ (l = [] -> V15.readerFlush l w = Ok (tt, w))
  /\ (List.length l = 256%nat ->
      V15.readerFlush l w
      = Ok (tt, World (w_si w)
                  (w_out w ++ [Dbg 0 "reader" "Invalid command! [%s]"
                                 [AStr (string_of_list_ascii l)]])
                  (w_open w))).
Proof.
  unfold V15.readerFlush. repeat split.
  - intros H.
    replace (256 <=? Z.of_nat (List.length l)) with false
      by (symmetry; apply Z.leb_gt; lia).
    replace (0 <? Z.of_nat (List.length l)) with true
      by (symmetry; apply Z.ltb_lt; lia).
    reflexivity.
  - intros ->. reflexivity.
  - intros H. rewrite H. reflexivity.
Qed.

(** C6 (amended).  In both versions one poll of the reader, on available
    bytes none of whose lines is longer than 256 bytes, treats in order every
    piece between newlines, the unterminated remainder at the end of the data
    included: a piece of 1 to 255 bytes is logged and handed to the command
    processor, an empty piece is skipped, and a piece of 256 bytes is logged
    as invalid.  So a command is executed when its newline has been read or
    when [read] returns no more data. *)
Theorem reader_runs_lines_and_remainder :
  (forall (avail : list ascii) (w : world V14.stream_info),
      Forall (fun l => (List.length l <= 256)%nat) (lines_of avail) ->
      V14.reader avail w
      = (for_each V14.reader_flush (lines_of avail) ;; ret true) w)
  /\ (forall (l : list ascii) (w : world V14.stream_info),
      ((0 < List.length l < 256)%nat ->
       V14.reader_flush l w
       = V14.process_command l
           (World (w_si w)
              (w_out w ++ [Dbg 0 "reader" "command is %s"
                             [AStr (string_of_list_ascii l)]])
              (w_open w)))
      /\ (l = [] -> V14.reader_flush l w = Ok (tt, w))
      /\ (List.length l = 256%nat ->
          V14.reader_flush l w
          = Ok (tt, World (w_si w)
                      (w_out w ++ [Dbg 0 "reader" "Invalid command! [%s]"
                                     [AStr (string_of_list_ascii l)]])
                      (w_open w))))
  /\ (forall (avail : list ascii) (w : world V15.StreamInfo),
      Forall (fun l => (List.length l <= 256)%nat) (lines_of avail) ->
      V15.reader avail w
      = (for_each V15.readerFlush (lines_of avail) ;; ret true) w)
  /\ (forall (l : list ascii) (w : world V15.StreamInfo),
      ((0 < List.length l < 256)%nat ->
       V15.readerFlush l w
       = V15.processCommand l
           (World (w_si w)
              (w_out w ++ [Dbg 0 "reader" "command is %s"
                             [AStr (string_of_list_ascii l)]])
              (w_open w)))
      /\ (l = [] -> V15.readerFlush l w = Ok (tt, w))
      /\ (List.length l = 256%nat ->
          V15.readerFlush l w
          = Ok (tt, World (w_si w)
                      (w_out w ++ [Dbg 0 "reader" "Invalid command! [%s]"
                                     [AStr (string_of_list_ascii l)]])
                      (w_open w)))).
Proof.
  split; [|split; [|split]].
  - intros avail w H. unfold V14.reader.
    destruct (lines_of_cons avail) as (l & ls & Hl). rewrite Hl in *.
    exact (reader_loop_lines avail [] l ls w Hl H).
  - apply reader_flush_cases.
  - intros avail w H. unfold V15.reader.
    destruct (lines_of_cons avail) as (l & ls & Hl). rewrite Hl in *.
    exact (readerLoop_lines avail [] l ls w Hl H).
  - apply readerFlush_cases.
Qed.

Lemma status_line_short :
  Forall (fun l => (List.length l <= 256)%nat)
    (lines_of (list_ascii_of_string "status")).
Proof. repeat constructor; simpl; lia. Defined.

(** The amended C6 on the six bytes [status], which no newline follows. *)
Lemma reader_runs_lines_and_remainder_witness :
  V14.reader (list_ascii_of_string "status") (World V14.default_info [] [])
  = (for_each V14.reader_flush (lines_of (list_ascii_of_string "status"))
     ;; ret true) (World V14.default_info [] [])
  /\ V15.reader (list_ascii_of_string "status") (World V15.default_info [] [])
     = (for_each V15.readerFlush (lines_of (list_ascii_of_string "status"))
        ;; ret true) (World V15.default_info [] []).
Proof.
  split.
  - apply (proj1 reader_runs_lines_and_remainder). exact status_line_short.
  - apply (proj1 (proj2 (proj2 reader_runs_lines_and_remainder))).
    exact status_line_short.
Defined.

(** C6 as stated fails: the bytes [status] with no newline behind them are
    dispatched as a command when the poll runs out of data; and a line that
    arrives in two polls, [sta] and then [tus] with its newline, is run as the
    two commands [sta] and [tus]. *)
Lemma reader_unterminated_counterexample :
  lines_of (list_ascii_of_string "status") = [list_ascii_of_string "status"]
  /\ commands_of "process_command"
       (V14.reader (list_ascii_of_string "status")
          (World V14.default_info [] []))
     = ["status"]
  /\ commands_of "processCommand"
       (V15.reader (list_ascii_of_string "status")
          (World V15.default_info [] []))
     = ["status"]
  /\ commands_of "process_command"
       (V14.main_loop
          [V14.command_poll (list_ascii_of_string "sta");
           V14.command_poll (list_ascii_of_string "tus" ++ [newline])]
          (World V14.default_info [] []))
     = ["sta"; "tus"]
  /\ commands_of "processCommand"
       (V15.main_loop
          [V15.command_poll (list_ascii_of_string "sta");
           V15.command_poll (list_ascii_of_string "tus" ++ [newline])]
          (World V15.default_info [] []))
     = ["sta"; "tus"].
Proof. repeat split; vm_compute; reflexivity. Qed.

(** ** Invariants of the callback loop, version 1.4 *)

Section Kept14.

Variable I : world V14.stream_info -> Prop.
Hypothesis HI : kept14 I.

(** Closing a symbolic execution: the final world is an earlier world that
    satisfies [I], with fields of the frame assigned and plain events
    appended. *)
Ltac close14 :=
  cbn [w_si w_out w_open] in *;
  repeat (apply (k14_emit HI); [reflexivity|]);
  first
    [ assumption
    | match goal with
      | H : I (World ?s1 ?out1 ?o1) |- I (World ?s2 ?out1 ?o1) =>
          apply (@k14_frame I HI s1 s2 out1 o1); [reflexivity | exact H]
      end ].

Ltac enter14 w :=
  let s := fresh "s" in let out := fresh "out" in let o := fresh "o" in
  destruct w as [s out o]; cbn [w_si w_out w_open] in *.

(** A call of a function that maintains [I]. *)
Ltac call_inv14 lem :=
  eapply partial_weaken;
  [ apply lem; close14
  | cbn beta; let a := fresh "a" in let w1 := fresh "w" in let H := fresh "HI1" in
    intros a w1 H; enter14 w1 ].

Ltac calls14 :=
  lazymatch goal with
  | |- partial _ (V14.send_status_pipe_msg _ _) _ => call_inv14 (k14_send HI)
  | |- partial _ V14.adapt_quality _ => call_inv14 (k14_adapt HI)
  end.

Lemma setparam_apply_maintains (e : option GstElement) (p : option GstPad)
    (a b c d : string) (w : world V14.stream_info) :
  I w -> partial w (V14.setparam_apply e p a b c d) (fun _ w' => I w').
Proof.
  intros H. enter14 w. unfold V14.setparam_apply, g_object_set_property,
    gst_object_unref.
  exec_with ltac:(idtac; calls14); close14.
Qed.

Lemma for_each_maintains {A : Type} (f : A -> M V14.stream_info unit) :
  (forall a w, I w -> partial w (f a) (fun _ w' => I w')) ->
  forall l w, I w -> partial w (for_each f l) (fun _ w' => I w').
Proof.
  intros Hf l. induction l as [|a l IH]; intros w H; cbn [for_each].
  - now apply partial_ret.
  - apply partial_bind. eapply partial_weaken; [exact (Hf a w H)|].
    cbn beta. intros _ w1 H1. now apply IH.
Qed.

Lemma plain_events_maintain (s : V14.stream_info) (out tr : list event)
    (o : list Z) :
  forallb plain tr = true -> I (World s out o) -> I (World s (out ++ tr) o).
Proof.
  revert out. induction tr as [|e tr IH]; intros out Hp H.
  - now rewrite app_nil_r.
  - simpl in Hp. apply andb_prop in Hp as [He Htr].
    replace (out ++ e :: tr)%list with ((out ++ [e]) ++ tr)%list
      by (now rewrite <- app_assoc).
    apply IH; [exact Htr|]. now apply (k14_emit HI).
Qed.

Lemma do_command_setparam_maintains (a b c d e : string)
    (w : world V14.stream_info) :
  I w -> partial w (V14.do_command_setparam a b c d e) (fun _ w' => I w').
Proof.
  intros H. enter14 w.
  unfold V14.do_command_setparam, gst_element_get_static_pad, gst_object_unref.
  exec_with ltac:(idtac; first [calls14 | call_inv14 setparam_apply_maintains]);
    close14.
Qed.

Lemma print_object_properties_info_maintains (e : GstElement)
    (w : world V14.stream_info) :
  I w -> partial w (V14.print_object_properties_info e) (fun _ w' => I w').
Proof. intros H. unfold V14.print_object_properties_info. now apply (k14_send HI). Qed.

Lemma _do_command_status_maintains (f : string) (line : Z)
    (w : world V14.stream_info) :
  I w -> partial w (V14._do_command_status f line) (fun _ w' => I w').
Proof.
  intros H. enter14 w. unfold V14._do_command_status.
  exec_with ltac:(idtac; calls14); close14.
Qed.

Lemma print_each_maintains (bin : GstBin) (w : world V14.stream_info) :
  I w ->
  partial w
    (for_each (fun element =>
                 V14.print_object_properties_info element ;;
                 emit (Print "\n" [])) bin)
    (fun _ w' => I w').
Proof.
  apply for_each_maintains. clear w. intros e w H. enter14 w.
  exec_with ltac:(idtac; call_inv14 print_object_properties_info_maintains);
    close14.
Qed.

Lemma do_command_print_bin_maintains (w : world V14.stream_info) :
  I w -> partial w V14.do_command_print_bin (fun _ w' => I w').
Proof.
  intros H. enter14 w. unfold V14.do_command_print_bin.
  exec_with ltac:(idtac; call_inv14 print_each_maintains); close14.
Qed.

Lemma extras_plain (func : string) (d : Z) (ps : list (list ascii)) :
  forallb plain (extras func d ps) = true.
Proof.
  revert d. induction ps as [|p ps IH]; intros d; simpl; [reflexivity|].
  rewrite forallb_app, IH, andb_true_r.
  destruct (d <=? 4); [reflexivity|].
  induction p as [|c p IHp]; simpl; [reflexivity | exact IHp].
Qed.

Lemma dispatch_command_maintains (params : list string) (d : Z)
    (w : world V14.stream_info) :
  I w -> partial w (V14.dispatch_command params d) (fun _ w' => I w').
Proof.
  intros H. enter14 w. unfold V14.dispatch_command.
  exec_with ltac:(idtac; first
    [ call_inv14 do_command_setparam_maintains
    | call_inv14 do_command_print_bin_maintains
    | call_inv14 _do_command_status_maintains ]); close14.
Qed.

Lemma process_command_maintains (cmd : list ascii) (w : world V14.stream_info) :
  I w -> partial w (V14.process_command cmd) (fun _ w' => I w').
Proof.
  intros H a w' Hrun. rewrite process_command_run in Hrun.
  revert a w' Hrun. apply dispatch_command_maintains.
  enter14 w.
  replace (out ++ Dbg 0 "process_command" " Command: %s"
                    [AStr (string_of_list_ascii cmd)]
               :: map (extra_character "process_command") (extra_chars cmd))%list
    with ((out ++ [Dbg 0 "process_command" " Command: %s"
                     [AStr (string_of_list_ascii cmd)]])
          ++ map (extra_character "process_command") (extra_chars cmd))%list
    by (now rewrite <- app_assoc).
  apply plain_events_maintain.
  - rewrite <- extras_of_line. apply extras_plain.
  - now apply (k14_emit HI).
Qed.

Lemma reader_flush_maintains (buf : list ascii) (w : world V14.stream_info) :
  I w -> partial w (V14.reader_flush buf) (fun _ w' => I w').
Proof.
  intros H. enter14 w. unfold V14.reader_flush.
  exec_with ltac:(idtac; call_inv14 process_command_maintains); close14.
Qed.

Lemma reader_loop_maintains (avail : list ascii) :
  forall (buf : list ascii) (w : world V14.stream_info),
    I w -> partial w (V14.reader_loop avail buf) (fun _ w' => I w').
Proof.
  induction avail as [|c rest IH]; intros buf w H; cbn [V14.reader_loop].
  - exec_with ltac:(idtac; call_inv14 reader_flush_maintains); close14.
  - exec_with ltac:(idtac; first [ call_inv14 reader_flush_maintains
                                 | apply IH; close14 ]).
Qed.

Lemma media_configure_handler_maintains (bin : GstBin)
    (w : world V14.stream_info) :
  I w -> partial w (V14.media_configure_handler bin) (fun _ w' => I w').
Proof.
  intros H. enter14 w. unfold V14.media_configure_handler.
  exec; close14.
Qed.

Lemma client_close_handler_maintains (w : world V14.stream_info) :
  I w -> partial w V14.client_close_handler (fun _ w' => I w').
Proof.
  intros H. enter14 w. unfold V14.client_close_handler.
  exec_with ltac:(idtac; first
    [ call_inv14 _do_command_status_maintains
    | call_inv14 (k14_adapt HI) ]); close14.
Qed.

Lemma new_client_handler_maintains (fresh : elements)
    (w : world V14.stream_info) :
  I w -> partial w (V14.new_client_handler fresh) (fun _ w' => I w').
Proof.
  intros H. enter14 w. unfold V14.new_client_handler.
  exec_with ltac:(idtac; first
    [ call_inv14 _do_command_status_maintains
    | call_inv14 (k14_adapt HI) ]); close14.
Qed.

Lemma handle_maintains (cb : V14.callback) (w : world V14.stream_info) :
  I w -> partial w (V14.handle cb) (fun _ w' => I w').
Proof.
  intros H. destruct cb; cbn [V14.handle].
  - now apply new_client_handler_maintains.
  - now apply media_configure_handler_maintains.
  - now apply client_close_handler_maintains.
  - apply partial_bind. eapply partial_weaken.
    + unfold V14.reader. apply reader_loop_maintains. exact H.
    + cbn beta. intros _ w1 H1. now apply partial_ret.
Qed.

(** Whatever survives the steps named in [kept14] holds after any history
    of callbacks. *)
Lemma main_loop_keeps (cbs : list V14.callback) (w : world V14.stream_info) :
  I w -> partial w (V14.main_loop cbs) (fun _ w' => I w').
Proof.
  unfold V14.main_loop. apply for_each_maintains. intros cb w1.
  apply handle_maintains.
Qed.

End Kept14.

(** Surviving both adaptations is surviving the one the handlers select. *)
Lemma maintained14_kept (I : world V14.stream_info -> Prop) :
  maintained14 I -> kept14 I.
Proof.
  intros HI. split.
  - exact (m14_emit HI).
  - exact (m14_frame HI).
  - exact (m14_send HI).
  - intros [s out o] H. unfold V14.adapt_quality.
    exec; first [now apply (m14_bitrate HI) | now apply (m14_quant HI) | exact H].
Qed.

(** Whatever survives the steps named in [maintained14] holds after any
    history of callbacks. *)
Lemma main_loop_maintains (I : world V14.stream_info -> Prop)
    (HI : maintained14 I) (cbs : list V14.callback)
    (w : world V14.stream_info) :
  I w -> partial w (V14.main_loop cbs) (fun _ w' => I w').
Proof. apply main_loop_keeps. now apply maintained14_kept. Qed.

(** ** Invariants of the callback loop, version 1.5 *)

Section Maintained15.

Variable I : world V15.StreamInfo -> Prop.
Hypothesis HI : maintained15 I.

(** Closing a symbolic execution: the final world is an earlier world that
    satisfies [I], with fields of the frame assigned and plain events
    appended. *)
Ltac close15 :=
  cbn [w_si w_out w_open] in *;
  repeat (apply (m15_emit HI); [reflexivity|]);
  first
    [ assumption
    | match goal with
      | H : I (World ?s1 ?out1 ?o1) |- I (World ?s2 ?out1 ?o1) =>
          apply (@m15_frame I HI s1 s2 out1 o1); [reflexivity | exact H]
      end ].

Ltac enter15 w :=
  let s := fresh "s" in let out := fresh "out" in let o := fresh "o" in
  destruct w as [s out o]; cbn [w_si w_out w_open] in *.

(** A call of a function that maintains [I]. *)
Ltac call_inv15 lem :=
  eapply partial_weaken;
  [ apply lem; close15
  | cbn beta; let a := fresh "a" in let w1 := fresh "w" in let H := fresh "HI1" in
    intros a w1 H; enter15 w1 ].

Ltac calls15 :=
  lazymatch goal with
  | |- partial _ (V15.sendStatusPipeMessage _ _) _ => call_inv15 (m15_send HI)
  | |- partial _ V15.changeQuant _ => call_inv15 (m15_quant HI)
  | |- partial _ V15.changeBitrate _ => call_inv15 (m15_bitrate HI)
  end.

Lemma for_each_maintains15 {A : Type} (f : A -> M V15.StreamInfo unit) :
  (forall a w, I w -> partial w (f a) (fun _ w' => I w')) ->
  forall l w, I w -> partial w (for_each f l) (fun _ w' => I w').
Proof.
  intros Hf l. induction l as [|a l IH]; intros w H; cbn [for_each].
  - now apply partial_ret.
  - apply partial_bind. eapply partial_weaken; [exact (Hf a w H)|].
    cbn beta. intros _ w1 H1. now apply IH.
Qed.

Lemma plain_events_maintain15 (s : V15.StreamInfo) (out tr : list event)
    (o : list Z) :
  forallb plain tr = true -> I (World s out o) -> I (World s (out ++ tr) o).
Proof.
  revert out. induction tr as [|e tr IH]; intros out Hp H.
  - now rewrite app_nil_r.
  - simpl in Hp. apply andb_prop in Hp as [He Htr].
    replace (out ++ e :: tr)%list with ((out ++ [e]) ++ tr)%list
      by (now rewrite <- app_assoc).
    apply IH; [exact Htr|]. now apply (m15_emit HI).
Qed.

Lemma doCommandSetParameter_maintains (a b c d e : string)
    (w : world V15.StreamInfo) :
  I w -> partial w (V15.doCommandSetParameter a b c d e) (fun _ w' => I w').
Proof.
  intros H. enter15 w.
  unfold V15.doCommandSetParameter, gst_element_get_static_pad, gst_object_unref,
    g_object_set_property.
  exec_with ltac:(idtac; calls15); close15.
Qed.

Lemma printObjectPropertiesInfo_maintains (e : GstElement)
    (w : world V15.StreamInfo) :
  I w -> partial w (V15.printObjectPropertiesInfo e) (fun _ w' => I w').
Proof. intros H. unfold V15.printObjectPropertiesInfo. now apply (m15_send HI). Qed.

Lemma _doCommandSendStatus_maintains (f : string) (line : Z)
    (w : world V15.StreamInfo) :
  I w -> partial w (V15._doCommandSendStatus f line) (fun _ w' => I w').
Proof.
  intros H. enter15 w. unfold V15._doCommandSendStatus.
  exec_with ltac:(idtac; calls15); close15.
Qed.

Lemma printEach_maintains (bin : GstBin) (w : world V15.StreamInfo) :
  I w ->
  partial w
    (for_each (fun element =>
                 V15.printObjectPropertiesInfo element ;;
                 emit (Print "\n" [])) bin)
    (fun _ w' => I w').
Proof.
  apply for_each_maintains15. clear w. intros e w H. enter15 w.
  exec_with ltac:(idtac; call_inv15 printObjectPropertiesInfo_maintains);
    close15.
Qed.

Lemma doCommandPrintBin_maintains (w : world V15.StreamInfo) :
  I w -> partial w V15.doCommandPrintBin (fun _ w' => I w').
Proof.
  intros H. enter15 w. unfold V15.doCommandPrintBin.
  exec_with ltac:(idtac; call_inv15 printEach_maintains); close15.
Qed.

Lemma dispatchCommand_maintains (params : list string) (d : Z)
    (w : world V15.StreamInfo) :
  I w -> partial w (V15.dispatchCommand params d) (fun _ w' => I w').
Proof.
  intros H. enter15 w. unfold V15.dispatchCommand.
  exec_with ltac:(idtac; first
    [ call_inv15 doCommandSetParameter_maintains
    | call_inv15 doCommandPrintBin_maintains
    | call_inv15 _doCommandSendStatus_maintains ]); close15.
Qed.

Lemma processCommand_maintains (cmd : list ascii) (w : world V15.StreamInfo) :
  I w -> partial w (V15.processCommand cmd) (fun _ w' => I w').
Proof.
  intros H a w' Hrun. rewrite processCommand_run in Hrun.
  revert a w' Hrun. apply dispatchCommand_maintains.
  enter15 w.
  replace (out ++ Dbg 0 "processCommand" " Command: %s"
                    [AStr (string_of_list_ascii cmd)]
               :: map (extra_character "processCommand") (extra_chars cmd))%list
    with ((out ++ [Dbg 0 "processCommand" " Command: %s"
                     [AStr (string_of_list_ascii cmd)]])
          ++ map (extra_character "processCommand") (extra_chars cmd))%list
    by (now rewrite <- app_assoc).
  apply plain_events_maintain15.
  - rewrite <- extras_of_line. apply extras_plain.
  - now apply (m15_emit HI).
Qed.

Lemma readerFlush_maintains (buf : list ascii) (w : world V15.StreamInfo) :
  I w -> partial w (V15.readerFlush buf) (fun _ w' => I w').
Proof.
  intros H. enter15 w. unfold V15.readerFlush.
  exec_with ltac:(idtac; call_inv15 processCommand_maintains); close15.
Qed.

Lemma readerLoop_maintains (avail : list ascii) :
  forall (buf : list ascii) (w : world V15.StreamInfo),
    I w -> partial w (V15.readerLoop avail buf) (fun _ w' => I w').
Proof.
  induction avail as [|c rest IH]; intros buf w H; cbn [V15.readerLoop].
  - exec_with ltac:(idtac; call_inv15 readerFlush_maintains); close15.
  - exec_with ltac:(idtac; first [ call_inv15 readerFlush_maintains
                                 | apply IH; close15 ]).
Qed.

Lemma mediaConfigureHandler_maintains (bin : GstBin)
    (w : world V15.StreamInfo) :
  I w -> partial w (V15.mediaConfigureHandler bin) (fun _ w' => I w').
Proof.
  intros H. enter15 w. unfold V15.mediaConfigureHandler.
  exec; close15.
Qed.

Lemma adaptQuality_maintains (w : world V15.StreamInfo) :
  I w -> partial w V15.adaptQuality (fun _ w' => I w').
Proof.
  intros H. enter15 w. unfold V15.adaptQuality.
  exec_with ltac:(idtac; calls15); close15.
Qed.

Lemma clientCloseHandler_maintains (w : world V15.StreamInfo) :
  I w -> partial w V15.clientCloseHandler (fun _ w' => I w').
Proof.
  intros H. enter15 w. unfold V15.clientCloseHandler.
  exec_with ltac:(idtac; first
    [ call_inv15 _doCommandSendStatus_maintains
    | call_inv15 adaptQuality_maintains ]); close15.
Qed.

Lemma newClientHandler_maintains (fresh : elements)
    (w : world V15.StreamInfo) :
  I w -> partial w (V15.newClientHandler fresh) (fun _ w' => I w').
Proof.
  intros H. enter15 w. unfold V15.newClientHandler.
  exec_with ltac:(idtac; first
    [ call_inv15 _doCommandSendStatus_maintains
    | call_inv15 adaptQuality_maintains ]); close15.
Qed.

Lemma handle_maintains15 (cb : V15.callback) (w : world V15.StreamInfo) :
  I w -> partial w (V15.handle cb) (fun _ w' => I w').
Proof.
  intros H. destruct cb; cbn [V15.handle].
  - now apply newClientHandler_maintains.
  - now apply mediaConfigureHandler_maintains.
  - now apply clientCloseHandler_maintains.
  - apply partial_bind. eapply partial_weaken.
    + unfold V15.reader. apply readerLoop_maintains. exact H.
    + cbn beta. intros _ w1 H1. now apply partial_ret.
Qed.

(** Whatever survives the steps named in [maintained15] holds after any
    history of callbacks. *)
Lemma main_loop_maintains15 (cbs : list V15.callback) (w : world V15.StreamInfo) :
  I w -> partial w (V15.main_loop cbs) (fun _ w' => I w').
Proof.
  unfold V15.main_loop. apply for_each_maintains15. intros cb w1.
  apply handle_maintains15.
Qed.

End Maintained15.

(** ** The status channel *)

Lemma filter_snoc_false {A : Type} (f : A -> bool) (l : list A) (a : A) :
  f a = false -> filter f (l ++ [a]) = filter f l.
Proof. intros H. rewrite filter_app. simpl. rewrite H. apply app_nil_r. Qed.

Lemma plain_not_open (e : event) : plain e = true -> is_open e = false.
Proof. now destruct e. Qed.

Lemma plain_not_pipe_msg (e : event) : plain e = true -> is_pipe_msg e = false.
Proof. now destruct e. Qed.

Lemma same_frame14_status (s s' : V14.stream_info) :
  V14.same_frame s s' ->
  V14.status_pipe_fd s' = V14.status_pipe_fd s
  /\ V14.status_pipe_stream s' = V14.status_pipe_stream s
  /\ V14.status_pipe s' = V14.status_pipe s.
Proof.
  unfold V14.same_frame. intros H. repeat split.
  - exact (eq_sym (f_equal V14.status_pipe_fd H)).
  - exact (eq_sym (f_equal V14.status_pipe_stream H)).
  - exact (eq_sym (f_equal V14.status_pipe H)).
Qed.

Lemma fallback14_emit (s : V14.stream_info) (out : list event) (o : list Z)
    (e : event) :
  is_open e = false -> is_pipe_msg e = false ->
  fallback14 (World s out o) -> fallback14 (World s (out ++ [e]) o).
Proof.
  unfold fallback14, open_attempts, pipe_messages. cbn [w_si w_out w_open].
  intros Ho Hp (Hs & Hm & Hc).
  rewrite !filter_snoc_false by assumption. auto.
Qed.

Ltac fallback14_close :=
  repeat (apply fallback14_emit; [reflexivity | reflexivity |]).

Lemma fdopen_negative (fd : Z) : fd < 0 -> fdopen fd = None.
Proof.
  intros H. unfold fdopen.
  now replace (0 <=? fd) with false by (symmetry; apply Z.leb_gt; lia).
Qed.

(** Version 1.4: the emission that finds the pipe unopened and fails to
    open it. *)
Lemma send_status_pipe_msg_failing (s : V14.stream_info) (out : list event)
    (o : list Z) (path t : string) (b : payload) :
  V14.status_pipe s = Some path -> V14.status_pipe_fd s = 0 ->
  next_open o < 0 ->
  V14.send_status_pipe_msg t b (World s out o)
  = Ok (tt, World (V14.set_status_pipe_stream None
                     (V14.set_status_pipe_fd (next_open o) s))
              (out ++ [Dbg 4 "setup_status_pipe_if_needed"
                         "opening status pipe " [];
                       SysOpen path (next_open o);
                       Dbg 4 "setup_status_pipe_if_needed"
                         "Failed to open status pipe file descriptor " [];
                       Dbg 4 "setup_status_pipe_if_needed"
                         "Creating status pipe stream " [];
                       Dbg 4 "setup_status_pipe_if_needed"
                         "Failed to open status pipe stream " [];
                       Dbg 4 "setup_status_pipe_if_needed"
                         "status pipe ready " [];
                       StdoutMsg None b])
              (tl o)).
Proof.
  intros Hp Hfd Hneg.
  unfold V14.send_status_pipe_msg, V14.setup_status_pipe_if_needed.
  mrun. rewrite Hp, Hfd. mrun. unfold sys_open. mrun.
  replace (next_open o <=? 0) with true by (symmetry; apply Z.leb_le; lia).
  mrun. rewrite (fdopen_negative _ Hneg). mrun.
  now rewrite <- !app_assoc.
Qed.

(** Version 1.4: an emission that finds no pipe configured, or a descriptor
    other than 0, and no stream. *)
Lemma send_status_pipe_msg_settled (s : V14.stream_info) (out : list event)
    (o : list Z) (t : string) (b : payload) :
  V14.status_pipe s = None \/ V14.status_pipe_fd s <> 0 ->
  V14.status_pipe_stream s = None ->
  V14.send_status_pipe_msg t b (World s out o)
  = Ok (tt, World s (out ++ [StdoutMsg None b]) o).
Proof.
  intros Hc Hs.
  unfold V14.send_status_pipe_msg, V14.setup_status_pipe_if_needed.
  mrun. destruct (V14.status_pipe s) as [path|].
  - destruct Hc as [Hc|Hc]; [discriminate|].
    apply Z.eqb_neq in Hc. rewrite Hc. mrun. now rewrite Hs.
  - mrun. now rewrite Hs.
Qed.

Lemma fallback14_maintained : maintained14 fallback14.
Proof.
  constructor.
  - intros s out o e He. apply fallback14_emit.
    + now apply plain_not_open.
    + now apply plain_not_pipe_msg.
  - intros s s' out o Hf. unfold fallback14. cbn [w_si w_out w_open].
    destruct (same_frame14_status _ _ Hf) as (-> & -> & _). auto.
  - intros [s out o] t b H a w' Hrun.
    destruct H as (Hs & Hm & Hc). cbn [w_si w_out w_open] in *.
    destruct (V14.status_pipe s) as [path|] eqn:Hp.
    + destruct Hc as [(Hfd & Hnext & Ho) | (Hfd & e & Ho)].
      * rewrite (send_status_pipe_msg_failing s out o path t b Hp Hfd Hnext)
          in Hrun.
        inversion Hrun; subst. unfold fallback14, open_attempts, pipe_messages in *.
        cbn [w_si w_out w_open]. rewrite !filter_app, Hm, Ho.
        split; [reflexivity|]. split; [reflexivity|]. right.
        split; [cbn; lia|]. eexists. reflexivity.
      * rewrite send_status_pipe_msg_settled in Hrun by auto.
        inversion Hrun; subst. apply fallback14_emit; try reflexivity.
        unfold fallback14. cbn [w_si w_out w_open].
        split; [assumption|]. split; [assumption|]. right.
        split; [assumption|]. now exists e.
    + rewrite send_status_pipe_msg_settled in Hrun by auto.
      inversion Hrun; subst. apply fallback14_emit; try reflexivity.
      unfold fallback14. cbn [w_si w_out w_open].
      split; [assumption|]. split; [assumption | exact Hc].
  - intros [s out o] H. unfold V14.change_quant, lift_div. exec.
    all: fallback14_close; exact H.
  - intros [s out o] H. unfold V14.change_bitrate, lift_div. exec.
    all: fallback14_close; exact H.
Qed.

(** Version 1.5: the emission that finds the descriptor at [NO_FILE] and
    fails to open the pipe leaves the descriptor at [NO_FILE]. *)
Lemma sendStatusPipeMessage_failing (s : V15.StreamInfo) (out : list event)
    (o : list Z) (path t : string) (b : payload) :
  V15.statusPipe s = Some path -> V15.statusPipeFd s = V15.NO_FILE ->
  V15.statusPipeStream s = None ->
  next_open o = -1 ->
  V15.sendStatusPipeMessage t b (World s out o)
  = Ok (tt, World (V15.set_statusPipeFd V15.NO_FILE s)
              (out ++ [Dbg 4 "setupStatusPipeIfNeeded" "opening status pipe " [];
                       SysOpen path (-1);
                       Dbg 4 "setupStatusPipeIfNeeded"
                         "Failed to open status pipe file descriptor " [];
                       StdoutMsg (Some t) b])
              (tl o)).
Proof.
  intros Hp Hfd Hs Hnext.
  unfold V15.sendStatusPipeMessage, V15.setupStatusPipeIfNeeded.
  mrun. rewrite Hp, Hfd. mrun. unfold sys_open. mrun. rewrite Hnext. mrun.
  rewrite Hs. cbn [w_si w_out w_open]. now rewrite <- !app_assoc.
Qed.

(** Version 1.5: the emission that finds the descriptor at [NO_FILE] and
    opens the pipe writes to it. *)
Lemma sendStatusPipeMessage_opening (s : V15.StreamInfo) (out : list event)
    (o : list Z) (path t : string) (b : payload) :
  V15.statusPipe s = Some path -> V15.statusPipeFd s = V15.NO_FILE ->
  0 < next_open o ->
  V15.sendStatusPipeMessage t b (World s out o)
  = Ok (tt, World (V15.set_statusPipeStream (Some (next_open o))
                     (V15.set_statusPipeFd (next_open o) s))
              (out ++ [Dbg 4 "setupStatusPipeIfNeeded" "opening status pipe " [];
                       SysOpen path (next_open o);
                       Print "status pipe fd = %d\n" [AInt (next_open o)];
                       Dbg 4 "setupStatusPipeIfNeeded"
                         "Creating status pipe stream " [];
                       Dbg 4 "setupStatusPipeIfNeeded" "status pipe ready " [];
                       PipeMsg (next_open o) t b])
              (tl o)).
Proof.
  intros Hp Hfd Hpos.
  unfold V15.sendStatusPipeMessage, V15.setupStatusPipeIfNeeded.
  mrun. rewrite Hp, Hfd. mrun. unfold sys_open. mrun.
  replace (next_open o <=? 0) with false by (symmetry; apply Z.leb_gt; lia).
  mrun. unfold fdopen.
  replace (0 <=? next_open o) with true by (symmetry; apply Z.leb_le; lia).
  mrun. now rewrite <- !app_assoc.
Qed.

(** C9 (amended).  Version 1.4: when the status pipe has not been opened
    and the next [open] fails, no history of callbacks ever writes to the
    pipe (every status message goes to standard output) or attempts the
    [open] more than once; the failing emission itself and every emission
    after it print the bare reply on standard output.  Version 1.5: the
    failing emission prints on standard output but leaves the descriptor at
    [NO_FILE], so that the next emission attempts the [open] again, and
    writes to the pipe when that [open] succeeds. *)
Theorem status_fallback :
  (forall (si : V14.stream_info) (opens : list Z) (cbs : list V14.callback)
          (w' : world V14.stream_info),
      V14.status_pipe_fd si = 0 -> V14.status_pipe_stream si = None ->
      next_open opens < 0 ->
      run (V14.main_loop cbs) si opens = Ok (tt, w') ->
      pipe_messages (w_out w') = []
      /\ (List.length (open_attempts (w_out w')) <= 1)%nat
      /\ V14.status_pipe_stream (w_si w') = None)
  /\ (forall (s : V14.stream_info) (out : list event) (o : list Z)
             (path t : string) (b : payload),
      V14.status_pipe s = Some path -> V14.status_pipe_fd s = 0 ->
      next_open o < 0 ->
      exists w1,
        V14.send_status_pipe_msg t b (World s out o) = Ok (tt, w1)
        /\ open_attempts (w_out w1)
           = (open_attempts out ++ [SysOpen path (next_open o)])%list
        /\ pipe_messages (w_out w1) = pipe_messages out
        /\ stdout_messages (w_out w1)
           = (stdout_messages out ++ [StdoutMsg None b])%list
        /\ V14.status_pipe_fd (w_si w1) <> 0
        /\ V14.status_pipe_stream (w_si w1) = None
        /\ forall out' o' t' b',
            V14.send_status_pipe_msg t' b' (World (w_si w1) out' o')
            = Ok (tt, World (w_si w1) (out' ++ [StdoutMsg None b']) o'))
  /\ (forall (s : V15.StreamInfo) (out : list event) (o : list Z)
             (path t : string) (b : payload),
      V15.statusPipe s = Some path -> V15.statusPipeFd s = V15.NO_FILE ->
      V15.statusPipeStream s = None ->
      next_open o = -1 ->
      exists w1,
        V15.sendStatusPipeMessage t b (World s out o) = Ok (tt, w1)
        /\ stdout_messages (w_out w1)
           = (stdout_messages out ++ [StdoutMsg (Some t) b])%list
        /\ pipe_messages (w_out w1) = pipe_messages out
        /\ V15.statusPipe (w_si w1) = Some path
        /\ V15.statusPipeFd (w_si w1) = V15.NO_FILE
        /\ V15.statusPipeStream (w_si w1) = None
        /\ forall out' o' t' b',
            0 < next_open o' ->
            exists w2,
              V15.sendStatusPipeMessage t' b' (World (w_si w1) out' o')
              = Ok (tt, w2)
              /\ open_attempts (w_out w2)
                 = (open_attempts out' ++ [SysOpen path (next_open o')])%list
              /\ pipe_messages (w_out w2)
                 = (pipe_messages out' ++ [PipeMsg (next_open o') t' b'])%list).
Proof.
  split; [|split].
  - intros si opens cbs w' Hfd Hs Hnext Hrun.
    assert (H0 : fallback14 (World si [] opens)).
    { unfold fallback14. cbn [w_si w_out w_open].
      split; [exact Hs|]. split; [reflexivity|]. left. auto. }
    pose proof (main_loop_maintains fallback14 fallback14_maintained cbs _ H0
                  tt w' Hrun) as (Hs' & Hm' & Hc').
    split; [exact Hm'|]. split; [|exact Hs'].
    destruct Hc' as [(_ & _ & Ho) | (_ & e & Ho)]; rewrite Ho; simpl; lia.
  - intros s out o path t b Hp Hfd Hneg.
    rewrite (send_status_pipe_msg_failing s out o path t b Hp Hfd Hneg).
    eexists. split; [reflexivity|]. cbn [w_si w_out w_open].
    unfold open_attempts, pipe_messages, stdout_messages.
    rewrite !filter_app. cbn [filter is_open is_pipe_msg is_stdout_msg].
    rewrite ?app_nil_r.
    repeat split; try reflexivity.
    + cbn. lia.
    + intros out' o' t' b'. apply send_status_pipe_msg_settled.
      * right. cbn. lia.
      * reflexivity.
  - intros s out o path t b Hp Hfd Hs Hnext.
    rewrite (sendStatusPipeMessage_failing s out o path t b Hp Hfd Hs Hnext).
    eexists. split; [reflexivity|]. cbn [w_si w_out w_open].
    unfold open_attempts, pipe_messages, stdout_messages.
    rewrite !filter_app. cbn [filter is_open is_pipe_msg is_stdout_msg].
    rewrite ?app_nil_r.
    repeat split; try reflexivity; try assumption.
    intros out' o' t' b' Hpos.
    rewrite (sendStatusPipeMessage_opening _ out' o' path t' b');
      [| assumption | reflexivity | assumption].
    eexists. split; [reflexivity|]. cbn [w_si w_out w_open].
    rewrite !filter_app. cbn [filter is_open is_pipe_msg is_stdout_msg].
    rewrite ?app_nil_r. split; reflexivity.
Qed.

(** The amended C9 on the default configurations with a status pipe named
    and an operating system that refuses the first [open]: a client connects
    and leaves. *)
Lemma status_fallback_witness :
  (exists w',
      run (V14.main_loop [V14.client_connected no_elements; V14.client_closed])
        (V14.set_status_pipe (Some "/tmp/rtsp-status") V14.default_info) [-1; 5]
      = Ok (tt, w')
      /\ pipe_messages (w_out w') = []
      /\ (List.length (open_attempts (w_out w')) <= 1)%nat
      /\ V14.status_pipe_stream (w_si w') = None)
  /\ (exists w1,
      V15.sendStatusPipeMessage "status" (Pieces [])
        (World (V15.set_statusPipe (Some "/tmp/rtsp-status") V15.default_info)
           [] [-1; 5])
      = Ok (tt, w1)
      /\ V15.statusPipeFd (w_si w1) = V15.NO_FILE).
Proof.
  split.
  - eexists. split; [vm_compute; reflexivity|].
    apply (proj1 status_fallback
             (V14.set_status_pipe (Some "/tmp/rtsp-status") V14.default_info)
             [-1; 5]
             [V14.client_connected no_elements; V14.client_closed]).
    + reflexivity.
    + reflexivity.
    + reflexivity.
    + vm_compute. reflexivity.
  - destruct (proj2 (proj2 status_fallback)
                (V15.set_statusPipe (Some "/tmp/rtsp-status") V15.default_info)
                [] [-1; 5] "/tmp/rtsp-status" "status" (Pieces [])
                eq_refl eq_refl eq_refl eq_refl)
      as (w1 & Hrun & _ & _ & _ & Hfd & _).
    exists w1. split; [exact Hrun | exact Hfd].
Defined.

(** C9 as stated fails in version 1.5: with a status pipe named, the first
    [open] refused and the second granted, a client that connects and leaves
    has its first status message printed on standard output and its second
    written to the pipe, after a second [open]. *)
Lemma status_retry_counterexample :
  exists w',
    run (V15.main_loop [V15.client_connected no_elements; V15.client_closed])
      (V15.set_statusPipe (Some "/tmp/rtsp-status") V15.default_info) [-1; 5]
    = Ok (tt, w')
    /\ List.length (stdout_messages (w_out w')) = 1%nat
    /\ List.length (pipe_messages (w_out w')) = 1%nat
    /\ open_attempts (w_out w')
       = [SysOpen "/tmp/rtsp-status" (-1); SysOpen "/tmp/rtsp-status" 5].
Proof.
  eexists. split; [vm_compute; reflexivity|]. repeat split; vm_compute; reflexivity.
Qed.

(** ** The setparam command *)

Section Effects.

Context {S : Type}.

Lemma effects_same_out (s s' : S) (out : list event) (o o' : list Z) :
  effects (World s out o) (World s' out o') [].
Proof.
  exists []. cbn [w_out]. now rewrite app_nil_r.
Qed.

Lemma effects_snoc (w : world S) (s : S) (out : list event) (o : list Z)
    (ws : list event) (e : event) :
  effects w (World s out o) ws ->
  reply_or_log e || is_set_property e = true ->
  effects w (World s (out ++ [e]) o)
    (ws ++ (if is_set_property e then [e] else []))%list.
Proof.
  intros (tr & Hout & Hw & Ha) He. cbn [w_out] in *.
  exists (tr ++ [e])%list. split; [|split].
  - cbn [w_out]. rewrite Hout. now rewrite app_assoc.
  - unfold property_writes in *. rewrite filter_app, Hw. reflexivity.
  - rewrite forallb_app, Ha. cbn. now rewrite He.
Qed.

Lemma effects_trans (w w1 : world S) (s s' : S) (out : list event)
    (o o' : list Z) (ws1 ws2 : list event) :
  effects w w1 ws1 -> effects w1 (World s out o) ws2 ->
  effects w (World s' out o') (ws1 ++ ws2)%list.
Proof.
  intros (t1 & H1 & W1 & A1) (t2 & H2 & W2 & A2). cbn [w_out] in *.
  exists (t1 ++ t2)%list. split; [|split].
  - cbn [w_out]. rewrite H2, H1. now rewrite app_assoc.
  - unfold property_writes in *. rewrite filter_app, W1, W2. reflexivity.
  - now rewrite forallb_app, A1, A2.
Qed.

Lemma effects_eq (w w' : world S) (ws ws' : list event) :
  effects w w' ws -> ws = ws' -> effects w w' ws'.
Proof. now intros H <-. Qed.

(** Without property writes, every event is a reply or a log. *)
Lemma effects_none (w w' : world S) :
  effects w w' [] ->
  exists tr, w_out w' = (w_out w ++ tr)%list /\ forallb reply_or_log tr = true.
Proof.
  intros (tr & Hout & Hw & Ha). exists tr. split; [exact Hout|].
  unfold property_writes in Hw. clear Hout.
  induction tr as [|e tr IH]; [reflexivity|].
  cbn in *. destruct (is_set_property e) eqn:He; [discriminate|].
  apply andb_prop in Ha as [Ha1 Ha2]. rewrite orb_false_r in Ha1.
  rewrite Ha1. now apply IH.
Qed.

End Effects.

(** Deriving the effects of a symbolic execution from the final world. *)
Ltac effects_build :=
  lazymatch goal with
  | |- effects _ (World _ (_ ++ [_]) _) _ =>
      eapply effects_snoc; [effects_build | reflexivity]
  | |- effects (World _ ?out _) (World _ ?out _) _ => apply effects_same_out
  | H : effects ?wc (World _ ?out1 _) _ |- effects _ (World _ ?out1 _) _ =>
      eapply effects_trans; [| exact H]; clear H; effects_build
  end.

Ltac effects_close :=
  eapply effects_eq; [effects_build | cbn; reflexivity].

Ltac session_close :=
  cbv [V14.same_session V15.same_session] in *; cbn [w_si] in *;
  first [reflexivity | congruence].

Ltac call_spec spec :=
  lazymatch goal with
  | |- total _ _ _ =>
      eapply total_weaken;
      [ apply spec
      | cbn beta; let a := fresh "a" in let w1 := fresh "w" in
        intros a w1 [? ?];
        let s := fresh "s" in let out := fresh "out" in let o := fresh "o" in
        destruct w1 as [s out o]; cbn [w_si w_out w_open] in * ]
  end.

Lemma setup_status_pipe_if_needed_spec (w : world V14.stream_info) :
  total w V14.setup_status_pipe_if_needed
    (fun _ w' => V14.same_session (w_si w) (w_si w') /\ effects w w' []).
Proof.
  destruct w as [s out o]. unfold V14.setup_status_pipe_if_needed.
  exec; (split; [session_close | effects_close]).
Qed.

Lemma send_status_pipe_msg_spec (t : string) (b : payload)
    (w : world V14.stream_info) :
  total w (V14.send_status_pipe_msg t b)
    (fun _ w' => V14.same_session (w_si w) (w_si w') /\ effects w w' []).
Proof.
  destruct w as [s out o]. unfold V14.send_status_pipe_msg.
  exec_with ltac:(idtac; call_spec setup_status_pipe_if_needed_spec);
    (split; [session_close | effects_close]).
Qed.

Lemma setupStatusPipeIfNeeded_spec (w : world V15.StreamInfo) :
  total w V15.setupStatusPipeIfNeeded
    (fun _ w' => V15.same_session (w_si w) (w_si w') /\ effects w w' []).
Proof.
  destruct w as [s out o]. unfold V15.setupStatusPipeIfNeeded.
  exec; (split; [session_close | effects_close]).
Qed.

Lemma sendStatusPipeMessage_spec (t : string) (b : payload)
    (w : world V15.StreamInfo) :
  total w (V15.sendStatusPipeMessage t b)
    (fun _ w' => V15.same_session (w_si w) (w_si w') /\ effects w w' []).
Proof.
  destruct w as [s out o]. unfold V15.sendStatusPipeMessage.
  exec_with ltac:(idtac; call_spec setupStatusPipeIfNeeded_spec);
    (split; [session_close | effects_close]).
Qed.

Ltac use_cases :=
  repeat match goal with
         | H : option_map _ (Some _) = _ |- _ => cbn [option_map] in H
         | H : option_map _ None = _ |- _ => cbn [option_map] in H
         | H : Some _ = Some _ |- _ => injection H as <-
         | H : Some _ = None |- _ => discriminate H
         | H : None = Some _ |- _ => discriminate H
         | H : ?x = _ |- context [?x] => rewrite H
         end.

Lemma do_command_setparam_spec (action e p n v : string)
    (w : world V14.stream_info) :
  total w (V14.do_command_setparam action e p n v)
    (fun _ w' =>
       V14.same_session (w_si w) (w_si w')
       /\ effects w w'
            match setparam_target (V14.connected (w_si w))
                    (V14.stream (w_si w)) e p with
            | None => []
            | Some obj => [SetProperty obj n (VDouble (Libc.atof v))]
            end).
Proof.
  destruct w as [s out o].
  unfold V14.do_command_setparam, V14.setparam_apply,
    gst_element_get_static_pad, g_object_set_property, gst_object_unref.
  exec_with ltac:(idtac; call_spec send_status_pipe_msg_spec).
  all: split; [session_close|].
  all: unfold setparam_target; cbn [w_si option_map]; use_cases;
    cbn [option_map].
  all: effects_close.
Qed.

Lemma doCommandSetParameter_spec (action e p n v : string)
    (w : world V15.StreamInfo) :
  total w (V15.doCommandSetParameter action e p n v)
    (fun _ w' =>
       w_si w' = w_si w
       /\ effects w w'
            match setparam_target (V15.connected (w_si w))
                    (V15.stream (w_si w)) e p with
            | None => []
            | Some obj =>
                if Libc.sd_errno (Libc.strtod v) =? 0
                then [SetProperty obj n (VDouble (Libc.sd_value (Libc.strtod v)))]
                else []
            end).
Proof.
  destruct w as [s out o].
  unfold V15.doCommandSetParameter,
    gst_element_get_static_pad, g_object_set_property, gst_object_unref.
  exec.
  all: split; [reflexivity|].
  all: unfold setparam_target; cbn [w_si option_map]; use_cases;
    cbn [option_map negb].
  all: try match goal with
           | H : negb (_ =? 0) = true |- _ =>
               apply negb_true_iff in H; rewrite H
           | H : negb (_ =? 0) = false |- _ =>
               apply negb_false_iff in H; rewrite H
           end.
  all: effects_close.
Qed.




(** The same command in version 1.5, where only a range error keeps a value
    from being applied. *)
Example setparam_unparsable_v15 :
  exists w',
    V15.doCommandSetParameter "setparam" "enc0" "" "bitrate" "abc"
      (World (V15.set_connected true
                (V15.set_numConnectedClients 1
                   (V15.set_stream bound_elements V15.default_info))) [] [])
    = Ok (tt, w')
    /\ property_writes (w_out w')
       = [SetProperty (ObjElement enc0) "bitrate" (VDouble 0)].
Proof. eexists. split; vm_compute; reflexivity. Qed.

(** ** Which adaptation a client event runs *)



Section Entered.

Context {S : Type}.
Variables fb fq : string.






End Entered.







(** The status report enters neither adaptation. *)
Lemma _do_command_status_spec (f : string) (line : Z)
    (w : world V14.stream_info) :
  total w (V14._do_command_status f line)
    (fun _ w' => V14.same_session (w_si w) (w_si w') /\ effects w w' []).
Proof.
  destruct w as [s out o]. unfold V14._do_command_status.
  exec_with ltac:(idtac; call_spec send_status_pipe_msg_spec).
  split; [session_close | effects_close].
Qed.












Lemma _doCommandSendStatus_spec (f : string) (line : Z)
    (w : world V15.StreamInfo) :
  total w (V15._doCommandSendStatus f line)
    (fun _ w' => V15.same_session (w_si w) (w_si w') /\ effects w w' []).
Proof.
  destruct w as [s out o]. unfold V15._doCommandSendStatus.
  exec_with ltac:(idtac; call_spec sendStatusPipeMessage_spec).
  split; [session_close | effects_close].
Qed.












(** ** Quant scaling in version 1.5 *)

Lemma same_frame_quant_idle15 (s s' : V15.StreamInfo)
    (out out' : list event) (o o' : list Z) :
  V15.same_frame s s' ->
  quant_idle15 (World s out o) -> quant_idle15 (World s' out' o').
Proof.
  unfold V15.same_frame, V15.frame_of, quant_idle15. destruct s, s'. cbn.
  intros Hf. injection Hf; intros; subst; assumption.
Qed.

Lemma same_session_quant_idle15 (s s' : V15.StreamInfo)
    (out out' : list event) (o o' : list Z) :
  V15.same_session s s' ->
  quant_idle15 (World s out o) -> quant_idle15 (World s' out' o').
Proof.
  unfold V15.same_session, V15.session_of, quant_idle15. destruct s, s'. cbn.
  intros Hf. injection Hf; intros; subst; assumption.
Qed.

Lemma quant_idle15_maintained : maintained15 quant_idle15.
Proof.
  split.
  - intros s out o e _ H. exact H.
  - intros s s' out o. apply same_frame_quant_idle15.
  - intros [s out o] t b H. apply total_partial.
    eapply total_weaken; [apply sendStatusPipeMessage_spec|].
    cbn beta. intros _ [s' out' o'] [Hs _].
    exact (same_session_quant_idle15 s s' out out' o o' Hs H).
  - intros w H a w' Hrun. pose proof H as (_ & _ & Hq & _).
    rewrite changeQuant_idle in Hrun by (right; lia).
    injection Hrun as _ <-. exact H.
  - intros [s out o] H. unfold V15.changeBitrate, lift_div.
    exec; exact H.
Qed.

(** C10.  In version 1.5 [changeQuant] does nothing but log its entry when
    the maximum quant level is not positive: the state, and with it the
    current quant level, stays and no property is written.  The initializer
    sets the maximum quant level to the minimum, zero; so from the
    configuration without options, after any history of callbacks, the current
    quant level is still zero and the adaptation step of the client handlers,
    which selects the quant scaling, changes nothing. *)
Theorem quant_scaling_idle_by_default :
  (forall w : world V15.StreamInfo,
      V15.maxQuantLevel (w_si w) <= 0 ->
      V15.changeQuant w
      = Ok (tt, World (w_si w) (w_out w ++ [Dbg 4 "changeQuant" "called" []])
                  (w_open w)))
  /\ V15.maxQuantLevel V15.default_info = V15.minQuantLevel V15.default_info
  /\ V15.minQuantLevel V15.default_info = 0
  /\ (forall atoi_MAX_BR : Z,
         V15.configure atoi_MAX_BR [] = Some (V15.cap_bitrate V15.default_info))
  /\ (forall (opens : list Z) (cbs : list V15.callback)
             (w : world V15.StreamInfo),
         run (V15.main_loop cbs) (V15.cap_bitrate V15.default_info) opens
         = Ok (tt, w) ->
         V15.currentQuantLevel (w_si w) = 0
         /\ V15.adaptQuality w
            = Ok (tt, World (w_si w)
                        (w_out w ++ [Dbg 4 "changeQuant" "called" []])
                        (w_open w))).
Proof.
  split; [|split; [|split; [|split]]].
  - intros w H. apply changeQuant_idle. now right.
  - reflexivity.
  - reflexivity.
  - reflexivity.
  - intros opens cbs w Hrun.
    assert (H : quant_idle15 w).
    { refine (main_loop_maintains15 quant_idle15 quant_idle15_maintained cbs
                (World (V15.cap_bitrate V15.default_info) [] opens) _
                tt w Hrun).
      repeat split. }
    destruct H as (Hv & Hb & Hq & Hc). split; [exact Hc|].
    unfold V15.adaptQuality, bind, get_si. cbn [w_si].
    rewrite Hv, Hb. cbn [Z.eqb negb].
    apply changeQuant_idle. right. lia.
Qed.

(** C10 after two clients have connected to the default pipeline. *)
Lemma quant_scaling_idle_by_default_witness :
  exists w,
    run (V15.main_loop [V15.client_connected no_elements;
                        V15.media_configure static_pipeline;
                        V15.client_connected no_elements])
      (V15.cap_bitrate V15.default_info) [] = Ok (tt, w)
    /\ V15.numConnectedClients (w_si w) = 2
    /\ encoder (V15.stream (w_si w)) = Some enc0
    /\ V15.currentQuantLevel (w_si w) = 0
    /\ V15.adaptQuality w
       = Ok (tt, World (w_si w) (w_out w ++ [Dbg 4 "changeQuant" "called" []])
                   (w_open w)).
Proof.
  eexists. split; [vm_compute; reflexivity|].
  split; [reflexivity|]. split; [reflexivity|].
  apply (proj2 (proj2 (proj2 (proj2 quant_scaling_idle_by_default)))
           []
           [V15.client_connected no_elements;
            V15.media_configure static_pipeline;
            V15.client_connected no_elements]).
  vm_compute. reflexivity.
Defined.

(** * Further properties *)

(** ** The configurations [main] accepts *)

Lemma options_quant14 (atoi_MAX_BR : Z) (opts : list V14.option_arg)
    (info : V14.stream_info) :
  0 <= V14.min_quant_lvl info <= 51 /\ 0 <= V14.max_quant_lvl info <= 51
  /\ V14.curr_quant_lvl info = V14.min_quant_lvl info
  /\ V14.curr_bitrate info = V14.max_bitrate info ->
  let info' := fold_left (V14.apply_option atoi_MAX_BR) opts info in
  0 <= V14.min_quant_lvl info' <= 51 /\ 0 <= V14.max_quant_lvl info' <= 51
  /\ V14.curr_quant_lvl info' = V14.min_quant_lvl info'
  /\ V14.curr_bitrate info' = V14.max_bitrate info'.
Proof.
  revert info. induction opts as [|o opts IH]; intros info H.
  - exact H.
  - cbn [fold_left]. apply IH. destruct H as (H1 & H2 & H3 & H4).
    destruct o; cbn; repeat split; try assumption; try lia;
      repeat match goal with
             | |- context [if ?b then _ else _] => destruct b eqn:?
             end; lia.
Qed.

Lemma options_bitrate14 (atoi_MAX_BR : Z) (opts : list V14.option_arg)
    (info : V14.stream_info) :
  1 <= atoi_MAX_BR ->
  (1 <= V14.min_bitrate info <= atoi_MAX_BR \/ V14.min_bitrate info = 1)
  /\ (0 <= V14.max_bitrate info <= atoi_MAX_BR \/ V14.max_bitrate info = 10000) ->
  let info' := fold_left (V14.apply_option atoi_MAX_BR) opts info in
  (1 <= V14.min_bitrate info' <= atoi_MAX_BR \/ V14.min_bitrate info' = 1)
  /\ (0 <= V14.max_bitrate info' <= atoi_MAX_BR \/ V14.max_bitrate info' = 10000).
Proof.
  intros Ha. revert info. induction opts as [|o opts IH]; intros info H.
  - exact H.
  - cbn [fold_left]. apply IH. destruct H as (H1 & H2).
    destruct o; cbn; split; try assumption;
      repeat match goal with
             | |- context [if ?b then _ else _] => destruct b eqn:?
             end; lia.
Qed.

Lemma fold_left_snoc {A B} (f : A -> B -> A) (l : list B) (b : B) (a : A) :
  fold_left f (l ++ [b]) a = f (fold_left f l a) b.
Proof. now rewrite fold_left_app. Qed.

Lemma accepted14 (atoi_MAX_BR : Z) (opts : list V14.option_arg)
    (info : V14.stream_info) :
  V14.configure atoi_MAX_BR opts = Some info ->
  0 <= V14.min_quant_lvl info
  /\ V14.min_quant_lvl info <= V14.max_quant_lvl info
  /\ V14.max_quant_lvl info <= 51
  /\ V14.curr_quant_lvl info = V14.min_quant_lvl info
  /\ V14.curr_bitrate info = V14.max_bitrate info
  /\ 1 <= V14.steps info
  /\ (1 <= atoi_MAX_BR ->
      1 <= V14.min_bitrate info /\ 0 <= V14.max_bitrate info).
Proof.
  intros Hc. unfold V14.configure in Hc.
  destruct (V14.validate _) eqn:Hval; [|discriminate].
  injection Hc as <-.
  destruct (options_quant14 atoi_MAX_BR opts V14.default_info)
    as (H1 & H2 & H3 & H4); [cbn; lia|].
  unfold V14.validate in Hval.
  apply andb_prop in Hval as [Hval Hst].
  apply andb_prop in Hval as [Hq _].
  apply negb_true_iff, Z.ltb_ge in Hst. apply negb_true_iff, Z.ltb_ge in Hq.
  repeat (split; [solve [assumption | lia]|]).
  intros Ha.
  destruct (options_bitrate14 atoi_MAX_BR opts V14.default_info Ha)
    as (B1 & B2); [cbn; lia|]. lia.
Qed.

(** X1.  Version 1.4: whatever the options, a configuration that [main]
    accepts has quant bounds ordered and within 0..51, starts at the minimum
    quant level and at the maximum bitrate, and has at least one step; where
    [atoi(MAX_BR)] is positive its minimum bitrate is positive and its maximum
    bitrate is not negative.  A [--steps] value of 1 or less given last, and a
    minimum quant level above the maximum given last, make [main] exit. *)
Theorem configure_accepts14 (atoi_MAX_BR : Z) :
  (forall (opts : list V14.option_arg) (info : V14.stream_info),
      V14.configure atoi_MAX_BR opts = Some info ->
      0 <= V14.min_quant_lvl info
      /\ V14.min_quant_lvl info <= V14.max_quant_lvl info
      /\ V14.max_quant_lvl info <= 51
      /\ V14.curr_quant_lvl info = V14.min_quant_lvl info
      /\ V14.curr_bitrate info = V14.max_bitrate info
      /\ 1 <= V14.steps info
      /\ (1 <= atoi_MAX_BR -> 1 <= V14.min_bitrate info /\ 0 <= V14.max_bitrate info))
  /\ (forall (opts : list V14.option_arg) (v : Z),
      CInt.INT_MIN < v <= 1 ->
      V14.configure atoi_MAX_BR (opts ++ [V14.opt_steps v]) = None)
  /\ (forall (opts : list V14.option_arg) (lo hi : Z),
      0 <= hi < lo -> lo <= 51 ->
      V14.configure atoi_MAX_BR
        (opts ++ [V14.opt_min_quant_lvl lo; V14.opt_max_quant_lvl hi]) = None).
Proof.
  split; [|split].
  - intros opts info Hc. now apply (accepted14 atoi_MAX_BR opts).
  - intros opts v Hv. unfold V14.configure. rewrite fold_left_snoc.
    unfold V14.validate.
    replace (V14.steps _ <? 1) with true; [now rewrite andb_false_r|].
    symmetry. apply Z.ltb_lt. cbn. unfold CInt.sub.
    rewrite wrap_id; unfold CInt.in_range, CInt.INT_MIN, CInt.INT_MAX in *;
      lia.
  - intros opts lo hi H1 H2. unfold V14.configure.
    change (opts ++ [V14.opt_min_quant_lvl lo; V14.opt_max_quant_lvl hi])%list
      with (opts ++ [V14.opt_min_quant_lvl lo] ++ [V14.opt_max_quant_lvl hi])%list.
    rewrite app_assoc, !fold_left_snoc. unfold V14.validate.
    replace (V14.max_quant_lvl _ <? V14.min_quant_lvl _) with true;
      [reflexivity|].
    symmetry. apply Z.ltb_lt. cbn.
    repeat match goal with
           | |- context [if ?b then _ else _] => destruct b eqn:?
           end; lia.
Qed.

(** X1 on [--steps 3 --min-quant-lvl 60 --max-bitrate -5] where
    [atoi(MAX_BR)] is [INT_MAX]: the minimum quant level is clamped to 51. *)
Lemma configure_accepts14_witness :
  exists info,
    V14.configure 2147483647
      [V14.opt_steps 3; V14.opt_min_quant_lvl 60; V14.opt_max_bitrate (-5)]
    = Some info
    /\ V14.min_quant_lvl info = 51
    /\ V14.max_bitrate info = 0
    /\ 0 <= V14.min_quant_lvl info
    /\ V14.min_quant_lvl info <= V14.max_quant_lvl info
    /\ V14.max_quant_lvl info <= 51
    /\ V14.curr_quant_lvl info = V14.min_quant_lvl info
    /\ V14.curr_bitrate info = V14.max_bitrate info
    /\ 1 <= V14.steps info
    /\ 1 <= V14.min_bitrate info /\ 0 <= V14.max_bitrate info.
Proof.
  eexists. split; [reflexivity|]. split; [reflexivity|]. split; [reflexivity|].
  destruct (proj1 (configure_accepts14 2147483647)
              [V14.opt_steps 3; V14.opt_min_quant_lvl 60;
               V14.opt_max_bitrate (-5)] _ eq_refl)
    as (a & b & c & d & e & f & g).
  exact (conj a (conj b (conj c (conj d (conj e (conj f (g ltac:(lia)))))))).
Defined.

Lemma options_quant15 (atoi_MAX_BR : Z) (opts : list V15.option_arg)
    (info : V15.StreamInfo) :
  0 <= V15.minQuantLevel info <= 51 /\ 0 <= V15.maxQuantLevel info <= 51
  /\ V15.currentQuantLevel info = V15.minQuantLevel info
  /\ V15.enableVariableMode info = true ->
  let info' := fold_left (V15.apply_option atoi_MAX_BR) opts info in
  0 <= V15.minQuantLevel info' <= 51 /\ 0 <= V15.maxQuantLevel info' <= 51
  /\ V15.currentQuantLevel info' = V15.minQuantLevel info'
  /\ V15.enableVariableMode info' = true.
Proof.
  revert info. induction opts as [|o opts IH]; intros info H.
  - exact H.
  - cbn [fold_left]. apply IH. destruct H as (H1 & H2 & H3 & H4).
    destruct o; cbn; repeat split; try assumption; try lia;
      repeat match goal with
             | |- context [if ?b then _ else _] => destruct b eqn:?
             end; lia.
Qed.

Lemma options_no_cap15 (atoi_MAX_BR : Z) (opts : list V15.option_arg)
    (info : V15.StreamInfo) :
  forallb no_cap_option opts = true ->
  V15.capBitrate (fold_left (V15.apply_option atoi_MAX_BR) opts info)
  = V15.capBitrate info.
Proof.
  revert info. induction opts as [|o opts IH]; intros info H; [reflexivity|].
  cbn [forallb] in H. apply andb_prop in H as [Ho H].
  cbn [fold_left]. rewrite IH by exact H.
  destruct o; try reflexivity. discriminate.
Qed.

Lemma accepted15 (atoi_MAX_BR : Z) (opts : list V15.option_arg)
    (info : V15.StreamInfo) :
  V15.configure atoi_MAX_BR opts = Some info ->
  0 <= V15.minQuantLevel info
  /\ V15.minQuantLevel info <= V15.maxQuantLevel info
  /\ V15.maxQuantLevel info <= 51
  /\ V15.currentQuantLevel info = V15.minQuantLevel info
  /\ V15.enableVariableMode info = true
  /\ 1 <= V15.steps info
  /\ V15.maxBitrate info <= V15.capBitrate info
  /\ V15.currentBitrate info = V15.capBitrate info
  /\ (0 < V15.maxBitrate info -> V15.minBitrate info < V15.maxBitrate info).
Proof.
  intros Hc. unfold V15.configure in Hc.
  destruct (V15.validate _) eqn:Hval; [|discriminate].
  injection Hc as <-.
  destruct (options_quant15 atoi_MAX_BR opts V15.default_info)
    as (H1 & H2 & H3 & H4); [cbn; repeat split; lia|].
  unfold V15.validate in Hval.
  apply andb_prop in Hval as [Hval _].
  apply andb_prop in Hval as [Hval Hst].
  apply andb_prop in Hval as [Hq Hb].
  apply negb_true_iff, Z.ltb_ge in Hst. apply negb_true_iff, Z.ltb_ge in Hq.
  apply negb_true_iff in Hb.
  revert Hst Hq Hb. unfold V15.cap_bitrate.
  destruct (V15.capBitrate _ <? V15.maxBitrate _) eqn:E; cbn;
    intros Hst Hq Hb;
    [apply Z.ltb_lt in E | apply Z.ltb_ge in E];
    repeat (split; [solve [assumption | lia]|]).
  + intros Hpos. apply Z.ltb_lt in Hpos. rewrite Hpos in Hb.
    cbn in Hb. apply Z.leb_gt in Hb. exact Hb.
  + intros Hpos. apply Z.ltb_lt in Hpos. rewrite Hpos in Hb.
    cbn in Hb. apply Z.leb_gt in Hb. exact Hb.
Qed.

(** X2.  Version 1.5: whatever the options, a configuration that [main]
    accepts has quant bounds ordered and within 0..51, starts at the minimum
    quant level, has variable mode on and at least one step, a maximum bitrate
    no larger than the cap, a current bitrate equal to the cap, and, when the
    maximum bitrate is positive, a smaller minimum bitrate.  Without a
    [--cap-bitrate] option the cap is zero: the maximum bitrate is not
    positive, whatever [--max-bitrate] asked for, and the current bitrate is
    zero. *)
Theorem configure_accepts15 (atoi_MAX_BR : Z) :
  (forall (opts : list V15.option_arg) (info : V15.StreamInfo),
      V15.configure atoi_MAX_BR opts = Some info ->
      0 <= V15.minQuantLevel info
      /\ V15.minQuantLevel info <= V15.maxQuantLevel info
      /\ V15.maxQuantLevel info <= 51
      /\ V15.currentQuantLevel info = V15.minQuantLevel info
      /\ V15.enableVariableMode info = true
      /\ 1 <= V15.steps info
      /\ V15.maxBitrate info <= V15.capBitrate info
      /\ V15.currentBitrate info = V15.capBitrate info
      /\ (0 < V15.maxBitrate info -> V15.minBitrate info < V15.maxBitrate info))
  /\ (forall (opts : list V15.option_arg) (info : V15.StreamInfo),
      forallb no_cap_option opts = true ->
      V15.configure atoi_MAX_BR opts = Some info ->
      V15.maxBitrate info <= 0 /\ V15.currentBitrate info = 0).
Proof.
  split.
  - intros opts info Hc. now apply (accepted15 atoi_MAX_BR opts).
  - intros opts info Hn Hc. unfold V15.configure in Hc.
    destruct (V15.validate _); [|discriminate]. injection Hc as <-.
    pose proof (options_no_cap15 atoi_MAX_BR opts V15.default_info Hn) as Hcap.
    cbn [V15.capBitrate V15.default_info] in Hcap.
    unfold V15.cap_bitrate. rewrite Hcap.
    destruct (0 <? V15.maxBitrate _) eqn:E; cbn; rewrite ?Hcap;
      [|apply Z.ltb_ge in E]; split; lia || reflexivity.
Qed.

(** X2 on [--max-bitrate 5000] alone, where [atoi(MAX_BR)] is [INT_MAX]:
    the maximum bitrate the server runs with is zero. *)
Lemma configure_accepts15_witness :
  exists info,
    V15.configure 2147483647 [V15.opt_max_bitrate 5000] = Some info
    /\ V15.maxBitrate info = 0
    /\ V15.maxBitrate info <= 0 /\ V15.currentBitrate info = 0.
Proof.
  eexists. split; [reflexivity|]. split; [reflexivity|].
  exact (proj2 (configure_accepts15 2147483647)
           [V15.opt_max_bitrate 5000] _ eq_refl eq_refl).
Defined.

(** ** Commands *)

Lemma effects_logs {S : Type} (s s' : S) (out tr : list event)
    (o o' : list Z) :
  forallb reply_or_log tr = true ->
  effects (World s out o) (World s' (out ++ tr) o') [].
Proof.
  intros H. exists tr. cbn [w_out]. split; [reflexivity|].
  induction tr as [|e tr IH]; [split; reflexivity|].
  cbn [forallb] in H. apply andb_prop in H as [He H].
  destruct (IH H) as [IH1 IH2]. unfold property_writes in *. cbn [filter forallb].
  rewrite He. cbn [orb andb]. rewrite IH2.
  destruct e; try discriminate He; cbn [is_set_property]; now rewrite ?IH1.
Qed.

Lemma extra_characters_logs (f : string) (cs : list ascii) :
  forallb reply_or_log (map (extra_character f) cs) = true.
Proof. induction cs as [|c cs IH]; [reflexivity|]. cbn. exact IH. Qed.

Lemma same_session14_trans (a b c : V14.stream_info) :
  V14.same_session a b -> V14.same_session b c -> V14.same_session a c.
Proof. unfold V14.same_session. congruence. Qed.

Lemma same_session14_target (s s' : V14.stream_info) :
  V14.same_session s s' ->
  V14.connected s = V14.connected s' /\ V14.stream s = V14.stream s'.
Proof.
  unfold V14.same_session, V14.session_of. destruct s, s'. cbn.
  intros H. injection H; intros; subst. split; reflexivity.
Qed.

Lemma command_writes14_session (s s' : V14.stream_info) (cmd : list ascii) :
  V14.same_session s s' -> command_writes14 s cmd = command_writes14 s' cmd.
Proof.
  intros H. apply same_session14_target in H as [Hc Hs].
  unfold command_writes14. now rewrite Hc, Hs.
Qed.

Lemma line_writes14_session (s s' : V14.stream_info) (l : list ascii) :
  V14.same_session s s' -> line_writes14 s l = line_writes14 s' l.
Proof.
  intros H. unfold line_writes14. now rewrite (command_writes14_session s s' l H).
Qed.

Lemma for_each_effects14 {A : Type} (f : A -> M V14.stream_info unit)
    (writes : V14.stream_info -> A -> list event) :
  (forall s s' a, V14.same_session s s' -> writes s a = writes s' a) ->
  (forall a w,
      total w (f a)
        (fun _ w' => V14.same_session (w_si w) (w_si w')
                     /\ effects w w' (writes (w_si w) a))) ->
  forall l w,
    total w (for_each f l)
      (fun _ w' => V14.same_session (w_si w) (w_si w')
                   /\ effects w w' (flat_map (writes (w_si w)) l)).
Proof.
  intros Hw Hf l. induction l as [|a l IH]; intros [s out o]; cbn [for_each].
  - apply total_ret. split; [reflexivity | apply effects_same_out].
  - apply total_bind. eapply total_weaken; [apply Hf|].
    cbn beta. intros _ [s1 out1 o1] [Hs1 He1]. cbn [w_si] in *.
    eapply total_weaken; [apply IH|].
    cbn beta. intros _ [s2 out2 o2] [Hs2 He2]. cbn [w_si] in *. split.
    + exact (same_session14_trans _ _ _ Hs1 Hs2).
    + cbn [flat_map].
      replace (flat_map (writes s) l) with (flat_map (writes s1) l).
      * exact (effects_trans _ _ _ _ _ _ _ _ _ He1 He2).
      * apply flat_map_ext. intros b. symmetry. now apply Hw.
Qed.

Lemma flat_map_nil {A B : Type} (l : list A) :
  flat_map (fun _ : A => @nil B) l = [].
Proof. induction l; [reflexivity | exact IHl]. Qed.

Lemma do_command_print_bin_spec (w : world V14.stream_info) :
  total w V14.do_command_print_bin
    (fun _ w' => V14.same_session (w_si w) (w_si w') /\ effects w w' []).
Proof.
  destruct w as [s out o]. unfold V14.do_command_print_bin.
  exec.
  - split; [session_close | effects_close].
  - eapply total_weaken.
    + apply (for_each_effects14 _ (fun _ _ => [])); [reflexivity|].
      intros a [s1 out1 o1]. unfold V14.print_object_properties_info.
      exec_with ltac:(idtac; call_spec send_status_pipe_msg_spec).
      split; [session_close | effects_close].
    + cbn beta. intros _ [s1 out1 o1] [Hs He]. cbn [w_si] in *.
      rewrite flat_map_nil in He. split; [exact Hs | effects_close].
  - split; [session_close | effects_close].
Qed.

Lemma dispatch_command_spec (a e p n v : string) (d : Z)
    (w : world V14.stream_info) :
  total w (V14.dispatch_command [a; e; p; n; v] d)
    (fun _ w' =>
       V14.same_session (w_si w) (w_si w')
       /\ effects w w'
            (if String.eqb a "setparam" && (4 <=? d) then
               match setparam_target (V14.connected (w_si w))
                       (V14.stream (w_si w)) e p with
               | None => []
               | Some obj => [SetProperty obj n (VDouble (Libc.atof v))]
               end
             else [])).
Proof.
  destruct w as [s out o]. unfold V14.dispatch_command. cbn [nth].
  exec_with ltac:(idtac; first
    [ call_spec do_command_setparam_spec
    | call_spec do_command_print_bin_spec
    | call_spec _do_command_status_spec ]).
  all: cbn [w_si andb] in *.
  all: try match goal with
           | H : (?x <? 4) = true |- _ =>
               replace (4 <=? x) with false
                 by (symmetry; apply Z.leb_gt; now apply Z.ltb_lt)
           | H : (?x <? 4) = false |- _ =>
               replace (4 <=? x) with true
                 by (symmetry; apply Z.leb_le; now apply Z.ltb_ge)
           end.
  all: split; [session_close | effects_close].
Qed.

Lemma process_command_spec (cmd : list ascii) (w : world V14.stream_info) :
  total w (V14.process_command cmd)
    (fun _ w' =>
       V14.same_session (w_si w) (w_si w')
       /\ effects w w' (command_writes14 (w_si w) cmd)).
Proof.
  destruct w as [s out o].
  unfold total. rewrite process_command_run. cbn [w_si w_out w_open].
  destruct (dispatch_command_spec (field cmd 0) (field cmd 1) (field cmd 2)
              (field cmd 3) (field cmd 4) (delimiters cmd)
              (World s
                 (out ++ Dbg 0 "process_command" " Command: %s"
                           [AStr (string_of_list_ascii cmd)]
                    :: map (extra_character "process_command")
                         (extra_chars cmd)) o))
    as ([] & [s' out' o'] & Hrun & Hs & He).
  exists tt, (World s' out' o'). split; [exact Hrun|].
  cbn [w_si] in *. split; [exact Hs|].
  unfold command_writes14.
  eapply effects_eq.
  - eapply effects_trans; [|exact He].
    apply (effects_logs s s out _ o o).
    cbn [forallb reply_or_log]. apply extra_characters_logs.
  - reflexivity.
Qed.

Lemma reader_flush_spec (l : list ascii) (w : world V14.stream_info) :
  total w (V14.reader_flush l)
    (fun _ w' => V14.same_session (w_si w) (w_si w')
                 /\ effects w w' (line_writes14 (w_si w) l)).
Proof.
  destruct w as [s out o]. unfold V14.reader_flush, line_writes14.
  exec_with ltac:(idtac; call_spec process_command_spec).
  all: cbn [w_si] in *.
  - replace (Z.of_nat (List.length l) <? 256) with false
      by (symmetry; apply Z.ltb_ge; now apply Z.leb_le).
    rewrite andb_false_r. split; [session_close | effects_close].
  - replace (Z.of_nat (List.length l) <? 256) with true
      by (symmetry; apply Z.ltb_lt; now apply Z.leb_gt).
    cbn [andb]. split; [session_close | effects_close].
  - cbn [andb]. split; [session_close | effects_close].
Qed.

Lemma reader_spec (avail : list ascii) (w : world V14.stream_info) :
  Forall (fun l => (List.length l <= 256)%nat) (lines_of avail) ->
  total w (V14.reader avail)
    (fun r w' =>
       r = true
       /\ V14.same_session (w_si w) (w_si w')
       /\ effects w w' (flat_map (line_writes14 (w_si w)) (lines_of avail))).
Proof.
  intros H. unfold V14.reader.
  destruct (lines_of_cons avail) as (l & ls & Hl).
  destruct (for_each_effects14 V14.reader_flush line_writes14
              line_writes14_session reader_flush_spec (lines_of avail) w)
    as ([] & w' & Hrun & Hs & He).
  exists true, w'. split; [|now repeat split].
  rewrite (reader_loop_lines avail [] l ls w Hl) by (cbn [app]; now rewrite <- Hl).
  cbn [app]. rewrite <- Hl. unfold bind. now rewrite Hrun.
Qed.

Lemma reader_loop_overrun (avail : list ascii) :
  forall (buf l : list ascii) (ls : list (list ascii))
         (w : world V14.stream_info),
    lines_of avail = l :: ls ->
    (List.length buf <= 256)%nat ->
    Exists (fun x => (256 < List.length x)%nat) ((buf ++ l)%list :: ls) ->
    V14.reader_loop avail buf w = Trap BufferOverrun.
Proof.
  induction avail as [|c rest IH]; intros buf l ls w Hl Hb Hex.
  - simpl in Hl. inversion Hl; subst. rewrite app_nil_r in Hex.
    inversion Hex as [? ? H|? ? H]; subst; [lia | inversion H].
  - simpl in Hl. cbn [V14.reader_loop].
    destruct (lines_of_cons rest) as (l' & ls' & Hr).
    destruct (Ascii.eqb c newline) eqn:Hc; cbn [negb].
    + inversion Hl; subst. rewrite app_nil_r in Hex.
      inversion Hex as [? ? H|? ? H]; subst; [lia|].
      destruct (reader_flush_spec buf w) as ([] & w1 & Hrun & _).
      unfold bind. rewrite Hrun.
      apply (IH [] l' ls' w1 Hr); [cbn; lia|].
      cbn [app]. now rewrite <- Hr.
    + rewrite Hr in Hl. inversion Hl; subst.
      destruct (256 <=? Z.of_nat (List.length buf)) eqn:E; [reflexivity|].
      apply Z.leb_gt in E.
      apply (IH (buf ++ [c])%list l' ls w Hr).
      * rewrite length_app. cbn. lia.
      * now rewrite <- app_assoc.
Qed.

Lemma reader_traps (avail : list ascii) (w : world V14.stream_info) :
  Exists (fun l => (256 < List.length l)%nat) (lines_of avail) ->
  V14.reader avail w = Trap BufferOverrun.
Proof.
  intros H. destruct (lines_of_cons avail) as (l & ls & Hl).
  unfold V14.reader. apply (reader_loop_overrun avail [] l ls w Hl).
  - cbn. lia.
  - cbn [app]. now rewrite <- Hl.
Qed.

Lemma same_session15_trans (a b c : V15.StreamInfo) :
  V15.same_session a b -> V15.same_session b c -> V15.same_session a c.
Proof. unfold V15.same_session. congruence. Qed.

Lemma same_session15_target (s s' : V15.StreamInfo) :
  V15.same_session s s' ->
  V15.connected s = V15.connected s' /\ V15.stream s = V15.stream s'.
Proof.
  unfold V15.same_session, V15.session_of. destruct s, s'. cbn.
  intros H. injection H; intros; subst. split; reflexivity.
Qed.

Lemma command_writes15_session (s s' : V15.StreamInfo) (cmd : list ascii) :
  V15.same_session s s' -> command_writes15 s cmd = command_writes15 s' cmd.
Proof.
  intros H. apply same_session15_target in H as [Hc Hs].
  unfold command_writes15. now rewrite Hc, Hs.
Qed.

Lemma line_writes15_session (s s' : V15.StreamInfo) (l : list ascii) :
  V15.same_session s s' -> line_writes15 s l = line_writes15 s' l.
Proof.
  intros H. unfold line_writes15. now rewrite (command_writes15_session s s' l H).
Qed.

Lemma for_each_effects15 {A : Type} (f : A -> M V15.StreamInfo unit)
    (writes : V15.StreamInfo -> A -> list event) :
  (forall s s' a, V15.same_session s s' -> writes s a = writes s' a) ->
  (forall a w,
      total w (f a)
        (fun _ w' => V15.same_session (w_si w) (w_si w')
                     /\ effects w w' (writes (w_si w) a))) ->
  forall l w,
    total w (for_each f l)
      (fun _ w' => V15.same_session (w_si w) (w_si w')
                   /\ effects w w' (flat_map (writes (w_si w)) l)).
Proof.
  intros Hw Hf l. induction l as [|a l IH]; intros [s out o]; cbn [for_each].
  - apply total_ret. split; [reflexivity | apply effects_same_out].
  - apply total_bind. eapply total_weaken; [apply Hf|].
    cbn beta. intros _ [s1 out1 o1] [Hs1 He1]. cbn [w_si] in *.
    eapply total_weaken; [apply IH|].
    cbn beta. intros _ [s2 out2 o2] [Hs2 He2]. cbn [w_si] in *. split.
    + exact (same_session15_trans _ _ _ Hs1 Hs2).
    + cbn [flat_map].
      replace (flat_map (writes s) l) with (flat_map (writes s1) l).
      * exact (effects_trans _ _ _ _ _ _ _ _ _ He1 He2).
      * apply flat_map_ext. intros b. symmetry. now apply Hw.
Qed.

Lemma doCommandPrintBin_spec (w : world V15.StreamInfo) :
  total w V15.doCommandPrintBin
    (fun _ w' => V15.same_session (w_si w) (w_si w') /\ effects w w' []).
Proof.
  destruct w as [s out o]. unfold V15.doCommandPrintBin.
  exec.
  - split; [session_close | effects_close].
  - eapply total_weaken.
    + apply (for_each_effects15 _ (fun _ _ => [])); [reflexivity|].
      intros a [s1 out1 o1]. unfold V15.printObjectPropertiesInfo.
      exec_with ltac:(idtac; call_spec sendStatusPipeMessage_spec).
      split; [session_close | effects_close].
    + cbn beta. intros _ [s1 out1 o1] [Hs He]. cbn [w_si] in *.
      rewrite flat_map_nil in He. split; [exact Hs | effects_close].
  - split; [session_close | effects_close].
Qed.

Lemma dispatchCommand_spec (a e p n v : string) (d : Z)
    (w : world V15.StreamInfo) :
  total w (V15.dispatchCommand [a; e; p; n; v] d)
    (fun _ w' =>
       V15.same_session (w_si w) (w_si w')
       /\ effects w w'
            (if String.eqb a "setparam" && (4 <=? d) then
               match setparam_target (V15.connected (w_si w))
                       (V15.stream (w_si w)) e p with
               | None => []
               | Some obj =>
                   if Libc.sd_errno (Libc.strtod v) =? 0
                   then [SetProperty obj n
                           (VDouble (Libc.sd_value (Libc.strtod v)))]
                   else []
               end
             else [])).
Proof.
  destruct w as [s out o]. unfold V15.dispatchCommand. cbn [nth].
  exec_with ltac:(idtac; first
    [ call_spec doCommandSetParameter_spec
    | call_spec doCommandPrintBin_spec
    | call_spec _doCommandSendStatus_spec ]).
  all: cbn [w_si andb] in *.
  all: try match goal with
           | H : (?x <? 4) = true |- _ =>
               replace (4 <=? x) with false
                 by (symmetry; apply Z.leb_gt; now apply Z.ltb_lt)
           | H : (?x <? 4) = false |- _ =>
               replace (4 <=? x) with true
                 by (symmetry; apply Z.leb_le; now apply Z.ltb_ge)
           end.
  all: split; [session_close | effects_close].
Qed.

Lemma processCommand_spec (cmd : list ascii) (w : world V15.StreamInfo) :
  total w (V15.processCommand cmd)
    (fun _ w' =>
       V15.same_session (w_si w) (w_si w')
       /\ effects w w' (command_writes15 (w_si w) cmd)).
Proof.
  destruct w as [s out o].
  unfold total. rewrite processCommand_run. cbn [w_si w_out w_open].
  destruct (dispatchCommand_spec (field cmd 0) (field cmd 1) (field cmd 2)
              (field cmd 3) (field cmd 4) (delimiters cmd)
              (World s
                 (out ++ Dbg 0 "processCommand" " Command: %s"
                           [AStr (string_of_list_ascii cmd)]
                    :: map (extra_character "processCommand")
                         (extra_chars cmd)) o))
    as ([] & [s' out' o'] & Hrun & Hs & He).
  exists tt, (World s' out' o'). split; [exact Hrun|].
  cbn [w_si] in *. split; [exact Hs|].
  unfold command_writes15.
  eapply effects_eq.
  - eapply effects_trans; [|exact He].
    apply (effects_logs s s out _ o o).
    cbn [forallb reply_or_log]. apply extra_characters_logs.
  - reflexivity.
Qed.

Lemma readerFlush_spec (l : list ascii) (w : world V15.StreamInfo) :
  total w (V15.readerFlush l)
    (fun _ w' => V15.same_session (w_si w) (w_si w')
                 /\ effects w w' (line_writes15 (w_si w) l)).
Proof.
  destruct w as [s out o]. unfold V15.readerFlush, line_writes15.
  exec_with ltac:(idtac; call_spec processCommand_spec).
  all: cbn [w_si] in *.
  - replace (Z.of_nat (List.length l) <? 256) with false
      by (symmetry; apply Z.ltb_ge; now apply Z.leb_le).
    rewrite andb_false_r. split; [session_close | effects_close].
  - replace (Z.of_nat (List.length l) <? 256) with true
      by (symmetry; apply Z.ltb_lt; now apply Z.leb_gt).
    cbn [andb]. split; [session_close | effects_close].
  - cbn [andb]. split; [session_close | effects_close].
Qed.

Lemma reader_spec15 (avail : list ascii) (w : world V15.StreamInfo) :
  Forall (fun l => (List.length l <= 256)%nat) (lines_of avail) ->
  total w (V15.reader avail)
    (fun r w' =>
       r = true
       /\ V15.same_session (w_si w) (w_si w')
       /\ effects w w' (flat_map (line_writes15 (w_si w)) (lines_of avail))).
Proof.
  intros H. unfold V15.reader.
  destruct (lines_of_cons avail) as (l & ls & Hl).
  destruct (for_each_effects15 V15.readerFlush line_writes15
              line_writes15_session readerFlush_spec (lines_of avail) w)
    as ([] & w' & Hrun & Hs & He).
  exists true, w'. split; [|now repeat split].
  rewrite (readerLoop_lines avail [] l ls w Hl) by (cbn [app]; now rewrite <- Hl).
  cbn [app]. rewrite <- Hl. unfold bind. now rewrite Hrun.
Qed.

Lemma readerLoop_overrun (avail : list ascii) :
  forall (buf l : list ascii) (ls : list (list ascii))
         (w : world V15.StreamInfo),
    lines_of avail = l :: ls ->
    (List.length buf <= 256)%nat ->
    Exists (fun x => (256 < List.length x)%nat) ((buf ++ l)%list :: ls) ->
    V15.readerLoop avail buf w = Trap BufferOverrun.
Proof.
  induction avail as [|c rest IH]; intros buf l ls w Hl Hb Hex.
  - simpl in Hl. inversion Hl; subst. rewrite app_nil_r in Hex.
    inversion Hex as [? ? H|? ? H]; subst; [lia | inversion H].
  - simpl in Hl. cbn [V15.readerLoop].
    destruct (lines_of_cons rest) as (l' & ls' & Hr).
    destruct (Ascii.eqb c newline) eqn:Hc; cbn [negb].
    + inversion Hl; subst. rewrite app_nil_r in Hex.
      inversion Hex as [? ? H|? ? H]; subst; [lia|].
      destruct (readerFlush_spec buf w) as ([] & w1 & Hrun & _).
      unfold bind. rewrite Hrun.
      apply (IH [] l' ls' w1 Hr); [cbn; lia|].
      cbn [app]. now rewrite <- Hr.
    + rewrite Hr in Hl. inversion Hl; subst.
      destruct (256 <=? Z.of_nat (List.length buf)) eqn:E; [reflexivity|].
      apply Z.leb_gt in E.
      apply (IH (buf ++ [c])%list l' ls w Hr).
      * rewrite length_app. cbn. lia.
      * now rewrite <- app_assoc.
Qed.

Lemma reader_traps15 (avail : list ascii) (w : world V15.StreamInfo) :
  Exists (fun l => (256 < List.length l)%nat) (lines_of avail) ->
  V15.reader avail w = Trap BufferOverrun.
Proof.
  intros H. destruct (lines_of_cons avail) as (l & ls & Hl).
  unfold V15.reader. apply (readerLoop_overrun avail [] l ls w Hl).
  - cbn. lia.
  - cbn [app]. now rewrite <- Hl.
Qed.




(** X5.  In both versions a poll of the reader on bytes with a piece of
    more than 256 bytes between newlines stores a byte beyond the end of
    [ch_buffer]. *)
Theorem reader_poll_overrun :
  (forall (avail : list ascii) (w : world V14.stream_info),
      Exists (fun l => (256 < List.length l)%nat) (lines_of avail) ->
      V14.reader avail w = Trap BufferOverrun)
  /\ (forall (avail : list ascii) (w : world V15.StreamInfo),
      Exists (fun l => (256 < List.length l)%nat) (lines_of avail) ->
      V15.reader avail w = Trap BufferOverrun).
Proof.
  split; intros avail w H; [now apply reader_traps | now apply reader_traps15].
Qed.

(** X5 on a [status] line followed by 257 bytes [a] without a newline. *)
Lemma reader_poll_overrun_witness :
  V14.reader
    (list_ascii_of_string "status" ++ [newline]
     ++ repeat (ascii_of_nat 97) 257)
    (World V14.default_info [] [])
  = Trap BufferOverrun
  /\ V15.reader
       (list_ascii_of_string "status" ++ [newline]
        ++ repeat (ascii_of_nat 97) 257)
       (World V15.default_info [] [])
     = Trap BufferOverrun.
Proof.
  split.
  - apply (proj1 reader_poll_overrun).
    apply Exists_cons_tl, Exists_cons_hd. vm_compute. reflexivity.
  - apply (proj2 reader_poll_overrun).
    apply Exists_cons_tl, Exists_cons_hd. vm_compute. reflexivity.
Defined.

(** ** Replies and references of [setparam] *)

Section Emits.

Context {S X : Type}.
Variable f : event -> list X.

Lemma emits_same_out (s s' : S) (out : list event) (o o' : list Z) :
  emits f (World s out o) (World s' out o') [].
Proof. exists []. cbn [w_out]. now rewrite app_nil_r. Qed.

Lemma emits_snoc (w : world S) (s : S) (out : list event) (o : list Z)
    (xs : list X) (e : event) :
  emits f w (World s out o) xs ->
  emits f w (World s (out ++ [e]) o) (xs ++ f e)%list.
Proof.
  intros (tr & Hout & Hx). cbn [w_out] in *.
  exists (tr ++ [e])%list. split.
  - rewrite Hout. now rewrite app_assoc.
  - rewrite flat_map_app, Hx. cbn [flat_map]. now rewrite app_nil_r.
Qed.

Lemma emits_trans (w w1 : world S) (s s' : S) (out : list event)
    (o o' : list Z) (xs ys : list X) :
  emits f w w1 xs -> emits f w1 (World s out o) ys ->
  emits f w (World s' out o') (xs ++ ys)%list.
Proof.
  intros (t1 & H1 & X1) (t2 & H2 & X2). cbn [w_out] in *.
  exists (t1 ++ t2)%list. split.
  - rewrite H2, H1. now rewrite app_assoc.
  - now rewrite flat_map_app, X1, X2.
Qed.

Lemma emits_eq (w w' : world S) (xs ys : list X) :
  emits f w w' xs -> xs = ys -> emits f w w' ys.
Proof. now intros H <-. Qed.

End Emits.

Ltac emits_build :=
  lazymatch goal with
  | |- emits _ _ (World _ (_ ++ [_]) _) _ =>
      eapply emits_snoc; emits_build
  | |- emits _ (World _ ?out _) (World _ ?out _) _ => apply emits_same_out
  | H : emits ?f ?wc (World _ ?out1 _) _
    |- emits ?f _ (World _ ?out1 _) _ =>
      eapply emits_trans; [| exact H]; clear H; emits_build
  end.







(** ** Invariants of a whole run *)

Lemma same_frame_settings14 (s s' : V14.stream_info) :
  V14.same_frame s s' -> settings14 s = settings14 s'.
Proof.
  unfold V14.same_frame, settings14. intros H.
  unfold V14.session_of. now rewrite H.
Qed.

Lemma same_session_settings14 (s s' : V14.stream_info) :
  V14.same_session s s' -> settings14 s = settings14 s'.
Proof.
  unfold V14.same_session, V14.session_of, V14.frame_of, settings14.
  destruct s, s'. cbn. intros H. injection H; intros; subst. reflexivity.
Qed.

Lemma settings14_kept (info : V14.stream_info) :
  kept14 (fun w => settings14 (w_si w) = settings14 info).
Proof.
  split.
  - intros s out o e _ H. exact H.
  - intros s s' out o Hf H. cbn [w_si] in *.
    now rewrite <- (same_frame_settings14 s s' Hf).
  - intros [s out o] t b H. apply total_partial.
    eapply total_weaken; [apply send_status_pipe_msg_spec|].
    cbn beta. intros _ [s' out' o'] [Hs _]. cbn [w_si] in *.
    now rewrite <- (same_session_settings14 s s' Hs).
  - intros [s out o] H. cbn [w_si] in *.
    unfold V14.adapt_quality, V14.change_bitrate, V14.change_quant, lift_div.
    exec; cbn [w_si]; exact H.
Qed.

Lemma same_frame_settings15 (s s' : V15.StreamInfo) :
  V15.same_frame s s' -> settings15 s = settings15 s'.
Proof.
  unfold V15.same_frame, settings15. intros H.
  unfold V15.session_of. now rewrite H.
Qed.

Lemma same_session_settings15 (s s' : V15.StreamInfo) :
  V15.same_session s s' -> settings15 s = settings15 s'.
Proof.
  unfold V15.same_session, V15.session_of, V15.frame_of, settings15.
  destruct s, s'. cbn. intros H. injection H; intros; subst. reflexivity.
Qed.

Lemma settings15_maintained (info : V15.StreamInfo) :
  maintained15 (fun w => settings15 (w_si w) = settings15 info).
Proof.
  split.
  - intros s out o e _ H. exact H.
  - intros s s' out o Hf H. cbn [w_si] in *.
    now rewrite <- (same_frame_settings15 s s' Hf).
  - intros [s out o] t b H. apply total_partial.
    eapply total_weaken; [apply sendStatusPipeMessage_spec|].
    cbn beta. intros _ [s' out' o'] [Hs _]. cbn [w_si] in *.
    now rewrite <- (same_session_settings15 s s' Hs).
  - intros [s out o] H. cbn [w_si] in *.
    unfold V15.changeQuant, lift_div. exec; cbn [w_si]; exact H.
  - intros [s out o] H. cbn [w_si] in *.
    unfold V15.changeBitrate, lift_div. exec; cbn [w_si]; exact H.
Qed.

(** X8.  In both versions no history of callbacks (client events, media
    configurations, command polls) changes a setting: after it the state
    differs from the initial one at most in the client count, the connection
    flag, the element slots, [first_run], the current quant level and bitrate,
    and the descriptor and stream of the status pipe. *)
Theorem settings_are_kept :
  (forall (info : V14.stream_info) (opens : list Z) (cbs : list V14.callback)
          (w : world V14.stream_info),
      run (V14.main_loop cbs) info opens = Ok (tt, w) ->
      settings14 (w_si w) = settings14 info)
  /\ (forall (info : V15.StreamInfo) (opens : list Z)
             (cbs : list V15.callback) (w : world V15.StreamInfo),
      run (V15.main_loop cbs) info opens = Ok (tt, w) ->
      settings15 (w_si w) = settings15 info).
Proof.
  split.
  - intros info opens cbs w Hrun.
    exact (main_loop_keeps _ (settings14_kept info) cbs
             (World info [] opens) eq_refl tt w Hrun).
  - intros info opens cbs w Hrun.
    exact (main_loop_maintains15 _ (settings15_maintained info) cbs
             (World info [] opens) eq_refl tt w Hrun).
Qed.

(** X8 on a client that connects to the default pipeline, sends
    [setparam:enc0::bitrate:5000] and leaves. *)
Lemma settings_are_kept_witness :
  exists w,
    run (V14.main_loop
           [V14.client_connected no_elements;
            V14.media_configure static_pipeline;
            V14.command_poll
              (list_ascii_of_string "setparam:enc0::bitrate:5000" ++ [newline]);
            V14.client_closed])
      V14.default_info [] = Ok (tt, w)
    /\ settings14 (w_si w) = settings14 V14.default_info.
Proof.
  eexists. split; [vm_compute; reflexivity|].
  apply (proj1 settings_are_kept V14.default_info []
           [V14.client_connected no_elements;
            V14.media_configure static_pipeline;
            V14.command_poll
              (list_ascii_of_string "setparam:enc0::bitrate:5000" ++ [newline]);
            V14.client_closed]).
  vm_compute. reflexivity.
Defined.

Lemma same_frame_capped14 (info s s' : V14.stream_info)
    (out out' : list event) (o o' : list Z) :
  V14.same_frame s s' ->
  capped14 info (World s out o) -> capped14 info (World s' out' o').
Proof.
  unfold V14.same_frame, V14.frame_of, capped14. destruct s, s'. cbn.
  intros Hf. injection Hf; intros; subst; assumption.
Qed.

Lemma same_session_capped14 (info s s' : V14.stream_info)
    (out out' : list event) (o o' : list Z) :
  V14.same_session s s' ->
  capped14 info (World s out o) -> capped14 info (World s' out' o').
Proof.
  unfold V14.same_session, V14.session_of, capped14. destruct s, s'. cbn.
  intros Hf. injection Hf; intros; subst; assumption.
Qed.

Ltac capped_close H :=
  destruct H as (H1 & H2 & H3 & H4 & H5);
  cbn in *; rewrite ?H1, ?H2, ?H3 in *;
  repeat match goal with
         | |- context [if ?b then _ else _] => destruct b eqn:?
         end;
  repeat match goal with
         | E : (_ <? _) = true |- _ => apply Z.ltb_lt in E
         | E : (_ <? _) = false |- _ => apply Z.ltb_ge in E
         end;
  repeat (split; [solve [assumption | reflexivity | lia]|]);
  solve [assumption | lia | left; lia | right; lia].

Lemma capped14_kept (info : V14.stream_info) : kept14 (capped14 info).
Proof.
  split.
  - intros s out o e _ H. exact H.
  - intros s s' out o. apply same_frame_capped14.
  - intros [s out o] t b H. apply total_partial.
    eapply total_weaken; [apply send_status_pipe_msg_spec|].
    cbn beta. intros _ [s' out' o'] [Hs _].
    exact (same_session_capped14 info s s' out out' o o' Hs H).
  - intros [s out o] H.
    unfold V14.adapt_quality, V14.change_bitrate, V14.change_quant, lift_div.
    exec; unfold capped14 in *; cbn [w_si] in *; try exact H.
    all: capped_close H.
Qed.

Lemma same_frame_capped15 (info s s' : V15.StreamInfo)
    (out out' : list event) (o o' : list Z) :
  V15.same_frame s s' ->
  capped15 info (World s out o) -> capped15 info (World s' out' o').
Proof.
  unfold V15.same_frame, V15.frame_of, capped15. destruct s, s'. cbn.
  intros Hf. injection Hf; intros; subst; assumption.
Qed.

Lemma same_session_capped15 (info s s' : V15.StreamInfo)
    (out out' : list event) (o o' : list Z) :
  V15.same_session s s' ->
  capped15 info (World s out o) -> capped15 info (World s' out' o').
Proof.
  unfold V15.same_session, V15.session_of, capped15. destruct s, s'. cbn.
  intros Hf. injection Hf; intros; subst; assumption.
Qed.

Lemma capped15_maintained (info : V15.StreamInfo) :
  maintained15 (capped15 info).
Proof.
  split.
  - intros s out o e _ H. exact H.
  - intros s s' out o. apply same_frame_capped15.
  - intros [s out o] t b H. apply total_partial.
    eapply total_weaken; [apply sendStatusPipeMessage_spec|].
    cbn beta. intros _ [s' out' o'] [Hs _].
    exact (same_session_capped15 info s s' out out' o o' Hs H).
  - intros [s out o] H. unfold V15.changeQuant, lift_div.
    exec; unfold capped15 in *; cbn [w_si] in *; try exact H.
    all: capped_close H.
  - intros [s out o] H. unfold V15.changeBitrate, lift_div.
    exec; unfold capped15 in *; cbn [w_si] in *; try exact H.
    all: capped_close H.
Qed.

(** X9.  From a configuration that [main] accepts, after any history of
    callbacks, however many clients it counts: the current quant level is not
    above the configured maximum, itself at most 51; and the current bitrate
    is the initial one (the maximum in version 1.4, the cap in version 1.5) or
    not below the configured minimum. *)
Theorem levels_stay_capped (atoi_MAX_BR : Z) :
  (forall (opts : list V14.option_arg) (info : V14.stream_info)
          (opens : list Z) (cbs : list V14.callback)
          (w : world V14.stream_info),
      V14.configure atoi_MAX_BR opts = Some info ->
      run (V14.main_loop cbs) info opens = Ok (tt, w) ->
      V14.curr_quant_lvl (w_si w) <= V14.max_quant_lvl info
      /\ V14.max_quant_lvl info <= 51
      /\ (V14.min_bitrate info <= V14.curr_bitrate (w_si w)
          \/ V14.curr_bitrate (w_si w) = V14.max_bitrate info))
  /\ (forall (opts : list V15.option_arg) (info : V15.StreamInfo)
             (opens : list Z) (cbs : list V15.callback)
             (w : world V15.StreamInfo),
      V15.configure atoi_MAX_BR opts = Some info ->
      run (V15.main_loop cbs) info opens = Ok (tt, w) ->
      V15.currentQuantLevel (w_si w) <= V15.maxQuantLevel info
      /\ V15.maxQuantLevel info <= 51
      /\ (V15.minBitrate info <= V15.currentBitrate (w_si w)
          \/ V15.currentBitrate (w_si w) = V15.capBitrate info)).
Proof.
  split.
  - intros opts info opens cbs w Hc Hrun.
    destruct (accepted14 atoi_MAX_BR opts info Hc)
      as (Q0 & Q1 & Q2 & Q3 & Q4 & Q5 & _).
    assert (H0 : capped14 info (World info [] opens)).
    { unfold capped14. cbn [w_si]. repeat (split; [reflexivity|]).
      split; [lia | now right]. }
    destruct (main_loop_keeps _ (capped14_kept info) cbs _ H0 tt w Hrun)
      as (_ & _ & _ & H4 & H5).
    split; [exact H4|]. split; [exact Q2|].
    destruct H5 as [H5|H5]; [now left | right; congruence].
  - intros opts info opens cbs w Hc Hrun.
    destruct (accepted15 atoi_MAX_BR opts info Hc)
      as (Q0 & Q1 & Q2 & Q3 & Q4 & Q5 & Q6 & Q7 & _).
    assert (H0 : capped15 info (World info [] opens)).
    { unfold capped15. cbn [w_si]. repeat (split; [reflexivity|]).
      split; [lia | now right]. }
    destruct (main_loop_maintains15 _ (capped15_maintained info) cbs _ H0
                tt w Hrun)
      as (_ & _ & _ & H4 & H5).
    split; [exact H4|]. split; [exact Q2|].
    destruct H5 as [H5|H5]; [now left | right; congruence].
Qed.

(** X9 on the default configuration of version 1.4 with six clients on the
    default pipeline. *)
Lemma levels_stay_capped_witness :
  exists w,
    run (V14.main_loop
           [V14.client_connected no_elements;
            V14.media_configure static_pipeline;
            V14.client_connected no_elements;
            V14.client_connected no_elements;
            V14.client_connected no_elements;
            V14.client_connected no_elements;
            V14.client_connected no_elements])
      V14.default_info [] = Ok (tt, w)
    /\ V14.curr_bitrate (w_si w) = 1
    /\ V14.curr_quant_lvl (w_si w) <= V14.max_quant_lvl V14.default_info
    /\ V14.max_quant_lvl V14.default_info <= 51
    /\ (V14.min_bitrate V14.default_info <= V14.curr_bitrate (w_si w)
        \/ V14.curr_bitrate (w_si w) = V14.max_bitrate V14.default_info).
Proof.
  eexists. split; [vm_compute; reflexivity|]. split; [reflexivity|].
  apply (proj1 (levels_stay_capped 2147483647) [] V14.default_info []
           [V14.client_connected no_elements;
            V14.media_configure static_pipeline;
            V14.client_connected no_elements;
            V14.client_connected no_elements;
            V14.client_connected no_elements;
            V14.client_connected no_elements;
            V14.client_connected no_elements]).
  - reflexivity.
  - vm_compute. reflexivity.
Defined.

(** ** The periodic message *)







(** ** Histories without a stray close *)

Section Tracked14.

Variable info : V14.stream_info.
Variable B : Prop.
Variable N : Z.

Hypothesis Hq : level_config (V14.min_quant_lvl info) (V14.max_quant_lvl info)
                  (V14.steps info).
Hypothesis Hqf : quant_fits (V14.min_quant_lvl info) (V14.max_quant_lvl info)
                   (V14.steps info) N.
Hypothesis Hb : B -> level_config (V14.min_bitrate info) (V14.max_bitrate info)
                       (V14.steps info).
Hypothesis Hbf : B -> bitrate_fits (V14.min_bitrate info)
                        (V14.max_bitrate info) (V14.steps info) N.

Lemma same_session_tracked14 (n : Z) (s s' : V14.stream_info)
    (out out' : list event) (o o' : list Z) :
  V14.same_session s s' ->
  tracked14 info B n (World s out o) -> tracked14 info B n (World s' out' o').
Proof.
  unfold V14.same_session, V14.session_of, tracked14. destruct s, s'. cbn.
  intros Hf. injection Hf; intros; subst; assumption.
Qed.

Lemma change_quant_tracked14 (n : Z) (w : world V14.stream_info) :
  1 <= n <= N -> tracked14 info B n w ->
  total w V14.change_quant (fun _ w' => tracked14 info B n w').
Proof.
  intros Hn H. pose proof H as (T1 & T2 & T3 & T4 & T5 & T6 & T7 & T8 & T9).
  pose proof Hq as (_ & _ & _ & Hst & _).
  destruct (encoder (V14.stream (w_si w))) as [enc|] eqn:He.
  - assert (Hs : V14.quant_step (w_si w)
                 = Some (Z.quot (V14.max_quant_lvl info - V14.min_quant_lvl info)
                           (V14.steps info))).
    { unfold V14.quant_step. rewrite T3, T4, T5, (sub_exact _ _ _ Hq).
      now apply div_some. }
    pose proof (change_quant_run w enc _ He Hs) as Hrun. cbv zeta in Hrun.
    eexists; eexists. split; [exact Hrun|].
    rewrite T1, T4, T5.
    destruct (quant_levels_ordered _ _ _ n n Hq ltac:(lia)
                (quant_fits_le _ _ _ n N Hq Hn Hqf)) as (L1 & _ & L2).
    unfold tracked14. cbn. repeat (split; [assumption|]).
    split; [split; assumption | exact T9].
  - eexists; eexists. split; [now apply change_quant_unbound|]. exact H.
Qed.

Lemma change_bitrate_tracked14 (n : Z) (w : world V14.stream_info) :
  1 <= n <= N -> tracked14 info B n w ->
  total w V14.change_bitrate (fun _ w' => tracked14 info B n w').
Proof.
  intros Hn H. pose proof H as (T1 & T2 & T3 & T4 & T5 & T6 & T7 & T8 & T9).
  pose proof Hq as (_ & _ & _ & Hst & _).
  destruct (encoder (V14.stream (w_si w))) as [enc|] eqn:He.
  - assert (Hs : V14.bitrate_step (w_si w)
                 = Some (Z.quot (CInt.sub (V14.max_bitrate info)
                                   (V14.min_bitrate info))
                           (V14.steps info))).
    { unfold V14.bitrate_step. rewrite T3, T6, T7. now apply div_some. }
    pose proof (change_bitrate_run w enc _ He Hs) as Hrun. cbv zeta in Hrun.
    eexists; eexists. split; [exact Hrun|].
    rewrite T1, T6, T7.
    unfold tracked14. cbn. repeat (split; [assumption|]).
    intros HB. rewrite (sub_exact _ _ _ (Hb HB)).
    destruct (bitrate_levels_ordered _ _ _ n n (Hb HB) ltac:(lia)
                (bitrate_fits_le _ _ _ n N (Hb HB) Hn (Hbf HB)))
      as (L1 & _ & L2).
    split; assumption.
  - eexists; eexists. split; [now apply change_bitrate_unbound|]. exact H.
Qed.

Lemma adapt_quality_tracked14 (n : Z) (w : world V14.stream_info) :
  1 <= n <= N -> tracked14 info B n w ->
  total w V14.adapt_quality (fun _ w' => tracked14 info B n w').
Proof.
  intros Hn H. unfold V14.adapt_quality. apply total_bind, total_get.
  destruct (V14.enable_variable_mode (w_si w)); [|now apply total_ret].
  destruct (negb (V14.curr_bitrate (w_si w) =? 0)).
  - now apply change_bitrate_tracked14.
  - now apply change_quant_tracked14.
Qed.

Lemma wrap_small (z : Z) : 0 <= z <= N -> CInt.wrap z = z.
Proof.
  intros H. apply wrap_id. destruct Hqf as [Hr _].
  unfold CInt.in_range, CInt.INT_MIN, CInt.INT_MAX in *. lia.
Qed.

Ltac call_adapt_tracked n H :=
  lazymatch goal with
  | |- total _ V14.adapt_quality _ =>
      eapply total_weaken;
      [ apply (adapt_quality_tracked14 n)
      | cbn beta; let w1 := fresh "w" in let H1 := fresh "HT" in
        intros _ w1 H1;
        let s := fresh "s" in let out := fresh "out" in let o := fresh "o" in
        destruct w1 as [s out o]; cbn [w_si w_out w_open] in * ]
  end.

Ltac call_status_tracked :=
  lazymatch goal with
  | |- total _ (V14._do_command_status _ _) _ =>
      eapply total_weaken;
      [ apply _do_command_status_spec
      | cbn beta; let w1 := fresh "w" in let H1 := fresh "HS" in
        intros _ w1 [H1 _];
        let s := fresh "s" in let out := fresh "out" in let o := fresh "o" in
        destruct w1 as [s out o]; cbn [w_si w_out w_open] in * ]
  end.

Lemma tracked14_after_status (n : Z) (a b : V14.stream_info)
    (out out' : list event) (o o' : list Z) :
  tracked14 info B n (World a out o) -> V14.same_session a b ->
  tracked14 info B n (World (V14.set_first_run false b) out' o').
Proof.
  intros H Hs. apply (same_session_tracked14 n a b out out o o Hs) in H.
  exact H.
Qed.

Lemma tracked14_connect (n : Z) (s : V14.stream_info)
    (out out' : list event) (o o' : list Z) :
  0 <= n -> n + 1 <= N -> tracked14 info B n (World s out o) ->
  tracked14 info B (n + 1)
    (World (V14.set_connected true
              (V14.set_num_cli (CInt.add (V14.num_cli s) 1) s)) out' o').
Proof.
  intros H0 H1 (T1 & T2 & T3 & T4 & T5 & T6 & T7 & T8 & T9).
  cbn [w_si] in *. unfold tracked14. cbn.
  split; [unfold CInt.add; rewrite T1; apply wrap_small; lia|].
  split; [symmetry; apply Z.ltb_lt; lia|].
  repeat (split; [assumption|]). exact T9.
Qed.

Lemma new_client_handler_tracked14 (n : Z) (fresh : elements)
    (w : world V14.stream_info) :
  0 <= n -> n + 1 <= N -> tracked14 info B n w ->
  total w (V14.new_client_handler fresh)
    (fun _ w' => tracked14 info B (n + 1) w').
Proof.
  intros H0 H1 H. destruct w as [s out o].
  pose proof (tracked14_connect n s out [] o [] H0 H1 H) as Hc.
  unfold V14.new_client_handler.
  exec_with ltac:(idtac; first
    [ call_status_tracked | call_adapt_tracked (n + 1) H ]).
  all: try lia.
  all: try match goal with
           | HS : V14.same_session ?a ?b, HT : tracked14 _ _ _ (World ?a _ _)
             |- tracked14 _ _ _ (World (V14.set_first_run false ?b) _ _) =>
               exact (tracked14_after_status _ a b _ _ _ _ HT HS)
           | HS : V14.same_session ?a ?b
             |- tracked14 _ _ _ (World (V14.set_first_run false ?b) _ _) =>
               refine (tracked14_after_status _ a b [] _ [] _ _ HS);
               exact Hc
           end.
  exact Hc.
Qed.

Lemma tracked14_close_last (s : V14.stream_info) (st : elements)
    (out out' : list event) (o o' : list Z) :
  1 <= N -> tracked14 info B 1 (World s out o) ->
  tracked14 info B 0
    (World (V14.set_stream st
              (V14.set_connected false
                 (V14.set_num_cli (CInt.sub (V14.num_cli s) 1) s)))
       out' o').
Proof.
  intros HN (T1 & T2 & T3 & T4 & T5 & T6 & T7 & T8 & T9).
  cbn [w_si] in *. unfold tracked14. cbn.
  split; [unfold CInt.sub; rewrite T1; apply wrap_small; lia|].
  split; [reflexivity|].
  repeat (split; [assumption|]). exact T9.
Qed.

Lemma tracked14_close_more (n : Z) (s : V14.stream_info)
    (out out' : list event) (o o' : list Z) :
  2 <= n <= N -> tracked14 info B n (World s out o) ->
  tracked14 info B (n - 1)
    (World (V14.set_num_cli (CInt.sub (V14.num_cli s) 1) s) out' o').
Proof.
  intros Hn (T1 & T2 & T3 & T4 & T5 & T6 & T7 & T8 & T9).
  cbn [w_si] in *. unfold tracked14. cbn.
  split; [unfold CInt.sub; rewrite T1; apply wrap_small; lia|].
  split.
  { rewrite T2. replace (0 <? n) with true by (symmetry; apply Z.ltb_lt; lia).
    symmetry. apply Z.ltb_lt. lia. }
  repeat (split; [assumption|]). exact T9.
Qed.

Lemma client_close_handler_tracked14 (n : Z) (w : world V14.stream_info) :
  1 <= n <= N -> tracked14 info B n w ->
  total w V14.client_close_handler
    (fun _ w' => tracked14 info B (n - 1) w').
Proof.
  intros Hn H. destruct w as [s out o].
  assert (E : CInt.sub (V14.num_cli s) 1 = n - 1).
  { destruct H as (T1 & _). cbn [w_si] in T1. unfold CInt.sub. rewrite T1.
    apply wrap_small. lia. }
  unfold V14.client_close_handler.
  exec_with ltac:(idtac; first
    [ call_status_tracked | call_adapt_tracked (n - 1) H ]).
  all: try match goal with
           | Hz : (V14.num_cli _ =? 0) = true |- _ =>
               cbn in Hz; rewrite E in Hz; apply Z.eqb_eq in Hz;
               assert (n = 1) by lia; subst n; change (1 - 1) with 0 in *
           | Hz : (V14.num_cli _ =? 0) = false |- _ =>
               cbn in Hz; rewrite E in Hz; apply Z.eqb_neq in Hz
           end.
  all: try lia.
  all: try match goal with
           | HS : V14.same_session ?a ?b |- tracked14 _ _ _ (World ?b _ _) =>
               refine (same_session_tracked14 _ a b [] _ [] _ HS _);
               eapply (tracked14_close_last s _ out); [lia | exact H]
           end.
  all: try (eapply (tracked14_close_more n s out); [lia | exact H]).
  all: try assumption.
Qed.

Lemma media_configure_handler_tracked14 (n : Z) (bin : GstBin)
    (w : world V14.stream_info) :
  tracked14 info B n w ->
  total w (V14.media_configure_handler bin)
    (fun _ w' => tracked14 info B n w').
Proof.
  intros H. destruct w as [s out o]. unfold V14.media_configure_handler.
  exec; exact H.
Qed.

Lemma reader_loop_session (avail : list ascii) :
  forall (buf : list ascii) (w : world V14.stream_info),
    partial w (V14.reader_loop avail buf)
      (fun _ w' => V14.same_session (w_si w) (w_si w')).
Proof.
  induction avail as [|c rest IH]; intros buf w; cbn [V14.reader_loop].
  - apply partial_bind. apply total_partial.
    eapply total_weaken; [apply reader_flush_spec|].
    cbn beta. intros _ w1 [Hs _]. now apply partial_ret.
  - destruct (negb (Ascii.eqb c newline)).
    + destruct (256 <=? _); [apply partial_trap | apply IH].
    + apply partial_bind. apply total_partial.
      eapply total_weaken; [apply reader_flush_spec|].
      cbn beta. intros _ w1 [Hs _].
      eapply partial_weaken; [apply IH|].
      cbn beta. intros _ w2 Hs2.
      exact (same_session14_trans _ _ _ Hs Hs2).
Qed.

Lemma handle_tracked14 (n : Z) (cb : V14.callback)
    (w : world V14.stream_info) :
  0 <= n -> n + 1 <= N ->
  balanced14 n [cb] = true ->
  tracked14 info B n w ->
  partial w (V14.handle cb)
    (fun _ w' => tracked14 info B (clients_after14 n [cb]) w').
Proof.
  intros H0 H1 Hbal H. destruct cb; cbn [V14.handle clients_after14].
  - apply total_partial. now apply new_client_handler_tracked14.
  - apply total_partial. now apply media_configure_handler_tracked14.
  - cbn [balanced14] in Hbal. rewrite andb_true_r in Hbal.
    apply Z.ltb_lt in Hbal.
    apply total_partial. apply client_close_handler_tracked14; [lia|exact H].
  - apply partial_bind. eapply partial_weaken.
    + unfold V14.reader. apply reader_loop_session.
    + cbn beta. intros _ [s' out' o'] Hs. apply partial_ret.
      destruct w as [s out o]. cbn [w_si] in Hs.
      exact (same_session_tracked14 n s s' out out' o o' Hs H).
Qed.

Lemma main_loop_tracked14 (cbs : list V14.callback) :
  forall (n : Z) (w : world V14.stream_info),
    0 <= n -> n + Z.of_nat (List.length cbs) <= N ->
    balanced14 n cbs = true ->
    tracked14 info B n w ->
    partial w (V14.main_loop cbs)
      (fun _ w' => tracked14 info B (clients_after14 n cbs) w'
                   /\ 0 <= clients_after14 n cbs).
Proof.
  unfold V14.main_loop.
  induction cbs as [|cb cbs IH]; intros n w H0 H1 Hbal H; cbn [for_each].
  - apply partial_ret. now split.
  - cbn [List.length] in H1. apply partial_bind.
    eapply partial_weaken.
    + apply (handle_tracked14 n cb w H0); [lia| |exact H].
      destruct cb; cbn [balanced14] in *; try reflexivity.
      apply andb_prop in Hbal as [Hbal _]. now rewrite Hbal.
    + cbn beta. intros _ w1 H1'.
      destruct cb; cbn [clients_after14 balanced14] in *.
      * apply IH; [lia | lia | exact Hbal | exact H1'].
      * apply IH; [lia | lia | exact Hbal | exact H1'].
      * apply andb_prop in Hbal as [Hpos Hbal]. apply Z.ltb_lt in Hpos.
        apply IH; [lia | lia | exact Hbal | exact H1'].
      * apply IH; [lia | lia | exact Hbal | exact H1'].
Qed.

End Tracked14.

Lemma options_clients14 (atoi_MAX_BR : Z) (opts : list V14.option_arg)
    (info : V14.stream_info) :
  V14.num_cli (fold_left (V14.apply_option atoi_MAX_BR) opts info)
  = V14.num_cli info
  /\ V14.connected (fold_left (V14.apply_option atoi_MAX_BR) opts info)
     = V14.connected info.
Proof.
  revert info. induction opts as [|o opts IH]; intros info; [now split|].
  cbn [fold_left]. destruct (IH (V14.apply_option atoi_MAX_BR info o)) as [E1 E2].
  rewrite E1, E2. destruct o; split; reflexivity.
Qed.

Lemma configure_tracked14 (atoi_MAX_BR : Z) (opts : list V14.option_arg)
    (info : V14.stream_info) (B : Prop) (out : list event) (o : list Z) :
  V14.configure atoi_MAX_BR opts = Some info ->
  (B -> V14.min_bitrate info <= V14.max_bitrate info) ->
  tracked14 info B 0 (World info out o).
Proof.
  intros Hc HB.
  destruct (accepted14 atoi_MAX_BR opts info Hc)
    as (Q0 & Q1 & Q2 & Q3 & Q4 & Q5 & _).
  unfold V14.configure in Hc.
  destruct (V14.validate _); [|discriminate]. injection Hc as Hi.
  destruct (options_clients14 atoi_MAX_BR opts V14.default_info) as [E1 E2].
  rewrite Hi in E1, E2. cbn in E1, E2.
  unfold tracked14. cbn [w_si].
  split; [exact E1|]. split; [exact E2|].
  repeat (split; [reflexivity|]).
  split; [lia|]. intros b. specialize (HB b). lia.
Qed.

Lemma accepted14_levels (atoi_MAX_BR : Z) (opts : list V14.option_arg)
    (info : V14.stream_info) (N : Z) :
  V14.configure atoi_MAX_BR opts = Some info ->
  0 <= N <= 40000000 ->
  level_config (V14.min_quant_lvl info) (V14.max_quant_lvl info)
    (V14.steps info)
  /\ quant_fits (V14.min_quant_lvl info) (V14.max_quant_lvl info)
       (V14.steps info) N.
Proof.
  intros Hc HN.
  destruct (accepted14 atoi_MAX_BR opts info Hc)
    as (Q0 & Q1 & Q2 & Q3 & Q4 & Q5 & _).
  assert (Hl : level_config (V14.min_quant_lvl info) (V14.max_quant_lvl info)
                 (V14.steps info)).
  { unfold level_config, CInt.in_range, CInt.INT_MIN, CInt.INT_MAX. lia. }
  split; [exact Hl|].
  pose proof (step_bounds _ _ _ Q1 Q5) as Hs.
  unfold quant_fits, CInt.in_range, CInt.INT_MIN, CInt.INT_MAX.
  split; [lia | nia].
Qed.

Lemma balanced_run14 (atoi_MAX_BR : Z) (opts : list V14.option_arg)
    (info : V14.stream_info) (opens : list Z) (cbs : list V14.callback)
    (w : world V14.stream_info) :
  V14.configure atoi_MAX_BR opts = Some info ->
  balanced14 0 cbs = true ->
  Z.of_nat (List.length cbs) <= 40000000 ->
  run (V14.main_loop cbs) info opens = Ok (tt, w) ->
  V14.num_cli (w_si w) = clients_after14 0 cbs
  /\ 0 <= V14.num_cli (w_si w)
  /\ V14.connected (w_si w) = (0 <? V14.num_cli (w_si w))
  /\ V14.min_quant_lvl info <= V14.curr_quant_lvl (w_si w)
                            <= V14.max_quant_lvl info
  /\ (level_config (V14.min_bitrate info) (V14.max_bitrate info)
        (V14.steps info) ->
      bitrate_fits (V14.min_bitrate info) (V14.max_bitrate info)
        (V14.steps info) (Z.of_nat (List.length cbs)) ->
      V14.min_bitrate info <= V14.curr_bitrate (w_si w)
                           <= V14.max_bitrate info).
Proof.
  intros Hc Hbal Hlen Hrun.
  set (N := Z.of_nat (List.length cbs)).
  set (B := level_config (V14.min_bitrate info) (V14.max_bitrate info)
              (V14.steps info)
            /\ bitrate_fits (V14.min_bitrate info) (V14.max_bitrate info)
                 (V14.steps info) N).
  destruct (accepted14_levels atoi_MAX_BR opts info N Hc ltac:(lia))
    as [Hq Hqf].
  assert (H0 : tracked14 info B 0 (World info [] opens)).
  { apply (configure_tracked14 atoi_MAX_BR opts); [exact Hc|].
    intros [(_ & _ & Hle & _) _]. exact Hle. }
  destruct (main_loop_tracked14 info B N Hq Hqf
              (fun b => proj1 b) (fun b => proj2 b)
              cbs 0 (World info [] opens) ltac:(lia) ltac:(lia) Hbal H0
              tt w Hrun)
    as [(T1 & T2 & _ & _ & _ & _ & _ & T8 & T9) Hpos].
  rewrite T1. split; [reflexivity|]. split; [exact Hpos|].
  split; [exact T2|]. split; [exact T8|].
  intros Hl Hf. apply T9. now split.
Qed.

Section Tracked15.

Variable info : V15.StreamInfo.
Variable B : Prop.
Variable N : Z.

Hypothesis Hq : level_config (V15.minQuantLevel info) (V15.maxQuantLevel info)
                  (V15.steps info).
Hypothesis Hqf : quant_fits (V15.minQuantLevel info) (V15.maxQuantLevel info)
                   (V15.steps info) N.
Hypothesis Hb : B -> level_config (V15.minBitrate info) (V15.maxBitrate info)
                       (V15.steps info).
Hypothesis Hbf : B -> bitrate_fits (V15.minBitrate info)
                        (V15.maxBitrate info) (V15.steps info) N.

Lemma same_session_tracked15 (n : Z) (s s' : V15.StreamInfo)
    (out out' : list event) (o o' : list Z) :
  V15.same_session s s' ->
  tracked15 info B n (World s out o) -> tracked15 info B n (World s' out' o').
Proof.
  unfold V15.same_session, V15.session_of, tracked15. destruct s, s'. cbn.
  intros Hf. injection Hf; intros; subst; assumption.
Qed.

Lemma changeQuant_tracked15 (n : Z) (w : world V15.StreamInfo) :
  1 <= n <= N -> tracked15 info B n w ->
  total w V15.changeQuant (fun _ w' => tracked15 info B n w').
Proof.
  intros Hn H. pose proof H as (T1 & T2 & T3 & T4 & T5 & T6 & T7 & T8 & T9).
  pose proof Hq as (_ & _ & _ & Hst & _).
  destruct (encoder (V15.stream (w_si w))) as [enc|] eqn:He;
    [destruct (Z_lt_le_dec 0 (V15.maxQuantLevel (w_si w))) as [Hpos|Hpos]|].
  - assert (Hs : V15.quantStep (w_si w)
                 = Some (Z.quot (V15.maxQuantLevel info - V15.minQuantLevel info)
                           (V15.steps info))).
    { unfold V15.quantStep. rewrite T3, T4, T5, (sub_exact _ _ _ Hq).
      now apply div_some. }
    pose proof (changeQuant_run w enc _ He Hpos Hs) as Hrun. cbv zeta in Hrun.
    eexists; eexists. split; [exact Hrun|].
    rewrite T1, T4, T5.
    destruct (quant_levels_ordered _ _ _ n n Hq ltac:(lia)
                (quant_fits_le _ _ _ n N Hq Hn Hqf)) as (L1 & _ & L2).
    unfold tracked15. cbn. repeat (split; [assumption|]).
    split; [split; assumption | exact T9].
  - eexists; eexists. split; [apply changeQuant_idle; now right|]. exact H.
  - eexists; eexists. split; [apply changeQuant_idle; now left|]. exact H.
Qed.

Lemma changeBitrate_tracked15 (n : Z) (w : world V15.StreamInfo) :
  1 <= n <= N -> tracked15 info B n w ->
  total w V15.changeBitrate (fun _ w' => tracked15 info B n w').
Proof.
  intros Hn H. pose proof H as (T1 & T2 & T3 & T4 & T5 & T6 & T7 & T8 & T9).
  pose proof Hq as (_ & _ & _ & Hst & _).
  destruct (encoder (V15.stream (w_si w))) as [enc|] eqn:He.
  - assert (Hs : V15.bitrateStep (w_si w)
                 = Some (Z.quot (CInt.sub (V15.maxBitrate info)
                                   (V15.minBitrate info))
                           (V15.steps info))).
    { unfold V15.bitrateStep. rewrite T3, T6, T7. now apply div_some. }
    pose proof (changeBitrate_run w enc _ He Hs) as Hrun. cbv zeta in Hrun.
    eexists; eexists. split; [exact Hrun|].
    rewrite T1, T6, T7.
    unfold tracked15. cbn. repeat (split; [assumption|]).
    intros HB. rewrite (sub_exact _ _ _ (Hb HB)).
    destruct (bitrate_levels_ordered _ _ _ n n (Hb HB) ltac:(lia)
                (bitrate_fits_le _ _ _ n N (Hb HB) Hn (Hbf HB)))
      as (L1 & _ & L2).
    right. split; assumption.
  - eexists; eexists. split; [now apply changeBitrate_unbound|]. exact H.
Qed.

Lemma adaptQuality_tracked15 (n : Z) (w : world V15.StreamInfo) :
  1 <= n <= N -> tracked15 info B n w ->
  total w V15.adaptQuality (fun _ w' => tracked15 info B n w').
Proof.
  intros Hn H. unfold V15.adaptQuality. apply total_bind, total_get.
  destruct (V15.enableVariableMode (w_si w)); [|now apply total_ret].
  destruct (negb (V15.maxBitrate (w_si w) =? 0)).
  - now apply changeBitrate_tracked15.
  - now apply changeQuant_tracked15.
Qed.

Lemma wrap_small15 (z : Z) : 0 <= z <= N -> CInt.wrap z = z.
Proof.
  intros H. apply wrap_id. destruct Hqf as [Hr _].
  unfold CInt.in_range, CInt.INT_MIN, CInt.INT_MAX in *. lia.
Qed.

Ltac call_adapt_tracked15 n H :=
  lazymatch goal with
  | |- total _ V15.adaptQuality _ =>
      eapply total_weaken;
      [ apply (adaptQuality_tracked15 n)
      | cbn beta; let w1 := fresh "w" in let H1 := fresh "HT" in
        intros _ w1 H1;
        let s := fresh "s" in let out := fresh "out" in let o := fresh "o" in
        destruct w1 as [s out o]; cbn [w_si w_out w_open] in * ]
  end.

Ltac call_status_tracked15 :=
  lazymatch goal with
  | |- total _ (V15._doCommandSendStatus _ _) _ =>
      eapply total_weaken;
      [ apply _doCommandSendStatus_spec
      | cbn beta; let w1 := fresh "w" in let H1 := fresh "HS" in
        intros _ w1 [H1 _];
        let s := fresh "s" in let out := fresh "out" in let o := fresh "o" in
        destruct w1 as [s out o]; cbn [w_si w_out w_open] in * ]
  end.

Lemma tracked15_after_status (n : Z) (a b : V15.StreamInfo)
    (out out' : list event) (o o' : list Z) :
  tracked15 info B n (World a out o) -> V15.same_session a b ->
  tracked15 info B n (World (V15.set_first_run false b) out' o').
Proof.
  intros H Hs. apply (same_session_tracked15 n a b out out o o Hs) in H.
  exact H.
Qed.

Lemma tracked15_connect (n : Z) (s : V15.StreamInfo)
    (out out' : list event) (o o' : list Z) :
  0 <= n -> n + 1 <= N -> tracked15 info B n (World s out o) ->
  tracked15 info B (n + 1)
    (World (V15.set_connected true
              (V15.set_numConnectedClients (CInt.add (V15.numConnectedClients s) 1) s)) out' o').
Proof.
  intros H0 H1 (T1 & T2 & T3 & T4 & T5 & T6 & T7 & T8 & T9).
  cbn [w_si] in *. unfold tracked15. cbn.
  split; [unfold CInt.add; rewrite T1; apply wrap_small15; lia|].
  split; [symmetry; apply Z.ltb_lt; lia|].
  repeat (split; [assumption|]). exact T9.
Qed.

Lemma newClientHandler_tracked15 (n : Z) (fresh : elements)
    (w : world V15.StreamInfo) :
  0 <= n -> n + 1 <= N -> tracked15 info B n w ->
  total w (V15.newClientHandler fresh)
    (fun _ w' => tracked15 info B (n + 1) w').
Proof.
  intros H0 H1 H. destruct w as [s out o].
  pose proof (tracked15_connect n s out [] o [] H0 H1 H) as Hc.
  unfold V15.newClientHandler.
  exec_with ltac:(idtac; first
    [ call_status_tracked15 | call_adapt_tracked15 (n + 1) H ]).
  all: try lia.
  all: try match goal with
           | HS : V15.same_session ?a ?b, HT : tracked15 _ _ _ (World ?a _ _)
             |- tracked15 _ _ _ (World (V15.set_first_run false ?b) _ _) =>
               exact (tracked15_after_status _ a b _ _ _ _ HT HS)
           | HS : V15.same_session ?a ?b
             |- tracked15 _ _ _ (World (V15.set_first_run false ?b) _ _) =>
               refine (tracked15_after_status _ a b [] _ [] _ _ HS);
               exact Hc
           end.
  exact Hc.
Qed.

Lemma tracked15_close_last (s : V15.StreamInfo) (st : elements)
    (out out' : list event) (o o' : list Z) :
  1 <= N -> tracked15 info B 1 (World s out o) ->
  tracked15 info B 0
    (World (V15.set_stream st
              (V15.set_connected false
                 (V15.set_numConnectedClients (CInt.sub (V15.numConnectedClients s) 1) s)))
       out' o').
Proof.
  intros HN (T1 & T2 & T3 & T4 & T5 & T6 & T7 & T8 & T9).
  cbn [w_si] in *. unfold tracked15. cbn.
  split; [unfold CInt.sub; rewrite T1; apply wrap_small15; lia|].
  split; [reflexivity|].
  repeat (split; [assumption|]). exact T9.
Qed.

Lemma tracked15_close_more (n : Z) (s : V15.StreamInfo)
    (out out' : list event) (o o' : list Z) :
  2 <= n <= N -> tracked15 info B n (World s out o) ->
  tracked15 info B (n - 1)
    (World (V15.set_numConnectedClients (CInt.sub (V15.numConnectedClients s) 1) s) out' o').
Proof.
  intros Hn (T1 & T2 & T3 & T4 & T5 & T6 & T7 & T8 & T9).
  cbn [w_si] in *. unfold tracked15. cbn.
  split; [unfold CInt.sub; rewrite T1; apply wrap_small15; lia|].
  split.
  { rewrite T2. replace (0 <? n) with true by (symmetry; apply Z.ltb_lt; lia).
    symmetry. apply Z.ltb_lt. lia. }
  repeat (split; [assumption|]). exact T9.
Qed.

Lemma clientCloseHandler_tracked15 (n : Z) (w : world V15.StreamInfo) :
  1 <= n <= N -> tracked15 info B n w ->
  total w V15.clientCloseHandler
    (fun _ w' => tracked15 info B (n - 1) w').
Proof.
  intros Hn H. destruct w as [s out o].
  assert (E : CInt.sub (V15.numConnectedClients s) 1 = n - 1).
  { destruct H as (T1 & _). cbn [w_si] in T1. unfold CInt.sub. rewrite T1.
    apply wrap_small15. lia. }
  unfold V15.clientCloseHandler.
  exec_with ltac:(idtac; first
    [ call_status_tracked15 | call_adapt_tracked15 (n - 1) H ]).
  all: try match goal with
           | Hz : (V15.numConnectedClients _ =? 0) = true |- _ =>
               cbn in Hz; rewrite E in Hz; apply Z.eqb_eq in Hz;
               assert (n = 1) by lia; subst n; change (1 - 1) with 0 in *
           | Hz : (V15.numConnectedClients _ =? 0) = false |- _ =>
               cbn in Hz; rewrite E in Hz; apply Z.eqb_neq in Hz
           end.
  all: try lia.
  all: try match goal with
           | HS : V15.same_session ?a ?b |- tracked15 _ _ _ (World ?b _ _) =>
               refine (same_session_tracked15 _ a b [] _ [] _ HS _);
               eapply (tracked15_close_last s _ out); [lia | exact H]
           end.
  all: try (eapply (tracked15_close_more n s out); [lia | exact H]).
  all: try assumption.
Qed.

Lemma mediaConfigureHandler_tracked15 (n : Z) (bin : GstBin)
    (w : world V15.StreamInfo) :
  tracked15 info B n w ->
  total w (V15.mediaConfigureHandler bin)
    (fun _ w' => tracked15 info B n w').
Proof.
  intros H. destruct w as [s out o]. unfold V15.mediaConfigureHandler.
  exec; exact H.
Qed.

Lemma readerLoop_session (avail : list ascii) :
  forall (buf : list ascii) (w : world V15.StreamInfo),
    partial w (V15.readerLoop avail buf)
      (fun _ w' => V15.same_session (w_si w) (w_si w')).
Proof.
  induction avail as [|c rest IH]; intros buf w; cbn [V15.readerLoop].
  - apply partial_bind. apply total_partial.
    eapply total_weaken; [apply readerFlush_spec|].
    cbn beta. intros _ w1 [Hs _]. now apply partial_ret.
  - destruct (negb (Ascii.eqb c newline)).
    + destruct (256 <=? _); [apply partial_trap | apply IH].
    + apply partial_bind. apply total_partial.
      eapply total_weaken; [apply readerFlush_spec|].
      cbn beta. intros _ w1 [Hs _].
      eapply partial_weaken; [apply IH|].
      cbn beta. intros _ w2 Hs2.
      exact (same_session15_trans _ _ _ Hs Hs2).
Qed.

Lemma handle_tracked15 (n : Z) (cb : V15.callback)
    (w : world V15.StreamInfo) :
  0 <= n -> n + 1 <= N ->
  balanced15 n [cb] = true ->
  tracked15 info B n w ->
  partial w (V15.handle cb)
    (fun _ w' => tracked15 info B (clients_after15 n [cb]) w').
Proof.
  intros H0 H1 Hbal H. destruct cb; cbn [V15.handle clients_after15].
  - apply total_partial. now apply newClientHandler_tracked15.
  - apply total_partial. now apply mediaConfigureHandler_tracked15.
  - cbn [balanced15] in Hbal. rewrite andb_true_r in Hbal.
    apply Z.ltb_lt in Hbal.
    apply total_partial. apply clientCloseHandler_tracked15; [lia|exact H].
  - apply partial_bind. eapply partial_weaken.
    + unfold V15.reader. apply readerLoop_session.
    + cbn beta. intros _ [s' out' o'] Hs. apply partial_ret.
      destruct w as [s out o]. cbn [w_si] in Hs.
      exact (same_session_tracked15 n s s' out out' o o' Hs H).
Qed.

Lemma main_loop_tracked15 (cbs : list V15.callback) :
  forall (n : Z) (w : world V15.StreamInfo),
    0 <= n -> n + Z.of_nat (List.length cbs) <= N ->
    balanced15 n cbs = true ->
    tracked15 info B n w ->
    partial w (V15.main_loop cbs)
      (fun _ w' => tracked15 info B (clients_after15 n cbs) w'
                   /\ 0 <= clients_after15 n cbs).
Proof.
  unfold V15.main_loop.
  induction cbs as [|cb cbs IH]; intros n w H0 H1 Hbal H; cbn [for_each].
  - apply partial_ret. now split.
  - cbn [List.length] in H1. apply partial_bind.
    eapply partial_weaken.
    + apply (handle_tracked15 n cb w H0); [lia| |exact H].
      destruct cb; cbn [balanced15] in *; try reflexivity.
      apply andb_prop in Hbal as [Hbal _]. now rewrite Hbal.
    + cbn beta. intros _ w1 H1'.
      destruct cb; cbn [clients_after15 balanced15] in *.
      * apply IH; [lia | lia | exact Hbal | exact H1'].
      * apply IH; [lia | lia | exact Hbal | exact H1'].
      * apply andb_prop in Hbal as [Hpos Hbal]. apply Z.ltb_lt in Hpos.
        apply IH; [lia | lia | exact Hbal | exact H1'].
      * apply IH; [lia | lia | exact Hbal | exact H1'].
Qed.

End Tracked15.

Lemma options_clients15 (atoi_MAX_BR : Z) (opts : list V15.option_arg)
    (info : V15.StreamInfo) :
  V15.numConnectedClients (fold_left (V15.apply_option atoi_MAX_BR) opts info)
  = V15.numConnectedClients info
  /\ V15.connected (fold_left (V15.apply_option atoi_MAX_BR) opts info)
     = V15.connected info.
Proof.
  revert info. induction opts as [|o opts IH]; intros info; [now split|].
  cbn [fold_left]. destruct (IH (V15.apply_option atoi_MAX_BR info o)) as [E1 E2].
  rewrite E1, E2. destruct o; split; reflexivity.
Qed.

Lemma configure_tracked15 (atoi_MAX_BR : Z) (opts : list V15.option_arg)
    (info : V15.StreamInfo) (B : Prop) (out : list event) (o : list Z) :
  V15.configure atoi_MAX_BR opts = Some info ->
  tracked15 info B 0 (World info out o).
Proof.
  intros Hc.
  destruct (accepted15 atoi_MAX_BR opts info Hc)
    as (Q0 & Q1 & Q2 & Q3 & Q4 & Q5 & _).
  unfold V15.configure in Hc.
  destruct (V15.validate _); [|discriminate]. injection Hc as Hi.
  destruct (options_clients15 atoi_MAX_BR opts V15.default_info) as [E1 E2].
  assert (F1 : V15.numConnectedClients info = 0).
  { rewrite <- Hi. unfold V15.cap_bitrate. destruct (_ <? _); cbn; exact E1. }
  assert (F2 : V15.connected info = false).
  { rewrite <- Hi. unfold V15.cap_bitrate. destruct (_ <? _); cbn; exact E2. }
  unfold tracked15. cbn [w_si].
  split; [exact F1|]. split; [exact F2|].
  repeat (split; [reflexivity|]).
  split; [lia|]. intros _. now left.
Qed.

Lemma accepted15_levels (atoi_MAX_BR : Z) (opts : list V15.option_arg)
    (info : V15.StreamInfo) (N : Z) :
  V15.configure atoi_MAX_BR opts = Some info ->
  0 <= N <= 40000000 ->
  level_config (V15.minQuantLevel info) (V15.maxQuantLevel info)
    (V15.steps info)
  /\ quant_fits (V15.minQuantLevel info) (V15.maxQuantLevel info)
       (V15.steps info) N.
Proof.
  intros Hc HN.
  destruct (accepted15 atoi_MAX_BR opts info Hc)
    as (Q0 & Q1 & Q2 & Q3 & Q4 & Q5 & _).
  assert (Hl : level_config (V15.minQuantLevel info) (V15.maxQuantLevel info)
                 (V15.steps info)).
  { unfold level_config, CInt.in_range, CInt.INT_MIN, CInt.INT_MAX. lia. }
  split; [exact Hl|].
  pose proof (step_bounds _ _ _ Q1 Q5) as Hs.
  unfold quant_fits, CInt.in_range, CInt.INT_MIN, CInt.INT_MAX.
  split; [lia | nia].
Qed.

Lemma balanced_run15 (atoi_MAX_BR : Z) (opts : list V15.option_arg)
    (info : V15.StreamInfo) (opens : list Z) (cbs : list V15.callback)
    (w : world V15.StreamInfo) :
  V15.configure atoi_MAX_BR opts = Some info ->
  balanced15 0 cbs = true ->
  Z.of_nat (List.length cbs) <= 40000000 ->
  run (V15.main_loop cbs) info opens = Ok (tt, w) ->
  V15.numConnectedClients (w_si w) = clients_after15 0 cbs
  /\ 0 <= V15.numConnectedClients (w_si w)
  /\ V15.connected (w_si w) = (0 <? V15.numConnectedClients (w_si w))
  /\ V15.minQuantLevel info <= V15.currentQuantLevel (w_si w)
                            <= V15.maxQuantLevel info
  /\ (level_config (V15.minBitrate info) (V15.maxBitrate info)
        (V15.steps info) ->
      bitrate_fits (V15.minBitrate info) (V15.maxBitrate info)
        (V15.steps info) (Z.of_nat (List.length cbs)) ->
      V15.currentBitrate (w_si w) = V15.capBitrate info
      \/ V15.minBitrate info <= V15.currentBitrate (w_si w)
                             <= V15.maxBitrate info).
Proof.
  intros Hc Hbal Hlen Hrun.
  set (N := Z.of_nat (List.length cbs)).
  set (B := level_config (V15.minBitrate info) (V15.maxBitrate info)
              (V15.steps info)
            /\ bitrate_fits (V15.minBitrate info) (V15.maxBitrate info)
                 (V15.steps info) N).
  destruct (accepted15_levels atoi_MAX_BR opts info N Hc ltac:(lia))
    as [Hq Hqf].
  destruct (accepted15 atoi_MAX_BR opts info Hc)
    as (_ & _ & _ & _ & _ & _ & _ & Hcap & _).
  pose proof (configure_tracked15 atoi_MAX_BR opts info B [] opens Hc) as H0.
  destruct (main_loop_tracked15 info B N Hq Hqf
              (fun b => proj1 b) (fun b => proj2 b)
              cbs 0 (World info [] opens) ltac:(lia) ltac:(lia) Hbal H0
              tt w Hrun)
    as [(T1 & T2 & _ & _ & _ & _ & _ & T8 & T9) Hpos].
  rewrite T1. split; [reflexivity|]. split; [exact Hpos|].
  split; [exact T2|]. split; [exact T8|].
  intros Hl Hf. rewrite <- Hcap. apply T9. now split.
Qed.

(** X10.  From a configuration that [main] accepts, after a history of at
    most 40 million callbacks in which no client leaves that did not connect:
    the client count is the number of connections less the number of closes
    and is not negative; the session is marked connected exactly when the
    count is positive; the current quant level lies within the configured
    bounds; and, where the bitrate bounds are ordered and the bitrate
    computation fits [gint] for as many clients as the history is long, the
    current bitrate lies within the configured bounds (in version 1.5, unless
    it is still the cap it started at). *)
Theorem balanced_runs :
  (forall (atoi_MAX_BR : Z) (opts : list V14.option_arg)
          (info : V14.stream_info) (opens : list Z)
          (cbs : list V14.callback) (w : world V14.stream_info),
      V14.configure atoi_MAX_BR opts = Some info ->
      balanced14 0 cbs = true ->
      Z.of_nat (List.length cbs) <= 40000000 ->
      run (V14.main_loop cbs) info opens = Ok (tt, w) ->
      V14.num_cli (w_si w) = clients_after14 0 cbs
      /\ 0 <= V14.num_cli (w_si w)
      /\ V14.connected (w_si w) = (0 <? V14.num_cli (w_si w))
      /\ V14.min_quant_lvl info <= V14.curr_quant_lvl (w_si w)
                                <= V14.max_quant_lvl info
      /\ (level_config (V14.min_bitrate info) (V14.max_bitrate info)
            (V14.steps info) ->
          bitrate_fits (V14.min_bitrate info) (V14.max_bitrate info)
            (V14.steps info) (Z.of_nat (List.length cbs)) ->
          V14.min_bitrate info <= V14.curr_bitrate (w_si w)
                               <= V14.max_bitrate info))
  /\ (forall (atoi_MAX_BR : Z) (opts : list V15.option_arg)
             (info : V15.StreamInfo) (opens : list Z)
             (cbs : list V15.callback) (w : world V15.StreamInfo),
      V15.configure atoi_MAX_BR opts = Some info ->
      balanced15 0 cbs = true ->
      Z.of_nat (List.length cbs) <= 40000000 ->
      run (V15.main_loop cbs) info opens = Ok (tt, w) ->
      V15.numConnectedClients (w_si w) = clients_after15 0 cbs
      /\ 0 <= V15.numConnectedClients (w_si w)
      /\ V15.connected (w_si w) = (0 <? V15.numConnectedClients (w_si w))
      /\ V15.minQuantLevel info <= V15.currentQuantLevel (w_si w)
                                <= V15.maxQuantLevel info
      /\ (level_config (V15.minBitrate info) (V15.maxBitrate info)
            (V15.steps info) ->
          bitrate_fits (V15.minBitrate info) (V15.maxBitrate info)
            (V15.steps info) (Z.of_nat (List.length cbs)) ->
          V15.currentBitrate (w_si w) = V15.capBitrate info
          \/ V15.minBitrate info <= V15.currentBitrate (w_si w)
                                 <= V15.maxBitrate info)).
Proof.
  split.
  - intros atoi_MAX_BR opts info opens cbs w.
    apply (balanced_run14 atoi_MAX_BR opts).
  - intros atoi_MAX_BR opts info opens cbs w.
    apply (balanced_run15 atoi_MAX_BR opts).
Qed.

(** X10 on the default configuration of version 1.4: three clients connect
    to the default pipeline and one leaves. *)
Lemma balanced_runs_witness :
  exists w,
    run (V14.main_loop
           [V14.client_connected no_elements;
            V14.media_configure static_pipeline;
            V14.client_connected no_elements;
            V14.client_connected no_elements;
            V14.client_closed])
      V14.default_info [] = Ok (tt, w)
    /\ V14.num_cli (w_si w) = 2
    /\ V14.connected (w_si w) = true
    /\ V14.curr_bitrate (w_si w) = 7501
    /\ 0 <= V14.curr_quant_lvl (w_si w) <= 51
    /\ 1 <= V14.curr_bitrate (w_si w) <= 10000.
Proof.
  eexists. split; [vm_compute; reflexivity|].
  split; [reflexivity|]. split; [reflexivity|]. split; [reflexivity|].
  pose proof (fun w =>
                proj1 balanced_runs 2147483647 [] V14.default_info []
                  [V14.client_connected no_elements;
                   V14.media_configure static_pipeline;
                   V14.client_connected no_elements;
                   V14.client_connected no_elements;
                   V14.client_closed] w eq_refl eq_refl
                  ltac:(vm_compute; discriminate)) as Hall.
  match goal with
  | |- context [V14.curr_quant_lvl (w_si ?w)] => specialize (Hall w)
  end.
  destruct (Hall ltac:(vm_compute; reflexivity)) as (_ & _ & _ & Hq & Hb).
  split; [exact Hq|]. apply Hb.
  - unfold level_config, CInt.in_range, CInt.INT_MIN, CInt.INT_MAX.
    vm_compute. repeat split; discriminate.
  - unfold bitrate_fits, CInt.in_range, CInt.INT_MIN, CInt.INT_MAX.
    vm_compute. repeat split; discriminate.
Defined.

(** ** Division by zero *)

Lemma settings14_set (s : V14.stream_info) :
  (forall x, settings14 (V14.set_num_cli x s) = settings14 s)
  /\ (forall x, settings14 (V14.set_connected x s) = settings14 s)
  /\ (forall x, settings14 (V14.set_stream x s) = settings14 s)
  /\ (forall x, settings14 (V14.set_first_run x s) = settings14 s)
  /\ (forall x, settings14 (V14.set_curr_quant_lvl x s) = settings14 s)
  /\ (forall x, settings14 (V14.set_curr_bitrate x s) = settings14 s).
Proof. repeat split. Qed.

Ltac settings14_close :=
  cbn [w_si] in *;
  repeat match goal with
         | HS : V14.same_session _ _ |- _ =>
             apply same_session_settings14 in HS
         end;
  repeat match goal with
         | H : context [settings14 (V14.set_num_cli ?x ?s)] |- _ =>
             change (settings14 (V14.set_num_cli x s)) with (settings14 s) in H
         | H : context [settings14 (V14.set_connected ?x ?s)] |- _ =>
             change (settings14 (V14.set_connected x s)) with (settings14 s) in H
         | H : context [settings14 (V14.set_stream ?x ?s)] |- _ =>
             change (settings14 (V14.set_stream x s)) with (settings14 s) in H
         | H : context [settings14 (V14.set_first_run ?x ?s)] |- _ =>
             change (settings14 (V14.set_first_run x s)) with (settings14 s) in H
         | |- context [settings14 (V14.set_num_cli ?x ?s)] =>
             change (settings14 (V14.set_num_cli x s)) with (settings14 s)
         | |- context [settings14 (V14.set_connected ?x ?s)] =>
             change (settings14 (V14.set_connected x s)) with (settings14 s)
         | |- context [settings14 (V14.set_stream ?x ?s)] =>
             change (settings14 (V14.set_stream x s)) with (settings14 s)
         | |- context [settings14 (V14.set_first_run ?x ?s)] =>
             change (settings14 (V14.set_first_run x s)) with (settings14 s)
         | |- context [settings14 (V14.set_curr_quant_lvl ?x ?s)] =>
             change (settings14 (V14.set_curr_quant_lvl x s)) with (settings14 s)
         | |- context [settings14 (V14.set_curr_bitrate ?x ?s)] =>
             change (settings14 (V14.set_curr_bitrate x s)) with (settings14 s)
         end;
  congruence.

Lemma settings14_steps (s s' : V14.stream_info) :
  settings14 s = settings14 s' -> V14.steps s = V14.steps s'.
Proof. intros H. apply (f_equal V14.steps) in H. exact H. Qed.

Lemma adapt_quality_returns (info : V14.stream_info)
    (w : world V14.stream_info) :
  1 <= V14.steps info -> settings14 (w_si w) = settings14 info ->
  total w V14.adapt_quality
    (fun _ w' => settings14 (w_si w') = settings14 info).
Proof.
  intros Hst H. destruct w as [s out o]. cbn [w_si] in *.
  assert (Hs : 1 <= V14.steps s) by (now rewrite (settings14_steps _ _ H)).
  unfold V14.adapt_quality, V14.change_bitrate, V14.change_quant,
    V14.bitrate_step, V14.quant_step.
  exec.
  all: try (unfold lift_div; rewrite (div_some _ _ Hs); exec).
  all: settings14_close.
Qed.

Ltac call_returns14 info Hst H :=
  first
    [ lazymatch goal with
      | |- total _ V14.adapt_quality _ =>
          eapply total_weaken;
          [ apply (adapt_quality_returns info); [exact Hst | settings14_close]
          | cbn beta; let w1 := fresh "w" in let H1 := fresh "HA" in
            intros _ w1 H1;
            let s := fresh "s" in let out := fresh "out" in let o := fresh "o" in
            destruct w1 as [s out o]; cbn [w_si w_out w_open] in * ]
      end
    | lazymatch goal with
      | |- total _ (V14._do_command_status _ _) _ =>
          eapply total_weaken;
          [ apply _do_command_status_spec
          | cbn beta; let w1 := fresh "w" in let H1 := fresh "HS" in
            intros _ w1 [H1 _];
            let s := fresh "s" in let out := fresh "out" in let o := fresh "o" in
            destruct w1 as [s out o]; cbn [w_si w_out w_open] in * ]
      end ].

Lemma handle_returns14 (info : V14.stream_info) (cb : V14.callback)
    (w : world V14.stream_info) :
  1 <= V14.steps info -> settings14 (w_si w) = settings14 info ->
  poll_fits14 cb ->
  total w (V14.handle cb)
    (fun _ w' => settings14 (w_si w') = settings14 info).
Proof.
  intros Hst H Hp. destruct w as [s out o]. cbn [w_si] in *.
  destruct cb; cbn [V14.handle poll_fits14] in *.
  - unfold V14.new_client_handler.
    exec_with ltac:(idtac; call_returns14 info Hst H); settings14_close.
  - unfold V14.media_configure_handler. exec; settings14_close.
  - unfold V14.client_close_handler.
    exec_with ltac:(idtac; call_returns14 info Hst H); settings14_close.
  - apply total_bind. eapply total_weaken; [now apply reader_spec|].
    cbn beta. intros r [s' out' o'] (_ & Hs & _). apply total_ret.
    settings14_close.
Qed.

Lemma settings15_set (s : V15.StreamInfo) :
  (forall x, settings15 (V15.set_numConnectedClients x s) = settings15 s)
  /\ (forall x, settings15 (V15.set_connected x s) = settings15 s)
  /\ (forall x, settings15 (V15.set_stream x s) = settings15 s)
  /\ (forall x, settings15 (V15.set_first_run x s) = settings15 s)
  /\ (forall x, settings15 (V15.set_currentQuantLevel x s) = settings15 s)
  /\ (forall x, settings15 (V15.set_currentBitrate x s) = settings15 s).
Proof. repeat split. Qed.

Ltac settings15_close :=
  cbn [w_si] in *;
  repeat match goal with
         | HS : V15.same_session _ _ |- _ =>
             apply same_session_settings15 in HS
         end;
  repeat match goal with
         | H : context [settings15 (V15.set_numConnectedClients ?x ?s)] |- _ =>
             change (settings15 (V15.set_numConnectedClients x s)) with (settings15 s) in H
         | H : context [settings15 (V15.set_connected ?x ?s)] |- _ =>
             change (settings15 (V15.set_connected x s)) with (settings15 s) in H
         | H : context [settings15 (V15.set_stream ?x ?s)] |- _ =>
             change (settings15 (V15.set_stream x s)) with (settings15 s) in H
         | H : context [settings15 (V15.set_first_run ?x ?s)] |- _ =>
             change (settings15 (V15.set_first_run x s)) with (settings15 s) in H
         | |- context [settings15 (V15.set_numConnectedClients ?x ?s)] =>
             change (settings15 (V15.set_numConnectedClients x s)) with (settings15 s)
         | |- context [settings15 (V15.set_connected ?x ?s)] =>
             change (settings15 (V15.set_connected x s)) with (settings15 s)
         | |- context [settings15 (V15.set_stream ?x ?s)] =>
             change (settings15 (V15.set_stream x s)) with (settings15 s)
         | |- context [settings15 (V15.set_first_run ?x ?s)] =>
             change (settings15 (V15.set_first_run x s)) with (settings15 s)
         | |- context [settings15 (V15.set_currentQuantLevel ?x ?s)] =>
             change (settings15 (V15.set_currentQuantLevel x s)) with (settings15 s)
         | |- context [settings15 (V15.set_currentBitrate ?x ?s)] =>
             change (settings15 (V15.set_currentBitrate x s)) with (settings15 s)
         end;
  congruence.

Lemma settings15_steps (s s' : V15.StreamInfo) :
  settings15 s = settings15 s' -> V15.steps s = V15.steps s'.
Proof. intros H. apply (f_equal V15.steps) in H. exact H. Qed.

Lemma adaptQuality_returns (info : V15.StreamInfo)
    (w : world V15.StreamInfo) :
  1 <= V15.steps info -> settings15 (w_si w) = settings15 info ->
  total w V15.adaptQuality
    (fun _ w' => settings15 (w_si w') = settings15 info).
Proof.
  intros Hst H. destruct w as [s out o]. cbn [w_si] in *.
  assert (Hs : 1 <= V15.steps s) by (now rewrite (settings15_steps _ _ H)).
  unfold V15.adaptQuality, V15.changeBitrate, V15.changeQuant,
    V15.bitrateStep, V15.quantStep.
  exec.
  all: try (unfold lift_div; rewrite (div_some _ _ Hs); exec).
  all: settings15_close.
Qed.

Ltac call_returns15 info Hst H :=
  first
    [ lazymatch goal with
      | |- total _ V15.adaptQuality _ =>
          eapply total_weaken;
          [ apply (adaptQuality_returns info); [exact Hst | settings15_close]
          | cbn beta; let w1 := fresh "w" in let H1 := fresh "HA" in
            intros _ w1 H1;
            let s := fresh "s" in let out := fresh "out" in let o := fresh "o" in
            destruct w1 as [s out o]; cbn [w_si w_out w_open] in * ]
      end
    | lazymatch goal with
      | |- total _ (V15._doCommandSendStatus _ _) _ =>
          eapply total_weaken;
          [ apply _doCommandSendStatus_spec
          | cbn beta; let w1 := fresh "w" in let H1 := fresh "HS" in
            intros _ w1 [H1 _];
            let s := fresh "s" in let out := fresh "out" in let o := fresh "o" in
            destruct w1 as [s out o]; cbn [w_si w_out w_open] in * ]
      end ].

Lemma handle_returns15 (info : V15.StreamInfo) (cb : V15.callback)
    (w : world V15.StreamInfo) :
  1 <= V15.steps info -> settings15 (w_si w) = settings15 info ->
  poll_fits15 cb ->
  total w (V15.handle cb)
    (fun _ w' => settings15 (w_si w') = settings15 info).
Proof.
  intros Hst H Hp. destruct w as [s out o]. cbn [w_si] in *.
  destruct cb; cbn [V15.handle poll_fits15] in *.
  - unfold V15.newClientHandler.
    exec_with ltac:(idtac; call_returns15 info Hst H); settings15_close.
  - unfold V15.mediaConfigureHandler. exec; settings15_close.
  - unfold V15.clientCloseHandler.
    exec_with ltac:(idtac; call_returns15 info Hst H); settings15_close.
  - apply total_bind. eapply total_weaken; [now apply reader_spec15|].
    cbn beta. intros r [s' out' o'] (_ & Hs & _). apply total_ret.
    settings15_close.
Qed.

Lemma poll_fits14_dec (cb : V14.callback) :
  poll_fits14 cb
  \/ exists avail,
      cb = V14.command_poll avail
      /\ Exists (fun l => (256 < List.length l)%nat) (lines_of avail).
Proof.
  destruct cb as [fresh|bin| |avail]; try (left; exact I).
  cbn [poll_fits14].
  destruct (Forall_Exists_dec (fun l : list ascii => (List.length l <= 256)%nat)
              (fun l => Compare_dec.le_dec (List.length l) 256)
              (lines_of avail)) as [H|H].
  - now left.
  - right. exists avail. split; [reflexivity|].
    eapply Exists_impl; [|exact H]. cbn beta. intros l Hl. lia.
Qed.

Lemma main_loop_no_division14 (info : V14.stream_info)
    (cbs : list V14.callback) :
  1 <= V14.steps info ->
  forall w, settings14 (w_si w) = settings14 info ->
            V14.main_loop cbs w <> Trap DivideError.
Proof.
  intros Hst. unfold V14.main_loop.
  induction cbs as [|cb cbs IH]; intros w H; cbn [for_each].
  - discriminate.
  - unfold bind at 1.
    destruct (poll_fits14_dec cb) as [Hp|(avail & -> & Hex)].
    + destruct (handle_returns14 info cb w Hst H Hp) as ([] & w1 & -> & H1).
      now apply IH.
    + cbn [V14.handle]. unfold bind at 1.
      rewrite (reader_traps avail w Hex). discriminate.
Qed.

Lemma poll_fits15_dec (cb : V15.callback) :
  poll_fits15 cb
  \/ exists avail,
      cb = V15.command_poll avail
      /\ Exists (fun l => (256 < List.length l)%nat) (lines_of avail).
Proof.
  destruct cb as [fresh|bin| |avail]; try (left; exact I).
  cbn [poll_fits15].
  destruct (Forall_Exists_dec (fun l : list ascii => (List.length l <= 256)%nat)
              (fun l => Compare_dec.le_dec (List.length l) 256)
              (lines_of avail)) as [H|H].
  - now left.
  - right. exists avail. split; [reflexivity|].
    eapply Exists_impl; [|exact H]. cbn beta. intros l Hl. lia.
Qed.

Lemma main_loop_no_division15 (info : V15.StreamInfo)
    (cbs : list V15.callback) :
  1 <= V15.steps info ->
  forall w, settings15 (w_si w) = settings15 info ->
            V15.main_loop cbs w <> Trap DivideError.
Proof.
  intros Hst. unfold V15.main_loop.
  induction cbs as [|cb cbs IH]; intros w H; cbn [for_each].
  - discriminate.
  - unfold bind at 1.
    destruct (poll_fits15_dec cb) as [Hp|(avail & -> & Hex)].
    + destruct (handle_returns15 info cb w Hst H Hp) as ([] & w1 & -> & H1).
      now apply IH.
    + cbn [V15.handle]. unfold bind at 1.
      rewrite (reader_traps15 avail w Hex). discriminate.
Qed.

(** X11.  From a configuration that [main] accepts, no history of
    callbacks, whatever the bytes of its command polls, comes to a division
    by zero: the divisor of [change_quant], [change_bitrate] and their
    counterparts of version 1.5 is [steps], which [main] accepts from 1
    upwards only and which no callback changes. *)
Theorem no_division_by_zero (atoi_MAX_BR : Z) :
  (forall (opts : list V14.option_arg) (info : V14.stream_info)
          (opens : list Z) (cbs : list V14.callback),
      V14.configure atoi_MAX_BR opts = Some info ->
      run (V14.main_loop cbs) info opens <> Trap DivideError)
  /\ (forall (opts : list V15.option_arg) (info : V15.StreamInfo)
             (opens : list Z) (cbs : list V15.callback),
      V15.configure atoi_MAX_BR opts = Some info ->
      run (V15.main_loop cbs) info opens <> Trap DivideError).
Proof.
  split.
  - intros opts info opens cbs Hc.
    destruct (accepted14 atoi_MAX_BR opts info Hc)
      as (_ & _ & _ & _ & _ & Hst & _).
    exact (main_loop_no_division14 info cbs Hst (World info [] opens) eq_refl).
  - intros opts info opens cbs Hc.
    destruct (accepted15 atoi_MAX_BR opts info Hc)
      as (_ & _ & _ & _ & _ & Hst & _).
    exact (main_loop_no_division15 info cbs Hst (World info [] opens) eq_refl).
Qed.

(** X11 where [atoi(MAX_BR)] is [-1], on version 1.4 started with
    [--steps 2 --min-bitrate 5]: two clients connect, a status is asked for,
    and both leave. *)
Lemma no_division_by_zero_witness :
  V14.configure (-1) [V14.opt_steps 2; V14.opt_min_bitrate 5]
  = Some (V14.set_min_bitrate (-1) (V14.set_steps 1 V14.default_info))
  /\ run (V14.main_loop
            [V14.client_connected no_elements;
             V14.media_configure static_pipeline;
             V14.client_connected no_elements;
             V14.command_poll (list_ascii_of_string "status" ++ [newline]);
             V14.client_closed;
             V14.client_closed])
       (V14.set_min_bitrate (-1) (V14.set_steps 1 V14.default_info)) []
     <> Trap DivideError.
Proof.
  split; [vm_compute; reflexivity|].
  apply (proj1 (no_division_by_zero (-1))
           [V14.opt_steps 2; V14.opt_min_bitrate 5]).
  vm_compute. reflexivity.
Defined.

(** ** What the status reports say *)





















(** ** The handler of [media-configure] *)

Lemma effects_emits_quiet {S X : Type} (f : event -> list X)
    (w w' : world S) (ws : list event) :
  (forall e, reply_or_log e || is_set_property e = true -> f e = []) ->
  effects w w' ws -> emits f w w' [].
Proof.
  intros Hf (tr & Hout & _ & Ha). exists tr. split; [exact Hout|].
  clear Hout. induction tr as [|e tr IH]; [reflexivity|].
  cbn [forallb] in Ha. apply andb_prop in Ha as [He Ha].
  cbn [flat_map]. now rewrite (Hf e He), IH.
Qed.

Lemma media_configure_connects_quiet (e : event) :
  reply_or_log e || is_set_property e = true ->
  media_configure_connects e = [].
Proof. destruct e; try reflexivity. discriminate. Qed.

Lemma same_session14_first_run (s s' : V14.stream_info) :
  V14.same_session s s' -> V14.first_run s' = V14.first_run s.
Proof.
  unfold V14.same_session, V14.session_of. destruct s, s'. cbn.
  intros H. injection H; intros; subst. reflexivity.
Qed.

Lemma _do_command_status_registers (f : string) (line : Z)
    (w : world V14.stream_info) :
  partial w (V14._do_command_status f line)
    (fun _ w' =>
       V14.first_run (w_si w') = V14.first_run (w_si w)
       /\ emits media_configure_connects w w' []).
Proof.
  apply total_partial. eapply total_weaken; [apply _do_command_status_spec|].
  cbn beta. intros _ w' [Hs He]. split.
  - now apply same_session14_first_run.
  - exact (effects_emits_quiet _ _ _ _ media_configure_connects_quiet He).
Qed.

Lemma adapt_quality_registers (w : world V14.stream_info) :
  partial w V14.adapt_quality
    (fun _ w' =>
       V14.first_run (w_si w') = V14.first_run (w_si w)
       /\ emits media_configure_connects w w' []).
Proof.
  destruct w as [s out o].
  unfold V14.adapt_quality, V14.change_bitrate, V14.change_quant, lift_div.
  exec.
  all: split; [reflexivity|].
  all: eapply emits_eq; [emits_build | reflexivity].
Qed.

Ltac call_registers spec :=
  lazymatch goal with
  | |- partial _ _ _ =>
      eapply partial_weaken;
      [ apply spec
      | cbn beta; let a := fresh "a" in let w1 := fresh "w" in
        intros a w1 [? ?];
        let s := fresh "s" in let out := fresh "out" in let o := fresh "o" in
        destruct w1 as [s out o]; cbn [w_si w_out w_open] in * ]
  end.

Ltac registers_close :=
  cbn [V14.first_run V14.num_cli V14.set_num_cli V14.set_connected
       V14.set_stream V14.set_first_run V15.first_run V15.numConnectedClients
       V15.set_numConnectedClients V15.set_connected V15.set_stream
       V15.set_first_run] in *;
  repeat match goal with
         | H : V14.first_run ?x = _ |- _ => rewrite H in *; clear H
         | H : V15.first_run ?x = _ |- _ => rewrite H in *; clear H
         end;
  first
    [ reflexivity
    | eapply emits_eq; [emits_build | cbn; reflexivity] ].

Lemma new_client_handler_registers (fresh : elements)
    (w : world V14.stream_info) :
  partial w (V14.new_client_handler fresh)
    (fun _ w' =>
       V14.first_run (w_si w') = false
       /\ emits media_configure_connects w w'
            (if (CInt.add (V14.num_cli (w_si w)) 1 =? 1)
                && V14.first_run (w_si w)
             then [tt] else [])).
Proof.
  destruct w as [s out o]. cbn [w_si]. unfold V14.new_client_handler.
  exec_with ltac:(idtac; first
    [ call_registers _do_command_status_registers
    | call_registers adapt_quality_registers ]).
  all: cbn [V14.first_run V14.num_cli V14.set_num_cli] in Heqb.
  all: rewrite Heqb.
  all: try (cbn [V14.first_run V14.num_cli V14.set_num_cli] in Heqb0;
            rewrite ?Heqb0).
  all: cbn [andb].
  all: split; registers_close.
Qed.

Lemma client_close_handler_registers (w : world V14.stream_info) :
  partial w V14.client_close_handler
    (fun _ w' =>
       V14.first_run (w_si w') = V14.first_run (w_si w)
       /\ emits media_configure_connects w w' []).
Proof.
  destruct w as [s out o]. cbn [w_si]. unfold V14.client_close_handler.
  exec_with ltac:(idtac; first
    [ call_registers _do_command_status_registers
    | call_registers adapt_quality_registers ]).
  all: split; registers_close.
Qed.

Lemma media_configure_handler_registers (bin : GstBin)
    (w : world V14.stream_info) :
  partial w (V14.media_configure_handler bin)
    (fun _ w' =>
       V14.first_run (w_si w') = V14.first_run (w_si w)
       /\ emits media_configure_connects w w' []).
Proof.
  destruct w as [s out o]. cbn [w_si]. unfold V14.media_configure_handler.
  exec.
  all: split; registers_close.
Qed.

Lemma reader_loop_registers (avail : list ascii) :
  forall (buf : list ascii) (w : world V14.stream_info),
    partial w (V14.reader_loop avail buf)
      (fun _ w' =>
         V14.first_run (w_si w') = V14.first_run (w_si w)
         /\ emits media_configure_connects w w' []).
Proof.
  assert (Hflush : forall l (w : world V14.stream_info),
             partial w (V14.reader_flush l)
               (fun _ w' =>
                  V14.first_run (w_si w') = V14.first_run (w_si w)
                  /\ emits media_configure_connects w w' [])).
  { intros l w. apply total_partial.
    eapply total_weaken; [apply reader_flush_spec|].
    cbn beta. intros _ w' [Hs He]. split.
    - now apply same_session14_first_run.
    - exact (effects_emits_quiet _ _ _ _ media_configure_connects_quiet He). }
  induction avail as [|c rest IH]; intros buf [s out o];
    cbn [V14.reader_loop].
  - apply partial_bind. eapply partial_weaken; [apply Hflush|].
    cbn beta. intros _ [s1 out1 o1] [H1 H2]. apply partial_ret.
    split; [exact H1 | exact H2].
  - destruct (negb (Ascii.eqb c newline)).
    + destruct (256 <=? _); [apply partial_trap | apply IH].
    + apply partial_bind. eapply partial_weaken; [apply Hflush|].
      cbn beta. intros _ [s1 out1 o1] [H1 H2].
      eapply partial_weaken; [apply IH|].
      cbn beta. intros _ [s2 out2 o2] [H3 H4]. cbn [w_si] in *. split.
      * congruence.
      * exact (emits_trans _ _ _ _ _ _ _ _ _ _ H2 H4).
Qed.

Lemma handle_registered14 (cb : V14.callback) (w : world V14.stream_info) :
  registered_once V14.first_run w ->
  partial w (V14.handle cb) (fun _ w' => registered_once V14.first_run w').
Proof.
  intros [K1 K2].
  assert (Hkeep : forall (w' : world V14.stream_info),
             V14.first_run (w_si w') = V14.first_run (w_si w) ->
             emits media_configure_connects w w' [] ->
             registered_once V14.first_run w').
  { intros w' Hf (tr & Hout & Htr). unfold registered_once.
    rewrite Hout, flat_map_app, Htr, app_nil_r, Hf. now split. }
  destruct cb; cbn [V14.handle].
  - eapply partial_weaken; [apply new_client_handler_registers|].
    cbn beta. intros _ w' [Hf (tr & Hout & Htr)]. unfold registered_once.
    rewrite Hout, flat_map_app, Htr, Hf. split; [|discriminate].
    destruct (V14.first_run (w_si w)).
    + rewrite (K2 eq_refl). destruct (_ =? 1); cbn; lia.
    + rewrite andb_false_r, app_nil_r. exact K1.
  - eapply partial_weaken; [apply media_configure_handler_registers|].
    cbn beta. intros _ w' [Hf He]. now apply Hkeep.
  - eapply partial_weaken; [apply client_close_handler_registers|].
    cbn beta. intros _ w' [Hf He]. now apply Hkeep.
  - apply partial_bind. eapply partial_weaken.
    + unfold V14.reader. apply reader_loop_registers.
    + cbn beta. intros _ w' [Hf He]. apply partial_ret. now apply Hkeep.
Qed.

Lemma main_loop_registered14 (cbs : list V14.callback) :
  forall w, registered_once V14.first_run w ->
            partial w (V14.main_loop cbs)
              (fun _ w' => registered_once V14.first_run w').
Proof.
  unfold V14.main_loop. induction cbs as [|cb cbs IH]; intros w K;
    cbn [for_each].
  - now apply partial_ret.
  - apply partial_bind. eapply partial_weaken; [now apply handle_registered14|].
    cbn beta. intros _ w1 K1. now apply IH.
Qed.

Lemma same_session15_first_run (s s' : V15.StreamInfo) :
  V15.same_session s s' -> V15.first_run s' = V15.first_run s.
Proof.
  unfold V15.same_session, V15.session_of. destruct s, s'. cbn.
  intros H. injection H; intros; subst. reflexivity.
Qed.

Lemma _doCommandSendStatus_registers (f : string) (line : Z)
    (w : world V15.StreamInfo) :
  partial w (V15._doCommandSendStatus f line)
    (fun _ w' =>
       V15.first_run (w_si w') = V15.first_run (w_si w)
       /\ emits media_configure_connects w w' []).
Proof.
  apply total_partial. eapply total_weaken; [apply _doCommandSendStatus_spec|].
  cbn beta. intros _ w' [Hs He]. split.
  - now apply same_session15_first_run.
  - exact (effects_emits_quiet _ _ _ _ media_configure_connects_quiet He).
Qed.

Lemma adaptQuality_registers (w : world V15.StreamInfo) :
  partial w V15.adaptQuality
    (fun _ w' =>
       V15.first_run (w_si w') = V15.first_run (w_si w)
       /\ emits media_configure_connects w w' []).
Proof.
  destruct w as [s out o].
  unfold V15.adaptQuality, V15.changeBitrate, V15.changeQuant, lift_div.
  exec.
  all: split; [reflexivity|].
  all: eapply emits_eq; [emits_build | reflexivity].
Qed.

Lemma newClientHandler_registers (fresh : elements)
    (w : world V15.StreamInfo) :
  partial w (V15.newClientHandler fresh)
    (fun _ w' =>
       V15.first_run (w_si w') = false
       /\ emits media_configure_connects w w'
            (if (CInt.add (V15.numConnectedClients (w_si w)) 1 =? 1)
                && V15.first_run (w_si w)
             then [tt] else [])).
Proof.
  destruct w as [s out o]. cbn [w_si]. unfold V15.newClientHandler.
  exec_with ltac:(idtac; first
    [ call_registers _doCommandSendStatus_registers
    | call_registers adaptQuality_registers ]).
  all: cbn [V15.first_run V15.numConnectedClients V15.set_numConnectedClients] in Heqb.
  all: rewrite Heqb.
  all: try (cbn [V15.first_run V15.numConnectedClients V15.set_numConnectedClients] in Heqb0;
            rewrite ?Heqb0).
  all: cbn [andb].
  all: split; registers_close.
Qed.

Lemma clientCloseHandler_registers (w : world V15.StreamInfo) :
  partial w V15.clientCloseHandler
    (fun _ w' =>
       V15.first_run (w_si w') = V15.first_run (w_si w)
       /\ emits media_configure_connects w w' []).
Proof.
  destruct w as [s out o]. cbn [w_si]. unfold V15.clientCloseHandler.
  exec_with ltac:(idtac; first
    [ call_registers _doCommandSendStatus_registers
    | call_registers adaptQuality_registers ]).
  all: split; registers_close.
Qed.

Lemma mediaConfigureHandler_registers (bin : GstBin)
    (w : world V15.StreamInfo) :
  partial w (V15.mediaConfigureHandler bin)
    (fun _ w' =>
       V15.first_run (w_si w') = V15.first_run (w_si w)
       /\ emits media_configure_connects w w' []).
Proof.
  destruct w as [s out o]. cbn [w_si]. unfold V15.mediaConfigureHandler.
  exec.
  all: split; registers_close.
Qed.

Lemma readerLoop_registers (avail : list ascii) :
  forall (buf : list ascii) (w : world V15.StreamInfo),
    partial w (V15.readerLoop avail buf)
      (fun _ w' =>
         V15.first_run (w_si w') = V15.first_run (w_si w)
         /\ emits media_configure_connects w w' []).
Proof.
  assert (Hflush : forall l (w : world V15.StreamInfo),
             partial w (V15.readerFlush l)
               (fun _ w' =>
                  V15.first_run (w_si w') = V15.first_run (w_si w)
                  /\ emits media_configure_connects w w' [])).
  { intros l w. apply total_partial.
    eapply total_weaken; [apply readerFlush_spec|].
    cbn beta. intros _ w' [Hs He]. split.
    - now apply same_session15_first_run.
    - exact (effects_emits_quiet _ _ _ _ media_configure_connects_quiet He). }
  induction avail as [|c rest IH]; intros buf [s out o];
    cbn [V15.readerLoop].
  - apply partial_bind. eapply partial_weaken; [apply Hflush|].
    cbn beta. intros _ [s1 out1 o1] [H1 H2]. apply partial_ret.
    split; [exact H1 | exact H2].
  - destruct (negb (Ascii.eqb c newline)).
    + destruct (256 <=? _); [apply partial_trap | apply IH].
    + apply partial_bind. eapply partial_weaken; [apply Hflush|].
      cbn beta. intros _ [s1 out1 o1] [H1 H2].
      eapply partial_weaken; [apply IH|].
      cbn beta. intros _ [s2 out2 o2] [H3 H4]. cbn [w_si] in *. split.
      * congruence.
      * exact (emits_trans _ _ _ _ _ _ _ _ _ _ H2 H4).
Qed.

Lemma handle_registered15 (cb : V15.callback) (w : world V15.StreamInfo) :
  registered_once V15.first_run w ->
  partial w (V15.handle cb) (fun _ w' => registered_once V15.first_run w').
Proof.
  intros [K1 K2].
  assert (Hkeep : forall (w' : world V15.StreamInfo),
             V15.first_run (w_si w') = V15.first_run (w_si w) ->
             emits media_configure_connects w w' [] ->
             registered_once V15.first_run w').
  { intros w' Hf (tr & Hout & Htr). unfold registered_once.
    rewrite Hout, flat_map_app, Htr, app_nil_r, Hf. now split. }
  destruct cb; cbn [V15.handle].
  - eapply partial_weaken; [apply newClientHandler_registers|].
    cbn beta. intros _ w' [Hf (tr & Hout & Htr)]. unfold registered_once.
    rewrite Hout, flat_map_app, Htr, Hf. split; [|discriminate].
    destruct (V15.first_run (w_si w)).
    + rewrite (K2 eq_refl). destruct (_ =? 1); cbn; lia.
    + rewrite andb_false_r, app_nil_r. exact K1.
  - eapply partial_weaken; [apply mediaConfigureHandler_registers|].
    cbn beta. intros _ w' [Hf He]. now apply Hkeep.
  - eapply partial_weaken; [apply clientCloseHandler_registers|].
    cbn beta. intros _ w' [Hf He]. now apply Hkeep.
  - apply partial_bind. eapply partial_weaken.
    + unfold V15.reader. apply readerLoop_registers.
    + cbn beta. intros _ w' [Hf He]. apply partial_ret. now apply Hkeep.
Qed.

Lemma main_loop_registered15 (cbs : list V15.callback) :
  forall w, registered_once V15.first_run w ->
            partial w (V15.main_loop cbs)
              (fun _ w' => registered_once V15.first_run w').
Proof.
  unfold V15.main_loop. induction cbs as [|cb cbs IH]; intros w K;
    cbn [for_each].
  - now apply partial_ret.
  - apply partial_bind. eapply partial_weaken; [now apply handle_registered15|].
    cbn beta. intros _ w1 K1. now apply IH.
Qed.

(** X13.  In both versions, whatever the history of callbacks, the handler
    of the [media-configure] signal is registered at most once: the flag
    [first_run] keeps a later first client from registering it again. *)
Theorem media_configure_registered_once :
  (forall (info : V14.stream_info) (opens : list Z) (cbs : list V14.callback)
          (w : world V14.stream_info),
      run (V14.main_loop cbs) info opens = Ok (tt, w) ->
      (List.length (flat_map media_configure_connects (w_out w)) <= 1)%nat)
  /\ (forall (info : V15.StreamInfo) (opens : list Z)
             (cbs : list V15.callback) (w : world V15.StreamInfo),
      run (V15.main_loop cbs) info opens = Ok (tt, w) ->
      (List.length (flat_map media_configure_connects (w_out w)) <= 1)%nat).
Proof.
  split.
  - intros info opens cbs w Hrun.
    refine (proj1 (main_loop_registered14 cbs (World info [] opens) _
                     tt w Hrun)).
    split; [cbn; lia | reflexivity].
  - intros info opens cbs w Hrun.
    refine (proj1 (main_loop_registered15 cbs (World info [] opens) _
                     tt w Hrun)).
    split; [cbn; lia | reflexivity].
Qed.

(** X13 on three clients that connect one after the other, each leaving
    before the next. *)
Lemma media_configure_registered_once_witness :
  exists w,
    run (V14.main_loop [V14.client_connected no_elements;
                        V14.client_closed;
                        V14.client_connected no_elements;
                        V14.client_closed;
                        V14.client_connected no_elements])
      V14.default_info [] = Ok (tt, w)
    /\ flat_map media_configure_connects (w_out w) = [tt]
    /\ (List.length (flat_map media_configure_connects (w_out w)) <= 1)%nat.
Proof.
  eexists. split; [vm_compute; reflexivity|].
  split; [vm_compute; reflexivity|].
  apply (proj1 media_configure_registered_once V14.default_info []
           [V14.client_connected no_elements;
            V14.client_closed;
            V14.client_connected no_elements;
            V14.client_closed;
            V14.client_connected no_elements]).
  vm_compute. reflexivity.
Defined.
